(** * MCP WhatsApp-Copilot bridge: sessions, cache and health aggregation

    A shallow embedding of the Python sources under [mcp-server/src]:
    - [health_service.py]  : [HealthService.check_overall_health];
    - [cache_service.py]   : [InMemoryCacheService], [RedisCacheService],
                             [CacheManager];
    - [session_manager.py] : [InMemorySessionManager], [RedisSessionManager];
    - [types.py]           : the [Session] dataclass and [SessionStatus];
    - [config.py]          : the configuration dataclasses, [validate_config];
    - [interfaces.py]      : [MCPFunctionRegistry].

    Python exceptions are an explicit [result]; the objects held by the
    managers are threaded as explicit state; dictionaries are stdpp [gmap]s
    (or association lists where insertion order is observable);
    [datetime] values are integers counting microseconds from the Unix
    epoch. *)

From Stdlib Require Import ZArith String Ascii List Bool Lia Permutation.
From Stdlib Require Import Floats Uint63 DecimalString.
From stdpp Require Import base option gmap strings list fin_maps.

Local Open Scope string_scope.
Local Open Scope Z_scope.

(* ===================================================================== *)
(** * Python preliminaries *)
(* ===================================================================== *)

Module Py.

(** The exception classes the modelled code raises, catches or lets
    through.  [BackendError] stands for whatever the Redis client raises
    ([redis.ConnectionError], [TimeoutError], ...); like all the others
    it derives from [Exception]. *)
Inductive exn : Type :=
| RuntimeError (msg : string)
| TypeError (msg : string)
| AttributeError (msg : string)
| KeyError (key : string)
| ValueError (msg : string)
| OverflowError (msg : string)
| ZeroDivisionError (msg : string)
| BackendError (msg : string).

(** Outcome of evaluating a Python expression or call. *)
Inductive result (A : Type) : Type :=
| Ok (a : A)
| Raise (e : exn).
Arguments Ok {A} a.
Arguments Raise {A} e.

Definition is_ok {A} (r : result A) : bool :=
  match r with Ok _ => true | Raise _ => false end.

(** [str(e)] is not modelled beyond the message carried by the exception. *)
Definition exn_str (e : exn) : string :=
  match e with
  | RuntimeError m | TypeError m | AttributeError m
  | ValueError m | OverflowError m | ZeroDivisionError m
  | BackendError m => m
  | KeyError k => "'" +:+ k +:+ "'"
  end.

#[local] Set Warnings "-register-all".

(** Python values as far as the cache and the session records need
    them.  [VTime] is a naive [datetime], in microseconds; [VEnum] is a
    member of a [str]-mixin [Enum], with its name and its value. *)
Inductive value : Type :=
| VNone
| VBool (b : bool)
| VInt (z : Z)
| VStr (s : string)
| VTime (t : Z)
| VFloat (f : float)
| VEnum (name val : string)
| VList (l : list value)
| VDict (d : list (string * value)).

(** [v is None] *)
Definition is_None (v : value) : bool :=
  match v with VNone => true | _ => false end.

(** A Python [dict] keeps its keys in insertion order; assigning to a key
    that is present replaces the value where it stands. *)
Fixpoint dict_set {V} (k : string) (v : V) (d : list (string * V))
  : list (string * V) :=
  match d with
  | [] => [(k, v)]
  | (k', v') :: rest =>
      if String.eqb k k' then (k, v) :: rest
      else (k', v') :: dict_set k v rest
  end.

(** [d.update(other)] *)
Definition dict_update {V} (d other : list (string * V)) : list (string * V) :=
  fold_left (fun acc kv => dict_set (fst kv) (snd kv) acc) other d.

Fixpoint dict_get {V} (k : string) (d : list (string * V)) : option V :=
  match d with
  | [] => None
  | (k', v') :: rest => if String.eqb k k' then Some v' else dict_get k rest
  end.

(** [len(s)] for a [str]: the number of its code points.  A string of the
    model is the UTF-8 encoding of the [str], in which every byte starts a
    code point but the continuation bytes, [0x80] to [0xBF]. *)
Fixpoint str_len (s : string) : nat :=
  match s with
  | EmptyString => O
  | String c rest =>
      let b := nat_of_ascii c in
      if Nat.leb 128 b && Nat.ltb b 192 then str_len rest
      else S (str_len rest)
  end.

End Py.
Export Py.

(* ===================================================================== *)
(** * The process environment and the monad of methods *)
(* ===================================================================== *)

Module Sys.

(** What a method reaches outside its own object: the wall clock
    ([datetime.utcnow()], microseconds), [uuid4()] and the module's
    [logger].  The clock and the identifier source are given by their
    successive answers; [reads] and [draws] count how many were
    consumed. *)
Record env : Type := mkEnv {
  clock : nat -> Z;
  reads : nat;
  uuids : nat -> string;
  draws : nat;
  log : list (string * string)
}.

(** An [async def] method of an object with state [S]: it runs to an
    outcome, and leaves the object and the environment as they were when
    it returned or raised. *)
Definition M (S A : Type) : Type := S -> env -> result A * S * env.

Definition ret {S A} (a : A) : M S A := fun s e => (Ok a, s, e).

Definition raise {S A} (x : exn) : M S A := fun s e => (Raise x, s, e).

(** Lifting an outcome into a method. *)
Definition eval {S A} (r : result A) : M S A :=
  match r with
  | Ok a => ret a
  | Raise x => raise x
  end.

Definition bind {S A B} (c : M S A) (k : A -> M S B) : M S B :=
  fun s e =>
    match c s e with
    | (Ok a, s', e') => k a s' e'
    | (Raise x, s', e') => (Raise x, s', e')
    end.

(** [try: c  except Exception as x: h x] *)
Definition try_except {S A} (c : M S A) (h : exn -> M S A) : M S A :=
  fun s e =>
    match c s e with
    | (Ok a, s', e') => (Ok a, s', e')
    | (Raise x, s', e') => h x s' e'
    end.

Definition get_self {S} : M S S := fun s e => (Ok s, s, e).

Definition modify_self {S} (f : S -> S) : M S unit :=
  fun s e => (Ok tt, f s, e).

(** [datetime.utcnow()] *)
Definition utcnow {S} : M S Z :=
  fun s e =>
    (Ok (clock e (reads e)), s,
     mkEnv (clock e) (Datatypes.S (reads e)) (uuids e) (draws e) (log e)).

(** [str(uuid4())] *)
Definition uuid4 {S} : M S string :=
  fun s e =>
    (Ok (uuids e (draws e)), s,
     mkEnv (clock e) (reads e) (uuids e) (Datatypes.S (draws e)) (log e)).

(** [logger.<level>(msg)] *)
Definition logger {S} (level msg : string) : M S unit :=
  fun s e =>
    (Ok tt, s,
     mkEnv (clock e) (reads e) (uuids e) (draws e) (log e ++ [(level, msg)])).

(** The environment once [logger.<level>(msg)] was called. *)
Definition logged (level msg : string) (e : env) : env :=
  mkEnv (clock e) (reads e) (uuids e) (draws e) (log e ++ [(level, msg)]).

(** Running a method of a component held in a field of the object. *)
Definition lift {S T A} (proj : S -> T) (inj : T -> S -> S) (c : M T A)
  : M S A :=
  fun s e =>
    match c (proj s) e with
    | (r, t', e') => (r, inj t' s, e')
    end.

(** [n] seconds, in microseconds. *)
Definition seconds (n : Z) : Z := n * 1000000.

(** [datetime.min] (0001-01-01 00:00:00) and [datetime.max]
    (9999-12-31 23:59:59.999999), in microseconds from the Unix epoch. *)
Definition datetime_min : Z := -62135596800000000.
Definition datetime_max : Z := 253402300799999999.

(** [timedelta(seconds=n)] for an integer [n], in microseconds.  The
    constructor splits its argument into days, seconds and microseconds
    and raises [OverflowError] when the days exceed 999999999 in
    magnitude (CPython words the message after the number of days). *)
Definition timedelta_seconds (n : Z) : result Z :=
  let days := n / 86400 in
  if (-999999999 <=? days) && (days <=? 999999999) then Ok (seconds n)
  else Raise (OverflowError "days out of range for timedelta").

(** [dt + delta] and [dt - delta] for a [datetime] and a [timedelta]:
    [OverflowError] when the result is no [datetime]. *)
Definition datetime_add (t d : Z) : result Z :=
  if (datetime_min <=? t + d) && (t + d <=? datetime_max) then Ok (t + d)
  else Raise (OverflowError "date value out of range").

Definition datetime_sub (t d : Z) : result Z :=
  if (datetime_min <=? t - d) && (t - d <=? datetime_max) then Ok (t - d)
  else Raise (OverflowError "date value out of range").

(** [t + timedelta(seconds=n)] and [t - timedelta(seconds=n)]: the
    [timedelta] is built first. *)
Definition plus_seconds (t n : Z) : result Z :=
  match timedelta_seconds n with
  | Ok d => datetime_add t d
  | Raise x => Raise x
  end.

Definition minus_seconds (t n : Z) : result Z :=
  match timedelta_seconds n with
  | Ok d => datetime_sub t d
  | Raise x => Raise x
  end.

(** The environment as it stands once [n] more clock readings were taken. *)
Definition after_reads (n : nat) (e : env) : env :=
  mkEnv (clock e) (reads e + n)%nat (uuids e) (draws e) (log e).

(** The next answer of the clock. *)
Definition now (e : env) : Z := clock e (reads e).

(** A method keeps a relation between the object as it found it and the
    object as it leaves it, whether it returns or raises. *)
Definition keeps {S A} (rel : S -> S -> Prop) (c : M S A) : Prop :=
  forall s e, rel s (snd (fst (c s e))).

(** A method that returns returns a result with the property [P]. *)
Definition yields {S A} (P : A -> Prop) (c : M S A) : Prop :=
  forall s e,
    match fst (fst (c s e)) with
    | Ok a => P a
    | Raise _ => True
    end.

(** A method never raises, and its result has the property [P]. *)
Definition total {S A} (P : A -> Prop) (c : M S A) : Prop :=
  forall s e, exists a, fst (fst (c s e)) = Ok a /\ P a.

End Sys.
Export Sys.

Declare Scope py_scope.
Delimit Scope py_scope with py.
Notation "x <- c ;; k" := (bind c (fun x => k))
  (at level 100, c at next level, right associativity) : py_scope.
Notation "c ;;; k" := (bind c (fun _ => k))
  (at level 100, right associativity) : py_scope.
Local Open Scope py_scope.

(* ===================================================================== *)
(** * Python numbers: true division and [round] *)
(* ===================================================================== *)

Module PyFloat.

(** [float(z)]: the binary64 number nearest to the integer. *)
Definition float_of_Z (z : Z) : float :=
  SF2Prim (binary_normalize prec emax z 0 false).

(** The binary64 number nearest to the quotient [a / b] of two integers,
    ties to even, for [b] other than zero.  The quotient is cut to an
    integer of 56 bits or more, the last of which records whether anything
    was cut off, and that integer is rounded once. *)
Definition nearest_quotient (a b : Z) : float :=
  let k := 55 + Z.log2_up (Z.abs b) - Z.log2 (Z.abs a) in
  let num := if 0 <=? k then Z.abs a * 2 ^ k else Z.abs a in
  let den := if 0 <=? k then Z.abs b else Z.abs b * 2 ^ (- k) in
  let q := num / den in
  let sticky := if num mod den =? 0 then 0 else 1 in
  let m := 2 * q + sticky in
  let negative := xorb (a <? 0) (b <? 0) in
  SF2Prim (binary_normalize prec emax (if negative then - m else m) (- k - 1)
             negative).

(** [a / b] on integers: Python rounds the exact quotient once.  It raises
    [ZeroDivisionError] for a zero divisor and [OverflowError] when the
    quotient rounds to no finite float, which is from [2^1024 - 2^970]
    on. *)
Definition int_truediv (a b : Z) : result float :=
  if b =? 0 then Raise (ZeroDivisionError "division by zero")
  else if (2 ^ 1024 - 2 ^ 970) * Z.abs b <=? Z.abs a
       then Raise (OverflowError "integer division result too large for a float")
       else Ok (nearest_quotient a b).

(** Rounding half to even of [m * 2^e] to an integer. *)
Definition round_half_even (m e : Z) : Z :=
  if 0 <=? e then m * 2 ^ e
  else
    let d := 2 ^ (- e) in
    let q := m / d in
    let r := m mod d in
    if 2 * r <? d then q
    else if d <? 2 * r then q + 1
    else if Z.even q then q else q + 1.

(** [round(x, 2)] for a float: the exact value of [x] times 100 is
    rounded half to even to an integer number of hundredths (digit
    generation in CPython works on the exact binary value), and the
    float nearest to that decimal is returned.  Zeros, infinities and NaN
    are returned as they are. *)
Definition round2 (x : float) : float :=
  match Prim2SF x with
  | S754_finite sgn m e =>
      let h := round_half_even (Z.pos m * 100) e in
      let r := nearest_quotient h 100 in
      if sgn then (- r)%float else r
  | _ => x
  end.

End PyFloat.

(* ===================================================================== *)
(** * hashlib.sha256 (FIPS 180-4), for the cache keys *)
(* ===================================================================== *)

Module Sha256.

(** 32-bit words are integers in [0, 2^32); additions wrap. *)
Definition w32 (x : Z) : Z := x mod 0x100000000.

Definition add32 (a b : Z) : Z := w32 (a + b).

Definition rotr (n x : Z) : Z :=
  Z.lor (Z.shiftr x n) (w32 (Z.shiftl x (32 - n))).

Definition Ch (x y z : Z) : Z :=
  Z.lxor (Z.land x y) (Z.land (Z.lxor x 0xffffffff) z).

Definition Maj (x y z : Z) : Z :=
  Z.lxor (Z.lxor (Z.land x y) (Z.land x z)) (Z.land y z).

Definition bsig0 (x : Z) : Z :=
  Z.lxor (Z.lxor (rotr 2 x) (rotr 13 x)) (rotr 22 x).

Definition bsig1 (x : Z) : Z :=
  Z.lxor (Z.lxor (rotr 6 x) (rotr 11 x)) (rotr 25 x).

Definition ssig0 (x : Z) : Z :=
  Z.lxor (Z.lxor (rotr 7 x) (rotr 18 x)) (Z.shiftr x 3).

Definition ssig1 (x : Z) : Z :=
  Z.lxor (Z.lxor (rotr 17 x) (rotr 19 x)) (Z.shiftr x 10).

(** Trial division, enough for the primes up to 311. *)
Definition is_prime (p : Z) : bool :=
  forallb (fun d => negb (p mod Z.of_nat d =? 0))
          (seq 2 (Z.to_nat p - 2)).

Definition first_primes : list Z :=
  List.filter is_prime (map Z.of_nat (seq 2 310)).

(** The integer cube root, found bit by bit from the top. *)
Fixpoint cbrt_bits (bits : nat) (n acc : Z) : Z :=
  match bits with
  | O => acc
  | S b =>
      let c := acc + 2 ^ Z.of_nat b in
      if c * c * c <=? n then cbrt_bits b n c else cbrt_bits b n acc
  end.

(** The round constants: the first 32 bits of the fractional parts of the
    cube roots of the first 64 primes. *)
Definition K256 : list Z :=
  Eval vm_compute in
    map (fun p => w32 (cbrt_bits 40 (p * 2 ^ 96) 0)) first_primes.

Record state : Type := mkState {
  h0 : Z; h1 : Z; h2 : Z; h3 : Z; h4 : Z; h5 : Z; h6 : Z; h7 : Z
}.

(** The initial hash value: the first 32 bits of the fractional parts of
    the square roots of the first 8 primes. *)
Definition frac_sqrt (p : Z) : Z := w32 (Z.sqrt (p * 2 ^ 64)).

Definition H_init : state :=
  Eval vm_compute in
    mkState (frac_sqrt 2) (frac_sqrt 3) (frac_sqrt 5) (frac_sqrt 7)
            (frac_sqrt 11) (frac_sqrt 13) (frac_sqrt 17) (frac_sqrt 19).

(** The bytes of a string. *)
Fixpoint bytes_of (s : string) : list Z :=
  match s with
  | EmptyString => []
  | String a s' => Z.of_N (N_of_ascii a) :: bytes_of s'
  end.

(** Big-endian bytes of [x], [n] of them. *)
Fixpoint be_bytes (n : nat) (x : Z) : list Z :=
  match n with
  | O => []
  | S n' => (Z.shiftr x (8 * Z.of_nat n')) mod 256 :: be_bytes n' x
  end.

(** Padding: a one bit, zeros up to 56 modulo 64, the bit length on 8
    bytes. *)
Definition pad (msg : list Z) : list Z :=
  let len := Z.of_nat (length msg) in
  let zeros := Z.to_nat ((55 - len) mod 64) in
  msg ++ [0x80] ++ repeat 0 zeros ++ be_bytes 8 (8 * len).

Fixpoint words_of (bs : list Z) : list Z :=
  match bs with
  | a :: b :: c :: d :: rest =>
      (((a * 256 + b) * 256 + c) * 256 + d) :: words_of rest
  | _ => []
  end.

(** The message schedule: [n] more words after those in [w]. *)
Fixpoint schedule (n : nat) (w : list Z) : list Z :=
  match n with
  | O => w
  | S n' =>
      let t := length w in
      let x :=
        add32 (add32 (ssig1 (nth (t - 2) w 0)) (nth (t - 7) w 0))
              (add32 (ssig0 (nth (t - 15) w 0)) (nth (t - 16) w 0)) in
      schedule n' (w ++ [x])
  end.

Definition round (s : state) (kw : Z * Z) : state :=
  let '(k, w) := kw in
  let t1 := add32 (add32 (add32 (h7 s) (bsig1 (h4 s)))
                         (add32 (Ch (h4 s) (h5 s) (h6 s)) k)) w in
  let t2 := add32 (bsig0 (h0 s)) (Maj (h0 s) (h1 s) (h2 s)) in
  mkState (add32 t1 t2) (h0 s) (h1 s) (h2 s)
          (add32 (h3 s) t1) (h4 s) (h5 s) (h6 s).

Definition compress (s : state) (block : list Z) : state :=
  let w := schedule 48 (words_of block) in
  let r := fold_left round (combine K256 w) s in
  mkState (add32 (h0 s) (h0 r)) (add32 (h1 s) (h1 r))
          (add32 (h2 s) (h2 r)) (add32 (h3 s) (h3 r))
          (add32 (h4 s) (h4 r)) (add32 (h5 s) (h5 r))
          (add32 (h6 s) (h6 r)) (add32 (h7 s) (h7 r)).

(** The blocks of 64 bytes, [n] of them. *)
Fixpoint blocks (n : nat) (bs : list Z) : list (list Z) :=
  match n with
  | O => []
  | S n' => firstn 64 bs :: blocks n' (skipn 64 bs)
  end.

Definition digest (msg : list Z) : state :=
  let p := pad msg in
  fold_left compress (blocks (length p / 64) p) H_init.

Definition hex_digit (n : Z) : ascii :=
  ascii_of_N (Z.to_N (if n <? 10 then 48 + n else 87 + n)).

Definition hex8 (x : Z) (rest : string) : string :=
  String (hex_digit (Z.shiftr x 28 mod 16))
  (String (hex_digit (Z.shiftr x 24 mod 16))
  (String (hex_digit (Z.shiftr x 20 mod 16))
  (String (hex_digit (Z.shiftr x 16 mod 16))
  (String (hex_digit (Z.shiftr x 12 mod 16))
  (String (hex_digit (Z.shiftr x 8 mod 16))
  (String (hex_digit (Z.shiftr x 4 mod 16))
  (String (hex_digit (x mod 16)) rest))))))).

(** [.hexdigest()] *)
Definition hexdigest (s : state) : string :=
  hex8 (h0 s) (hex8 (h1 s) (hex8 (h2 s) (hex8 (h3 s)
  (hex8 (h4 s) (hex8 (h5 s) (hex8 (h6 s) (hex8 (h7 s) ""))))))).

(** [sha256(data).hexdigest()], the data given as the string of its
    bytes. *)
Definition sha256_hex (data : string) : string :=
  hexdigest (digest (bytes_of data)).

End Sha256.

(* ===================================================================== *)
(** * cache_service.py *)
(* ===================================================================== *)

Module Cache.
Import PyFloat.

(** ** [ICacheService] (interfaces.py), as [CacheManager] uses it *)
Class ICacheService (C : Type) : Type := {
  svc_get : string -> string -> M C value;
  svc_set : string -> value -> option Z -> string -> M C bool;
  svc_delete : string -> string -> M C bool;
  svc_exists : string -> string -> M C bool;
  svc_clear_namespace : string -> M C Z;
  svc_get_stats : M C (list (string * value))
}.

(** ** [InMemoryCacheService] *)

(** One cache entry: the dictionary with keys ["value"], ["expires_at"]
    and ["created_at"]; [_is_expired] allows for an entry without
    ["expires_at"]. *)
Record entry : Type := mkEntry {
  entry_value : value;
  expires_at : option Z;
  created_at : Z
}.

Record InMemoryCacheService : Type := mkInMemoryCache {
  cache : gmap string entry;
  default_ttl : Z
}.

(** [__init__] *)
Definition InMemoryCacheService_init : InMemoryCacheService :=
  {| cache := ∅; default_ttl := 3600 |}.

Definition set_cache (c : gmap string entry) (self : InMemoryCacheService)
  : InMemoryCacheService :=
  {| cache := c; default_ttl := default_ttl self |}.

(** [_make_key] *)
Definition _make_key (key namespace : string) : string :=
  namespace +:+ ":" +:+ key.

(** [_is_expired]: reads the clock only when the entry has an expiry. *)
Definition _is_expired (cache_entry : entry) : M InMemoryCacheService bool :=
  match expires_at cache_entry with
  | None => ret false
  | Some t => now <- utcnow ;; ret (t <? now)
  end.

(** [ttl or self.default_ttl]: [None] and [0] are both falsy. *)
Definition ttl_or (ttl : option Z) (default : Z) : Z :=
  match ttl with
  | None => default
  | Some t => if t =? 0 then default else t
  end.

Definition get (key namespace : string) : M InMemoryCacheService value :=
  let cache_key := _make_key key namespace in
  self <- get_self ;;
  match cache self !! cache_key with
  | None => ret VNone
  | Some e =>
      expired <- _is_expired e ;;
      if expired : bool then
        modify_self (fun self => set_cache (delete cache_key (cache self)) self) ;;;
        ret VNone
      else ret (entry_value e)
  end.

(** [set]: the expiry is computed before anything is stored, so the
    [OverflowError] of an expiry that [timedelta] or [datetime] cannot hold
    leaves [set] with the cache as it was. *)
Definition set (key : string) (v : value) (ttl : option Z)
    (namespace : string) : M InMemoryCacheService bool :=
  let cache_key := _make_key key namespace in
  self <- get_self ;;
  let ttl := ttl_or ttl (default_ttl self) in
  t0 <- utcnow ;;
  expires <- eval (plus_seconds t0 ttl) ;;
  t1 <- utcnow ;;
  modify_self (fun self =>
    set_cache (<[cache_key := mkEntry v (Some expires) t1]> (cache self)) self) ;;;
  ret true.

Definition delete_ (key namespace : string) : M InMemoryCacheService bool :=
  let cache_key := _make_key key namespace in
  self <- get_self ;;
  match cache self !! cache_key with
  | Some _ =>
      modify_self (fun self => set_cache (delete cache_key (cache self)) self) ;;;
      ret true
  | None => ret false
  end.

Definition exists_ (key namespace : string) : M InMemoryCacheService bool :=
  let cache_key := _make_key key namespace in
  self <- get_self ;;
  match cache self !! cache_key with
  | None => ret false
  | Some e =>
      expired <- _is_expired e ;;
      if expired : bool then
        modify_self (fun self => set_cache (delete cache_key (cache self)) self) ;;;
        ret false
      else ret true
  end.

Definition clear_namespace (namespace : string) : M InMemoryCacheService Z :=
  self <- get_self ;;
  let keys_to_delete :=
    List.filter (fun k => String.prefix (namespace +:+ ":") k)
                (map fst (map_to_list (cache self))) in
  modify_self (fun self =>
    set_cache (fold_right (fun k c => delete k c) (cache self) keys_to_delete) self) ;;;
  ret (Z.of_nat (length keys_to_delete)).

(** [sum(1 for entry in ... if self._is_expired(entry))] *)
Fixpoint count_expired (entries : list entry) : M InMemoryCacheService Z :=
  match entries with
  | [] => ret 0
  | e :: rest =>
      expired <- _is_expired e ;;
      n <- count_expired rest ;;
      ret ((if expired : bool then 1 else 0) + n)
  end.

Definition get_stats : M InMemoryCacheService (list (string * value)) :=
  self <- get_self ;;
  let total_keys := Z.of_nat (size (cache self)) in
  expired_keys <- count_expired (map snd (map_to_list (cache self))) ;;
  ret [("total_keys", VInt total_keys);
       ("expired_keys", VInt expired_keys);
       ("active_keys", VInt (total_keys - expired_keys));
       ("memory_usage", VStr "N/A (in-memory)");
       ("cache_type", VStr "in_memory")].

#[export] Instance InMemory_ICacheService : ICacheService InMemoryCacheService := {
  svc_get := get;
  svc_set := set;
  svc_delete := delete_;
  svc_exists := exists_;
  svc_clear_namespace := clear_namespace;
  svc_get_stats := get_stats
}.

(** ** [CacheManager] *)

Record CacheManager (C : Type) : Type := mkCacheManager {
  cache_service : C;
  hit_count : Z;
  miss_count : Z
}.
Arguments mkCacheManager {C} _ _ _.
Arguments cache_service {C} _.
Arguments hit_count {C} _.
Arguments miss_count {C} _.

(** [__init__] *)
Definition CacheManager_init {C} (svc : C) : CacheManager C :=
  mkCacheManager svc 0 0.

(** [await self.cache_service.<method>(...)] *)
Definition on_service {C A} (c : M C A) : M (CacheManager C) A :=
  lift cache_service
       (fun svc self => mkCacheManager svc (hit_count self) (miss_count self))
       c.

(** A callable of no arguments, synchronous or a coroutine function: it
    may read the clock, log, and raise. *)
Definition callable : Type := env -> result value * env.

Definition call {S} (f : callable) : M S value :=
  fun s e => let '(r, e') := f e in (r, s, e').

Definition get_or_set {C} `{ICacheService C} (key : string)
    (value_func : callable) (ttl : option Z) (namespace : string)
  : M (CacheManager C) value :=
  cached_value <- on_service (svc_get key namespace) ;;
  if negb (is_None cached_value) then
    modify_self (fun self =>
      mkCacheManager (cache_service self) (hit_count self + 1) (miss_count self)) ;;;
    ret cached_value
  else
    modify_self (fun self =>
      mkCacheManager (cache_service self) (hit_count self) (miss_count self + 1)) ;;;
    new_value <- call value_func ;;
    _ <- on_service (svc_set key new_value ttl namespace) ;;
    ret new_value.

Fixpoint mget_loop {C} `{ICacheService C} (keys : list string)
    (namespace : string) (results : list (string * value))
  : M (CacheManager C) (list (string * value)) :=
  match keys with
  | [] => ret results
  | key :: rest =>
      v <- on_service (svc_get key namespace) ;;
      mget_loop rest namespace
        (if negb (is_None v) then dict_set key v results else results)
  end.

Definition mget {C} `{ICacheService C} (keys : list string)
    (namespace : string) : M (CacheManager C) (list (string * value)) :=
  mget_loop keys namespace [].

Fixpoint mset_loop {C} `{ICacheService C} (items : list (string * value))
    (ttl : option Z) (namespace : string) (success_count : Z)
  : M (CacheManager C) Z :=
  match items with
  | [] => ret success_count
  | (key, v) :: rest =>
      ok <- on_service (svc_set key v ttl namespace) ;;
      mset_loop rest ttl namespace
        (if ok : bool then success_count + 1 else success_count)
  end.

Definition mset {C} `{ICacheService C} (data : list (string * value))
    (ttl : option Z) (namespace : string) : M (CacheManager C) Z :=
  mset_loop data ttl namespace 0.

(** [context or '']: an absent context and an empty one are both falsy. *)
Definition str_or_empty (context : option string) : string :=
  match context with
  | Some c => c
  | None => ""
  end.

(** The f-string that is hashed.  A [str] stands for its UTF-8 encoding,
    which concatenation respects, so [content.encode()] is the string
    itself. *)
Definition suggestion_content (code language : string)
    (context : option string) : string :=
  code +:+ "|" +:+ language +:+ "|" +:+ str_or_empty context.

Definition cache_key_for_suggestion (code language : string)
    (context : option string) : string :=
  Sha256.sha256_hex (suggestion_content code language context).


Definition cache_key_for_explanation (code language : string) : string :=
  Sha256.sha256_hex ("explain|" +:+ code +:+ "|" +:+ language).

Definition cache_key_for_tests (function_code test_framework language : string)
  : string :=
  Sha256.sha256_hex
    ("tests|" +:+ function_code +:+ "|" +:+ test_framework +:+ "|" +:+ language).

(** [round(hit_ratio, 2)]: [hit_ratio] is the float
    [hit_count / total_requests * 100], or the integer [0]. *)
Definition hit_ratio_percent (hits misses : Z) : result value :=
  let total_requests := hits + misses in
  if 0 <? total_requests
  then match int_truediv hits total_requests with
       | Ok ratio => Ok (VFloat (round2 (ratio * float_of_Z 100)%float))
       | Raise x => Raise x
       end
  else Ok (VInt 0).

Definition get_cache_stats {C} `{ICacheService C}
  : M (CacheManager C) (list (string * value)) :=
  service_stats <- on_service svc_get_stats ;;
  self <- get_self ;;
  let total_requests := hit_count self + miss_count self in
  ratio <- eval (hit_ratio_percent (hit_count self) (miss_count self)) ;;
  ret (dict_update service_stats
         [("hit_count", VInt (hit_count self));
          ("miss_count", VInt (miss_count self));
          ("total_requests", VInt total_requests);
          ("hit_ratio_percent", ratio)]).

(** ** Vocabulary for the statements about the cache *)

(** The key is present and the value stored under it is [None]. *)
Definition stored_None (key namespace : string) (self : InMemoryCacheService)
  : Prop :=
  exists en, cache self !! _make_key key namespace = Some en
             /\ entry_value en = VNone.

(** The key is missing, or the value stored under it is [None]. *)
Definition None_or_absent (key namespace : string)
    (self : InMemoryCacheService) : Prop :=
  match cache self !! _make_key key namespace with
  | None => True
  | Some en => entry_value en = VNone
  end.

(** [n] calls of [get_or_set] in a row, with the same arguments; the
    values returned, first call first. *)
Fixpoint get_or_set_n {C} `{ICacheService C} (n : nat) (key : string)
    (value_func : callable) (ttl : option Z) (namespace : string)
  : M (CacheManager C) (list value) :=
  match n with
  | O => ret []
  | S n' =>
      v <- get_or_set key value_func ttl namespace ;;
      vs <- get_or_set_n n' key value_func ttl namespace ;;
      ret (v :: vs)
  end.

(** A callable that returns [v] and touches nothing. *)
Definition const_func (v : value) : callable := fun e => (Ok v, e).

(** The callable may read the clock, but does not set it. *)
Definition keeps_clock (f : callable) : Prop :=
  forall e, clock (snd (f e)) = clock e.

(** Whatever the clock of [e] answers, the instant [ttl] seconds later is
    a [datetime]. *)
Definition ttl_fits (ttl : Z) (e : env) : Prop :=
  forall i, is_ok (plus_seconds (clock e i) ttl) = true.

(** An environment whose clock stands still at [t]. *)
Definition frozen_env (t : Z) : env :=
  mkEnv (fun _ => t) 0 (fun _ => "") 0 [].

(** Whether a namespace holds the separator of [_make_key]. *)
Fixpoint has_colon (s : string) : bool :=
  match s with
  | EmptyString => false
  | String c rest => Ascii.eqb c ":" || has_colon rest
  end.

(** Whether the entry is expired for a clock that reads [t]. *)
Definition expired_at (t : Z) (en : entry) : bool :=
  match expires_at en with
  | None => false
  | Some x => x <? t
  end.

End Cache.

(* ===================================================================== *)
(** * types.py: what session_manager.py imports from it *)
(* ===================================================================== *)

Module Types.

(** An instance of a class: its attributes. *)
Definition object : Type := list (string * value).

(** A [@dataclass]: the class name and its fields, none of which has a
    default in [Session]. *)
Record dataclass : Type := mkDataclass {
  class_name : string;
  fields : list string
}.

(** A [class E(str, Enum)]: its members, each a name and a value. *)
Record enum : Type := mkEnum {
  enum_name : string;
  members : list (string * string)
}.

(** The names session_manager.py takes from the module: [Session] and
    [SessionStatus] ([SessionId] and [UserId] are aliases of [str]). *)
Record module_types : Type := mkTypes {
  Session : dataclass;
  SessionStatus : enum
}.

(** types.py as it stands in the repository. *)
Definition types_py : module_types :=
  {| Session :=
       mkDataclass "Session"
         ["id"; "whatsapp_user"; "vscode_workspace"; "status"; "created_at";
          "last_activity"; "context"; "active_suggestions"; "metadata"];
     SessionStatus :=
       mkEnum "SessionStatus"
         [("ACTIVE", "active"); ("INACTIVE", "inactive");
          ("EXPIRED", "expired"); ("BLOCKED", "blocked")] |}.

(** The fields that the constructor calls of session_manager.py pass,
    in the order they pass them. *)
Definition manager_fields : list string :=
  ["session_id"; "whatsapp_user"; "workspace"; "status"; "created_at";
   "last_activity"; "suggestions_count"; "commands_executed"].

(** A module of types that session_manager.py can run against: a
    [Session] with the fields it passes, and a [SessionStatus] with the two
    members it names, ACTIVE and ENDED. *)
Definition matches_manager (T : module_types) : Prop :=
  fields (Session T) = manager_fields
  /\ exists a n,
       dict_get "ACTIVE" (members (SessionStatus T)) = Some a
       /\ dict_get "ENDED" (members (SessionStatus T)) = Some n
       /\ a <> n.

(** Such a module, as tests/test_session_manager.py expects it: the
    status enumeration of types.py with ENDED added. *)
Definition types_expected : module_types :=
  {| Session := mkDataclass "Session" manager_fields;
     SessionStatus :=
       mkEnum "SessionStatus"
         [("ACTIVE", "active"); ("INACTIVE", "inactive");
          ("EXPIRED", "expired"); ("BLOCKED", "blocked");
          ("ENDED", "ended")] |}.

Definition mem (x : string) (l : list string) : bool :=
  existsb (String.eqb x) l.

(** [Cls(k1=v1, ...)], a call with keyword arguments only: a keyword that
    is no field is refused, then a field without argument; the instance
    holds the fields in their declared order. *)
Definition construct (c : dataclass) (kwargs : list (string * value))
  : result object :=
  match find (fun kv => negb (mem (fst kv) (fields c))) kwargs with
  | Some (k, _) =>
      Raise (TypeError (class_name c
               +:+ ".__init__() got an unexpected keyword argument '"
               +:+ k +:+ "'"))
  | None =>
      match List.filter (fun f => negb (mem f (map fst kwargs))) (fields c) with
      | [] =>
          Ok (map (fun f => (f, default VNone (dict_get f kwargs))) (fields c))
      | f :: _ =>
          Raise (TypeError (class_name c
                   +:+ ".__init__() missing required argument: '"
                   +:+ f +:+ "'"))
      end
  end.

(** [obj.attr] *)
Definition getattr (o : object) (attr : string) : result value :=
  match dict_get attr o with
  | Some v => Ok v
  | None =>
      Raise (AttributeError ("object has no attribute '" +:+ attr +:+ "'"))
  end.

(** [obj.attr = v]: instances of a plain dataclass take any attribute. *)
Definition setattr (o : object) (attr : string) (v : value) : object :=
  dict_set attr v o.

(** [E.NAME] *)
Definition enum_attr (en : enum) (name : string) : result value :=
  match dict_get name (members en) with
  | Some v => Ok (VEnum name v)
  | None =>
      Raise (AttributeError ("type object '" +:+ enum_name en
               +:+ "' has no attribute '" +:+ name +:+ "'"))
  end.

(** [E(value)] *)
Definition enum_call (en : enum) (v : string) : result value :=
  match find (fun m => String.eqb (snd m) v) (members en) with
  | Some (n, _) => Ok (VEnum n v)
  | None =>
      Raise (ValueError ("'" +:+ v +:+ "' is not a valid " +:+ enum_name en))
  end.

(** [member.value] *)
Definition enum_value (v : value) : result string :=
  match v with
  | VEnum _ s => Ok s
  | _ => Raise (AttributeError "object has no attribute 'value'")
  end.

(** [x == member] for a member of a [str]-mixin enum: the comparison of
    [str], so a member or a plain string with the member's value. *)
Definition eq_member (x member : value) : bool :=
  match x, member with
  | VEnum _ a, VEnum _ b => String.eqb a b
  | VStr a, VEnum _ b => String.eqb a b
  | _, _ => false
  end.

(** [a < b] on two [datetime]s; anything else is a [TypeError]. *)
Definition datetime_lt (a : value) (b : Z) : result bool :=
  match a with
  | VTime t => Ok (t <? b)
  | _ => Raise (TypeError "'<' not supported between these instances")
  end.

Definition opt_str (o : option string) : value :=
  match o with
  | Some s => VStr s
  | None => VNone
  end.

(** What [Session(session_id=..., ...)] raises against types.py. *)
Definition unexpected_session_id : exn :=
  TypeError "Session.__init__() got an unexpected keyword argument 'session_id'".

(** What [SessionStatus.ENDED] raises against types.py. *)
Definition no_ENDED : exn :=
  AttributeError "type object 'SessionStatus' has no attribute 'ENDED'".

(** What [session.session_id] raises on a [Session] of types.py. *)
Definition no_session_id : exn :=
  AttributeError "object has no attribute 'session_id'".

(** The record the managers' [create_session] builds when the
    constructor accepts it. *)
Definition new_session (sid user : string) (ws : option string) (a : string)
    (t_created t_activity : Z) : object :=
  [("session_id", VStr sid); ("whatsapp_user", VStr user);
   ("workspace", opt_str ws); ("status", VEnum "ACTIVE" a);
   ("created_at", VTime t_created); ("last_activity", VTime t_activity);
   ("suggestions_count", VInt 0); ("commands_executed", VList [])].

(** The session as [end_session] leaves it. *)
Definition ended_session (o : object) (n : string) (t : Z) : object :=
  setattr (setattr o "status" (VEnum "ENDED" n)) "last_activity" (VTime t).

Section Helpers.
Variable T : module_types.

(** [create_session] of types.py, the module-level helper (the session
    managers do not call it): a [Session] built with the declared
    fields, [generate_id()] being [str(uuid.uuid4())]. *)
Definition types_create_session {S} (whatsapp_user : string)
    (workspace : option string) : M S object :=
  now <- utcnow ;;
  id <- uuid4 ;;
  active <- eval (enum_attr (SessionStatus T) "ACTIVE") ;;
  eval (construct (Session T)
          [("id", VStr id);
           ("whatsapp_user", VStr whatsapp_user);
           ("vscode_workspace", opt_str workspace);
           ("status", active);
           ("created_at", VTime now);
           ("last_activity", VTime now);
           ("context", VNone);
           ("active_suggestions", VList []);
           ("metadata", VDict [])]).

End Helpers.

End Types.

(* ===================================================================== *)
(** * session_manager.py: [InMemorySessionManager] *)
(* ===================================================================== *)

Module InMemory.
Import Types.

Record InMemorySessionManager : Type := mkManager {
  sessions : gmap string object;
  user_sessions : gmap string string;
  session_ttl : Z
}.

(** [__init__] *)
Definition InMemorySessionManager_init : InMemorySessionManager :=
  mkManager ∅ ∅ (24 * 60 * 60).

Definition set_sessions (m : gmap string object) (self : InMemorySessionManager)
  : InMemorySessionManager :=
  mkManager m (user_sessions self) (session_ttl self).

Definition set_user_sessions (m : gmap string string)
    (self : InMemorySessionManager) : InMemorySessionManager :=
  mkManager (sessions self) m (session_ttl self).

(** A dictionary key taken from an attribute: identifiers are strings;
    a list or a dictionary is unhashable. *)
Definition as_key (v : value) : result (option string) :=
  match v with
  | VStr k => Ok (Some k)
  | VList _ | VDict _ => Raise (TypeError "unhashable type")
  | _ => Ok None
  end.

(** The environment after [create_session] failed in the constructor: one
    identifier drawn, the clock read twice. *)
Definition after_failed_create (e : env) : env :=
  mkEnv (clock e) (S (S (reads e))) (uuids e) (S (draws e)) (log e).

(** The attribute of a stored session, for the statements below. *)
Definition attr_of (self : InMemorySessionManager) (session_id attr : string)
  : option (result value) :=
  match sessions self !! session_id with
  | Some o => Some (getattr o attr)
  | None => None
  end.

Section WithTypes.
(** The module the manager was imported against. *)
Variable T : module_types.

(** The lookup that opens [create_session]: the user's session when it
    is there and Active. *)
Definition existing_active (whatsapp_user : string)
  : M InMemorySessionManager (option object) :=
  self <- get_self ;;
  match user_sessions self !! whatsapp_user with
  | Some existing_session_id =>
      match sessions self !! existing_session_id with
      | Some existing_session =>
          st <- eval (getattr existing_session "status") ;;
          active <- eval (enum_attr (SessionStatus T) "ACTIVE") ;;
          ret (if eq_member st active then Some existing_session else None)
      | None => ret None
      end
  | None => ret None
  end.

Definition create_session (whatsapp_user : string) (workspace : option string)
  : M InMemorySessionManager object :=
  existing <- existing_active whatsapp_user ;;
  match existing with
  | Some existing_session => ret existing_session
  | None =>
      sid <- uuid4 ;;
      active <- eval (enum_attr (SessionStatus T) "ACTIVE") ;;
      t_created <- utcnow ;;
      t_activity <- utcnow ;;
      session <- eval (construct (Session T)
                   [("session_id", VStr sid);
                    ("whatsapp_user", VStr whatsapp_user);
                    ("workspace", opt_str workspace);
                    ("status", active);
                    ("created_at", VTime t_created);
                    ("last_activity", VTime t_activity);
                    ("suggestions_count", VInt 0);
                    ("commands_executed", VList [])]) ;;
      id_attr <- eval (getattr session "session_id") ;;
      key <- eval (as_key id_attr) ;;
      modify_self (fun self =>
        set_sessions (<[default "" key := session]> (sessions self)) self) ;;;
      id_attr' <- eval (getattr session "session_id") ;;
      key' <- eval (as_key id_attr') ;;
      modify_self (fun self =>
        set_user_sessions
          (<[whatsapp_user := default "" key']> (user_sessions self)) self) ;;;
      logger "INFO" ("Created new in-memory session " +:+ default "" key
                     +:+ " for user " +:+ whatsapp_user) ;;;
      ret session
  end.

Definition get_session (session_id : string)
  : M InMemorySessionManager (option object) :=
  self <- get_self ;;
  ret (sessions self !! session_id).

(** [if session_id:] lets an empty identifier pass for a missing one. *)
Definition get_user_session (user_id : string)
  : M InMemorySessionManager (option object) :=
  self <- get_self ;;
  match user_sessions self !! user_id with
  | Some session_id =>
      if String.eqb session_id "" then ret None
      else ret (sessions self !! session_id)
  | None => ret None
  end.

(** The session object is shared with the dictionary: an assignment to
    one of its attributes shows in [sessions] at once. *)
Definition set_session_attr (session_id attr : string) (v : value)
  : M InMemorySessionManager unit :=
  modify_self (fun self =>
    set_sessions
      (alter (fun o => setattr o attr v) session_id (sessions self)) self).

Definition end_session (session_id : string) : M InMemorySessionManager unit :=
  self <- get_self ;;
  match sessions self !! session_id with
  | Some _ =>
      ended <- eval (enum_attr (SessionStatus T) "ENDED") ;;
      set_session_attr session_id "status" ended ;;;
      t <- utcnow ;;
      set_session_attr session_id "last_activity" (VTime t) ;;;
      self <- get_self ;;
      user <- eval (getattr (default [] (sessions self !! session_id))
                            "whatsapp_user") ;;
      key <- eval (as_key user) ;;
      match key with
      | Some u =>
          match user_sessions self !! u with
          | Some _ =>
              modify_self (fun self =>
                set_user_sessions (delete u (user_sessions self)) self)
          | None => ret tt
          end
      | None => ret tt
      end ;;;
      logger "INFO" ("Ended in-memory session " +:+ session_id)
  | None => ret tt
  end.

(** The first loop of [cleanup_expired_sessions]. *)
Fixpoint collect_expired (items : list (string * object)) (cutoff_time : Z)
  : result (list string) :=
  match items with
  | [] => Ok []
  | (session_id, session) :: rest =>
      match getattr session "last_activity" with
      | Raise x => Raise x
      | Ok la =>
          match datetime_lt la cutoff_time with
          | Raise x => Raise x
          | Ok b =>
              match collect_expired rest cutoff_time with
              | Raise x => Raise x
              | Ok l => Ok (if b : bool then session_id :: l else l)
              end
          end
      end
  end.

(** The second loop. *)
Fixpoint end_all (ids : list string) : M InMemorySessionManager unit :=
  match ids with
  | [] => ret tt
  | session_id :: rest => end_session session_id ;;; end_all rest
  end.

(** [self.sessions.items()] is walked in the order [map_to_list] gives;
    Python walks it in insertion order. *)
Definition cleanup_expired_sessions : M InMemorySessionManager Z :=
  t <- utcnow ;;
  self <- get_self ;;
  cutoff_time <- eval (minus_seconds t (session_ttl self)) ;;
  expired_sessions <-
    eval (collect_expired (map_to_list (sessions self)) cutoff_time) ;;
  end_all expired_sessions ;;;
  ret (Z.of_nat (length expired_sessions)).

End WithTypes.

(** The key a value makes in a dictionary whose keys are strings: a
    member of a [str]-mixin enumeration hashes and compares as its value; a
    list or a dictionary is unhashable; another value is a key, but none
    that a string equals. *)
Definition dict_key (v : value) : result (option string) :=
  match v with
  | VStr k | VEnum _ k => Ok (Some k)
  | VList _ | VDict _ => Raise (TypeError "unhashable type")
  | _ => Ok None
  end.

(** [update_session]: the new [last_activity] is assigned to the object
    handed in before [session.session_id] is read.  Identifiers are strings
    ([SessionId] is [str]); a session whose identifier is of another
    hashable type would go under a key the dictionary of the model does
    not have, and is left out of it. *)
Definition update_session (session : object) : M InMemorySessionManager unit :=
  t <- utcnow ;;
  let session := setattr session "last_activity" (VTime t) in
  id_attr <- eval (getattr session "session_id") ;;
  key <- eval (dict_key id_attr) ;;
  match key with
  | Some session_id =>
      modify_self (fun self =>
        set_sessions (<[session_id := session]> (sessions self)) self)
  | None => ret tt
  end.

(** The identifiers stored by the second manager are those stored by the
    first. *)
Definition same_ids (self self' : InMemorySessionManager) : Prop :=
  forall k, is_Some (sessions self' !! k) <-> is_Some (sessions self !! k).

(** Every session stored by the first manager is still stored by the
    second. *)
Definition keeps_ids (self self' : InMemorySessionManager) : Prop :=
  forall k, is_Some (sessions self !! k) -> is_Some (sessions self' !! k).

End InMemory.

(* ===================================================================== *)
(** * The Redis client and the library functions the Redis code calls *)
(* ===================================================================== *)

Module Redis.

(** Commands queued on a pipeline. *)
Inductive command : Type :=
| HSET (key : string) (mapping : list (string * value))
| EXPIRE (key : string) (ttl : Z)
| SET (key val : string) (ex : Z)
| SADD (key member : string)
| SREM (key member : string)
| DEL (key : string).

(** The methods of [redis.asyncio.Redis] (with [decode_responses=True])
    that the code awaits, over the state [R] of the connection and the
    server behind it.  Each may raise.  [execute] runs the commands
    queued on a pipeline. *)
Record client (R : Type) : Type := mkClient {
  ping : M R unit;
  get : string -> M R (option string);
  setex : string -> Z -> string -> M R unit;
  delete : list string -> M R Z;
  exists_ : string -> M R Z;
  keys : string -> M R (list string);
  hgetall : string -> M R (list (string * string));
  hset : string -> list (string * value) -> M R Z;
  expire : string -> Z -> M R bool;
  srem : string -> string -> M R Z;
  smembers : string -> M R (list string);
  scard : string -> M R Z;
  execute : list command -> M R unit;
  info : string -> M R (list (string * value));
  client_list : M R value
}.
Arguments ping {R} _.
Arguments get {R} _ _.
Arguments setex {R} _ _ _ _.
Arguments delete {R} _ _.
Arguments exists_ {R} _ _.
Arguments keys {R} _ _.
Arguments hgetall {R} _ _.
Arguments hset {R} _ _ _.
Arguments expire {R} _ _ _.
Arguments srem {R} _ _ _.
Arguments smembers {R} _ _.
Arguments scard {R} _ _.
Arguments execute {R} _ _.
Arguments info {R} _ _.
Arguments client_list {R} _.

(** Functions of the standard library ([datetime], [json], [int],
    string formatting) that the Redis code calls.  [None] stands for the
    [ValueError] the parsers raise ([json.JSONDecodeError] is one). *)
Record pylib : Type := mkLib {
  isoformat : Z -> string;
  fromisoformat : string -> option Z;
  json_dumps : value -> result string;
  json_dumps_default_str : value -> result string;
  json_loads : string -> option value;
  int_of_str : string -> option Z;
  format : value -> string
}.

(** [f"{v}"]: a string is inserted as it is. *)
Definition fstr (L : pylib) (v : value) : string :=
  match v with
  | VStr s => s
  | _ => format L v
  end.

(** ** A small Redis server, for concrete runs

    Strings, hashes and sets, each in its own key space; expiry times are
    recorded and not acted upon. *)
Record server : Type := mkServer {
  strings : gmap string string;
  hashes : gmap string (list (string * string));
  sets : gmap string (list string);
  ttls : gmap string Z
}.

Definition empty_server : server := mkServer ∅ ∅ ∅ ∅.

(** How the client encodes a field value it is given. *)
Definition encode (v : value) : string :=
  match v with
  | VStr s => s
  | VInt z => NilZero.string_of_int (Z.to_int z)
  | _ => ""
  end.

Definition delete_key (k : string) (r : server) : server :=
  mkServer (base.delete k (strings r)) (base.delete k (hashes r))
           (base.delete k (sets r)) (base.delete k (ttls r)).

Definition has_key (k : string) (r : server) : bool :=
  bool_decide (is_Some (strings r !! k))
  || bool_decide (is_Some (hashes r !! k))
  || bool_decide (is_Some (sets r !! k)).

Definition run_command (c : command) (r : server) : server :=
  match c with
  | HSET k mapping =>
      mkServer (strings r)
        (<[k := fold_left (fun h kv => dict_set (fst kv) (encode (snd kv)) h)
                          mapping (default [] (hashes r !! k))]> (hashes r))
        (sets r) (ttls r)
  | EXPIRE k t =>
      if has_key k r
      then mkServer (strings r) (hashes r) (sets r) (<[k := t]> (ttls r))
      else r
  | SET k v ex =>
      mkServer (<[k := v]> (strings r)) (hashes r) (sets r)
               (<[k := ex]> (ttls r))
  | SADD k m =>
      let old := default [] (sets r !! k) in
      if existsb (String.eqb m) old then r
      else mkServer (strings r) (hashes r) (<[k := (old ++ [m])%list]> (sets r))
                    (ttls r)
  | SREM k m =>
      match sets r !! k with
      | Some old =>
          let new := List.filter (fun x => negb (String.eqb m x)) old in
          mkServer (strings r) (hashes r)
                   (match new with
                    | [] => base.delete k (sets r)
                    | _ => <[k := new]> (sets r)
                    end)
                   (ttls r)
      | None => r
      end
  | DEL k => delete_key k r
  end.

Definition all_keys (r : server) : list string :=
  (map fst (map_to_list (strings r))
   ++ map fst (map_to_list (hashes r))
   ++ map fst (map_to_list (sets r)))%list.

(** The only patterns the code uses are a literal prefix followed by
    [*]. *)
Definition matches (pattern k : string) : bool :=
  String.prefix
    (String.substring 0 (String.length pattern - 1) pattern) k.

Definition server_client : client server :=
  {| ping := ret tt;
     get := fun k => r <- get_self ;; ret (strings r !! k);
     setex := fun k t v => modify_self (run_command (SET k v t));
     delete := fun ks =>
       r <- get_self ;;
       modify_self (fun r => fold_left (fun r k => delete_key k r) ks r) ;;;
       ret (Z.of_nat (length (List.filter (fun k => has_key k r) ks)));
     exists_ := fun k =>
       r <- get_self ;; ret (if has_key k r then 1 else 0);
     keys := fun pattern =>
       r <- get_self ;; ret (List.filter (matches pattern) (all_keys r));
     hgetall := fun k =>
       r <- get_self ;; ret (default [] (hashes r !! k));
     hset := fun k mapping =>
       r <- get_self ;;
       modify_self (run_command (HSET k mapping)) ;;;
       ret (Z.of_nat (length
              (List.filter
                 (fun kv => negb (bool_decide
                    (is_Some (dict_get (fst kv) (default [] (hashes r !! k))))))
                 mapping)));
     expire := fun k t =>
       r <- get_self ;;
       modify_self (run_command (EXPIRE k t)) ;;; ret (has_key k r);
     srem := fun k m =>
       r <- get_self ;;
       modify_self (run_command (SREM k m)) ;;;
       ret (if existsb (String.eqb m) (default [] (sets r !! k))
            then 1 else 0);
     smembers := fun k => r <- get_self ;; ret (default [] (sets r !! k));
     scard := fun k =>
       r <- get_self ;; ret (Z.of_nat (length (default [] (sets r !! k))));
     execute := fun cmds =>
       modify_self (fun r => fold_left (fun r c => run_command c r) cmds r);
     info := fun _ => ret [];
     client_list := ret (VList []) |}.

(** The server after the members [ids] were removed from the set of
    active sessions, one [SREM] each. *)
Definition without (ids : list string) (r : server) : server :=
  fold_left (fun r sid => run_command (SREM "active_sessions" sid) r) ids r.

(** A client whose server cannot be reached: every call raises. *)
Definition unreachable : exn := BackendError "Connection refused".

Definition down_client : client unit :=
  {| ping := raise unreachable;
     get := fun _ => raise unreachable;
     setex := fun _ _ _ => raise unreachable;
     delete := fun _ => raise unreachable;
     exists_ := fun _ => raise unreachable;
     keys := fun _ => raise unreachable;
     hgetall := fun _ => raise unreachable;
     hset := fun _ _ => raise unreachable;
     expire := fun _ _ => raise unreachable;
     srem := fun _ _ => raise unreachable;
     smembers := fun _ => raise unreachable;
     scard := fun _ => raise unreachable;
     execute := fun _ => raise unreachable;
     info := fun _ => raise unreachable;
     client_list := raise unreachable |}.

(** A stand-in for the library functions, for concrete runs on paths
    that do not depend on what they return. *)
Definition lib_stub : pylib :=
  {| isoformat := fun _ => "";
     fromisoformat := fun _ => None;
     json_dumps := fun _ => Ok "";
     json_dumps_default_str := fun _ => Ok "";
     json_loads := fun _ => None;
     int_of_str := fun _ => None;
     format := fun _ => "" |}.

End Redis.

(* ===================================================================== *)
(** * session_manager.py: [RedisSessionManager] *)
(* ===================================================================== *)

Module RedisSessions.
Import Types Redis.

(** [redis_client] is [None] until [connect] assigns it.  The cleanup
    task that [connect] starts is a concurrent activity and is left out. *)
Record RedisSessionManager (R : Type) : Type := mkManager {
  redis_client : option R;
  session_ttl : Z;
  cleanup_interval : Z
}.
Arguments mkManager {R} _ _ _.
Arguments redis_client {R} _.
Arguments session_ttl {R} _.
Arguments cleanup_interval {R} _.

(** [__init__] *)
Definition RedisSessionManager_init {R} : RedisSessionManager R :=
  mkManager None (24 * 60 * 60) (60 * 60).

Definition not_connected : exn := RuntimeError "Redis client not connected".

Section WithClient.
Variable T : module_types.
Variable L : pylib.
Context {R : Type}.
Variable C : client R.

(** [if not self.redis_client: raise RuntimeError(...)] *)
Definition require_client : M (RedisSessionManager R) unit :=
  self <- get_self ;;
  match redis_client self with
  | None => raise not_connected
  | Some _ => ret tt
  end.

(** [await self.redis_client.<method>(...)] *)
Definition on_client {A} (c : M R A) : M (RedisSessionManager R) A :=
  fun self e =>
    match redis_client self with
    | Some r =>
        match c r e with
        | (res, r', e') =>
            (res, mkManager (Some r') (session_ttl self) (cleanup_interval self), e')
        end
    | None =>
        (Raise (AttributeError "'NoneType' object has no attribute"), self, e)
    end.

(** [connect]: the client is assigned before it is pinged, and stays
    assigned when the ping fails. *)
Definition connect (fresh : R) : M (RedisSessionManager R) unit :=
  try_except
    (modify_self (fun self =>
       mkManager (Some fresh) (session_ttl self) (cleanup_interval self)) ;;;
     on_client (ping C) ;;;
     logger "INFO" "Connected to Redis successfully")
    (fun x =>
       logger "ERROR" ("Failed to connect to Redis: " +:+ exn_str x) ;;;
       raise x).

(** [d[k]] on the dictionary [hgetall] returned. *)
Definition item (d : list (string * string)) (k : string) : result string :=
  match dict_get k d with
  | Some v => Ok v
  | None => Raise (KeyError k)
  end.

Definition parsed {A} (what : string) (o : option A) : result A :=
  match o with
  | Some a => Ok a
  | None => Raise (ValueError what)
  end.

(** [x or None] on a string *)
Definition str_or_None (s : string) : value :=
  if String.eqb s "" then VNone else VStr s.

(** The [Session(...)] call of [get_session], arguments evaluated left to
    right. *)
Definition parse_session (session_data : list (string * string))
  : M (RedisSessionManager R) object :=
  sid <- eval (item session_data "session_id") ;;
  user <- eval (item session_data "whatsapp_user") ;;
  ws <- eval (item session_data "workspace") ;;
  st <- eval (item session_data "status") ;;
  status <- eval (enum_call (SessionStatus T) st) ;;
  ca <- eval (item session_data "created_at") ;;
  created_at <- eval (parsed "Invalid isoformat string" (fromisoformat L ca)) ;;
  la <- eval (item session_data "last_activity") ;;
  last_activity <- eval (parsed "Invalid isoformat string" (fromisoformat L la)) ;;
  sc <- eval (item session_data "suggestions_count") ;;
  suggestions_count <- eval (parsed "invalid literal for int()" (int_of_str L sc)) ;;
  ce <- eval (item session_data "commands_executed") ;;
  commands_executed <- eval (parsed "JSONDecodeError" (json_loads L ce)) ;;
  eval (construct (Session T)
          [("session_id", VStr sid);
           ("whatsapp_user", VStr user);
           ("workspace", str_or_None ws);
           ("status", status);
           ("created_at", VTime created_at);
           ("last_activity", VTime last_activity);
           ("suggestions_count", VInt suggestions_count);
           ("commands_executed", commands_executed)]).

(** [except (KeyError, ValueError) as e] *)
Definition is_Key_or_ValueError (x : exn) : bool :=
  match x with
  | KeyError _ | ValueError _ => true
  | _ => false
  end.

Definition get_session (session_id : string)
  : M (RedisSessionManager R) (option object) :=
  require_client ;;;
  let session_key := "session:" +:+ session_id in
  session_data <- on_client (hgetall C session_key) ;;
  match session_data with
  | [] => ret None
  | _ =>
      try_except
        (session <- parse_session session_data ;; ret (Some session))
        (fun x =>
           if is_Key_or_ValueError x then
             logger "ERROR" ("Error parsing session data for " +:+ session_id
                             +:+ ": " +:+ exn_str x) ;;;
             ret None
           else raise x)
  end.

Definition get_user_session (user_id : string)
  : M (RedisSessionManager R) (option object) :=
  require_client ;;;
  let user_session_key := "user_session:" +:+ user_id in
  session_id <- on_client (get C user_session_key) ;;
  match session_id with
  | None => ret None
  | Some sid => if String.eqb sid "" then ret None else get_session sid
  end.

(** [x or ""] on an attribute *)
Definition or_empty (v : value) : value :=
  match v with
  | VNone => VStr ""
  | VStr s => VStr s
  | VBool false => VStr ""
  | VInt 0 => VStr ""
  | VList [] => VStr ""
  | VDict [] => VStr ""
  | _ => v
  end.

(** [x.isoformat()] *)
Definition isoformat_of (v : value) : result string :=
  match v with
  | VTime t => Ok (isoformat L t)
  | _ => Raise (AttributeError "object has no attribute 'isoformat'")
  end.

Definition create_session (whatsapp_user : string) (workspace : option string)
  : M (RedisSessionManager R) object :=
  require_client ;;;
  existing_session <- get_user_session whatsapp_user ;;
  active_existing <-
    match existing_session with
    | Some existing =>
        st <- eval (getattr existing "status") ;;
        active <- eval (enum_attr (SessionStatus T) "ACTIVE") ;;
        ret (eq_member st active)
    | None => ret false
    end ;;
  match existing_session, active_existing with
  | Some existing, true =>
      sid <- eval (getattr existing "session_id") ;;
      logger "INFO" ("User " +:+ whatsapp_user
                     +:+ " already has active session: " +:+ fstr L sid) ;;;
      ret existing
  | _, _ =>
      uuid <- uuid4 ;;
      active <- eval (enum_attr (SessionStatus T) "ACTIVE") ;;
      t_created <- utcnow ;;
      t_activity <- utcnow ;;
      session <- eval (construct (Session T)
                   [("session_id", VStr uuid);
                    ("whatsapp_user", VStr whatsapp_user);
                    ("workspace", opt_str workspace);
                    ("status", active);
                    ("created_at", VTime t_created);
                    ("last_activity", VTime t_activity);
                    ("suggestions_count", VInt 0);
                    ("commands_executed", VList [])]) ;;
      sid <- eval (getattr session "session_id") ;;
      let session_key := "session:" +:+ fstr L sid in
      let user_session_key := "user_session:" +:+ whatsapp_user in
      f_id <- eval (getattr session "session_id") ;;
      f_user <- eval (getattr session "whatsapp_user") ;;
      f_ws <- eval (getattr session "workspace") ;;
      f_st <- eval (getattr session "status") ;;
      f_status <- eval (enum_value f_st) ;;
      f_ca <- eval (getattr session "created_at") ;;
      f_created <- eval (isoformat_of f_ca) ;;
      f_la <- eval (getattr session "last_activity") ;;
      f_activity <- eval (isoformat_of f_la) ;;
      f_count <- eval (getattr session "suggestions_count") ;;
      f_ce <- eval (getattr session "commands_executed") ;;
      f_commands <- eval (json_dumps L f_ce) ;;
      let session_data :=
        [("session_id", f_id);
         ("whatsapp_user", f_user);
         ("workspace", or_empty f_ws);
         ("status", VStr f_status);
         ("created_at", VStr f_created);
         ("last_activity", VStr f_activity);
         ("suggestions_count", f_count);
         ("commands_executed", VStr f_commands)] in
      self <- get_self ;;
      p_id <- eval (getattr session "session_id") ;;
      p_id' <- eval (getattr session "session_id") ;;
      on_client (execute C
        [HSET session_key session_data;
         EXPIRE session_key (session_ttl self);
         SET user_session_key (fstr L p_id) (session_ttl self);
         SADD "active_sessions" (fstr L p_id')]) ;;;
      l_id <- eval (getattr session "session_id") ;;
      logger "INFO" ("Created new session " +:+ fstr L l_id
                     +:+ " for user " +:+ whatsapp_user) ;;;
      ret session
  end.

Definition update_session (session : object)
  : M (RedisSessionManager R) unit :=
  require_client ;;;
  sid <- eval (getattr session "session_id") ;;
  let session_key := "session:" +:+ fstr L sid in
  t <- utcnow ;;
  let session := setattr session "last_activity" (VTime t) in
  f_st <- eval (getattr session "status") ;;
  f_status <- eval (enum_value f_st) ;;
  f_la <- eval (getattr session "last_activity") ;;
  f_activity <- eval (isoformat_of f_la) ;;
  f_count <- eval (getattr session "suggestions_count") ;;
  f_ce <- eval (getattr session "commands_executed") ;;
  f_commands <- eval (json_dumps L f_ce) ;;
  f_ws <- eval (getattr session "workspace") ;;
  let session_data :=
    [("status", VStr f_status);
     ("last_activity", VStr f_activity);
     ("suggestions_count", f_count);
     ("commands_executed", VStr f_commands);
     ("workspace", or_empty f_ws)] in
  on_client (hset C session_key session_data) ;;;
  self <- get_self ;;
  on_client (expire C session_key (session_ttl self)) ;;;
  l_id <- eval (getattr session "session_id") ;;
  logger "DEBUG" ("Updated session " +:+ fstr L l_id).

Definition end_session (session_id : string)
  : M (RedisSessionManager R) unit :=
  require_client ;;;
  found <- get_session session_id ;;
  match found with
  | None =>
      logger "WARNING" ("Session " +:+ session_id +:+ " not found for ending")
  | Some session =>
      ended <- eval (enum_attr (SessionStatus T) "ENDED") ;;
      let session := setattr session "status" ended in
      t <- utcnow ;;
      let session := setattr session "last_activity" (VTime t) in
      let session_key := "session:" +:+ session_id in
      user <- eval (getattr session "whatsapp_user") ;;
      let user_session_key := "user_session:" +:+ fstr L user in
      f_st <- eval (getattr session "status") ;;
      f_status <- eval (enum_value f_st) ;;
      f_la <- eval (getattr session "last_activity") ;;
      f_activity <- eval (isoformat_of f_la) ;;
      on_client (execute C
        [HSET session_key [("status", VStr f_status)];
         HSET session_key [("last_activity", VStr f_activity)];
         SREM "active_sessions" session_id;
         DEL user_session_key]) ;;;
      l_user <- eval (getattr session "whatsapp_user") ;;
      logger "INFO" ("Ended session " +:+ session_id +:+ " for user "
                     +:+ fstr L l_user)
  end.

(** The loop of [cleanup_expired_sessions] over the members read. *)
Fixpoint cleanup_loop (active_sessions : list string) (cutoff_time : Z)
    (cleaned_count : Z) : M (RedisSessionManager R) Z :=
  match active_sessions with
  | [] => ret cleaned_count
  | session_id :: rest =>
      found <- get_session session_id ;;
      match found with
      | None =>
          on_client (srem C "active_sessions" session_id) ;;;
          cleanup_loop rest cutoff_time (cleaned_count + 1)
      | Some session =>
          la <- eval (getattr session "last_activity") ;;
          expired <- eval (datetime_lt la cutoff_time) ;;
          if expired : bool then
            sid <- eval (getattr session "session_id") ;;
            end_session (fstr L sid) ;;;
            cleanup_loop rest cutoff_time (cleaned_count + 1)
          else cleanup_loop rest cutoff_time cleaned_count
      end
  end.

Definition cleanup_expired_sessions : M (RedisSessionManager R) Z :=
  require_client ;;;
  self <- get_self ;;
  t <- utcnow ;;
  cutoff_time <- eval (minus_seconds t (session_ttl self)) ;;
  active_sessions <- on_client (smembers C "active_sessions") ;;
  cleaned_count <- cleanup_loop active_sessions cutoff_time 0 ;;
  (if 0 <? cleaned_count
   then logger "INFO" ("Cleaned up " +:+ fstr L (VInt cleaned_count)
                       +:+ " expired sessions")
   else ret tt) ;;;
  ret cleaned_count.

Definition get_active_session_count : M (RedisSessionManager R) Z :=
  require_client ;;;
  on_client (scard C "active_sessions").

Fixpoint all_sessions_loop (ids : list string) (acc : list object)
  : M (RedisSessionManager R) (list object) :=
  match ids with
  | [] => ret acc
  | session_id :: rest =>
      found <- get_session session_id ;;
      match found with
      | Some session => all_sessions_loop rest (acc ++ [session])%list
      | None => all_sessions_loop rest acc
      end
  end.

Definition get_all_active_sessions : M (RedisSessionManager R) (list object) :=
  require_client ;;;
  active_session_ids <- on_client (smembers C "active_sessions") ;;
  all_sessions_loop active_session_ids [].

End WithClient.

End RedisSessions.

(* ===================================================================== *)
(** * cache_service.py: [RedisCacheService] *)
(* ===================================================================== *)

Module RedisCache.
Import Redis Cache.

Record RedisCacheService (R : Type) : Type := mkService {
  redis_client : option R;
  default_ttl : Z;
  key_prefix : string
}.
Arguments mkService {R} _ _ _.
Arguments redis_client {R} _.
Arguments default_ttl {R} _.
Arguments key_prefix {R} _.

(** [__init__] *)
Definition RedisCacheService_init {R} : RedisCacheService R :=
  mkService None 3600 "mcp_cache:".

Definition not_connected : exn := RuntimeError "Redis client not connected".

Section WithClient.
Variable L : pylib.
Context {R : Type}.
Variable C : client R.

Definition require_client : M (RedisCacheService R) unit :=
  self <- get_self ;;
  match redis_client self with
  | None => raise not_connected
  | Some _ => ret tt
  end.

Definition on_client {A} (c : M R A) : M (RedisCacheService R) A :=
  fun self e =>
    match redis_client self with
    | Some r =>
        match c r e with
        | (res, r', e') =>
            (res, mkService (Some r') (default_ttl self) (key_prefix self), e')
        end
    | None =>
        (Raise (AttributeError "'NoneType' object has no attribute"), self, e)
    end.

Definition connect (fresh : R) : M (RedisCacheService R) unit :=
  try_except
    (modify_self (fun self =>
       mkService (Some fresh) (default_ttl self) (key_prefix self)) ;;;
     on_client (ping C) ;;;
     logger "INFO" "Connected to Redis cache successfully")
    (fun x =>
       logger "ERROR" ("Failed to connect to Redis cache: " +:+ exn_str x) ;;;
       raise x).

Definition _make_key (self : RedisCacheService R) (key namespace : string)
  : string :=
  key_prefix self +:+ namespace +:+ ":" +:+ key.

(** [isinstance(value, (str, int, float, bool))] *)
Definition is_simple (v : value) : bool :=
  match v with
  | VStr _ | VInt _ | VFloat _ | VBool _ | VEnum _ _ => true
  | _ => false
  end.

Definition _serialize_value (v : value) : result string :=
  if is_simple v
  then json_dumps L (VDict [("type", VStr "simple"); ("value", v)])
  else json_dumps_default_str L (VDict [("type", VStr "complex"); ("value", v)]).

(** [json.loads] failing is caught and the string returned as it is; a
    document that is no object has no [get]. *)
Definition _deserialize_value (serialized : string) : result value :=
  match json_loads L serialized with
  | None => Ok (VStr serialized)
  | Some (VDict d) => Ok (default VNone (dict_get "value" d))
  | Some _ => Raise (AttributeError "object has no attribute 'get'")
  end.

Definition get (key namespace : string) : M (RedisCacheService R) value :=
  require_client ;;;
  self <- get_self ;;
  let cache_key := _make_key self key namespace in
  try_except
    (v <- on_client (Redis.get C cache_key) ;;
     match v with
     | None => ret VNone
     | Some serialized => eval (_deserialize_value serialized)
     end)
    (fun x =>
       logger "ERROR" ("Error getting cache value for " +:+ cache_key
                       +:+ ": " +:+ exn_str x) ;;;
       ret VNone).

Definition set (key : string) (v : value) (ttl : option Z)
    (namespace : string) : M (RedisCacheService R) bool :=
  require_client ;;;
  self <- get_self ;;
  let cache_key := _make_key self key namespace in
  let ttl := ttl_or ttl (default_ttl self) in
  try_except
    (serialized_value <- eval (_serialize_value v) ;;
     on_client (setex C cache_key ttl serialized_value) ;;;
     ret true)
    (fun x =>
       logger "ERROR" ("Error setting cache value for " +:+ cache_key
                       +:+ ": " +:+ exn_str x) ;;;
       ret false).

Definition delete (key namespace : string) : M (RedisCacheService R) bool :=
  require_client ;;;
  self <- get_self ;;
  let cache_key := _make_key self key namespace in
  try_except
    (n <- on_client (Redis.delete C [cache_key]) ;; ret (0 <? n))
    (fun x =>
       logger "ERROR" ("Error deleting cache value for " +:+ cache_key
                       +:+ ": " +:+ exn_str x) ;;;
       ret false).

Definition exists_ (key namespace : string) : M (RedisCacheService R) bool :=
  require_client ;;;
  self <- get_self ;;
  let cache_key := _make_key self key namespace in
  try_except
    (n <- on_client (Redis.exists_ C cache_key) ;; ret (0 <? n))
    (fun x =>
       logger "ERROR" ("Error checking cache existence for " +:+ cache_key
                       +:+ ": " +:+ exn_str x) ;;;
       ret false).

Definition clear_namespace (namespace : string) : M (RedisCacheService R) Z :=
  require_client ;;;
  self <- get_self ;;
  let pattern := key_prefix self +:+ namespace +:+ ":*" in
  try_except
    (ks <- on_client (keys C pattern) ;;
     match ks with
     | [] => ret 0
     | _ => on_client (Redis.delete C ks)
     end)
    (fun x =>
       logger "ERROR" ("Error clearing namespace " +:+ namespace
                       +:+ ": " +:+ exn_str x) ;;;
       ret 0).

Definition get_stats : M (RedisCacheService R) (list (string * value)) :=
  require_client ;;;
  self <- get_self ;;
  try_except
    (inf <- on_client (info C "memory") ;;
     _ <- on_client (info C "keyspace") ;;
     clients <- on_client (client_list C) ;;
     all_keys <- on_client (keys C "*") ;;
     mcp_keys <- on_client (keys C (key_prefix self +:+ "*")) ;;
     ret [("memory_used", default (VStr "N/A") (dict_get "used_memory_human" inf));
          ("memory_peak",
           default (VStr "N/A") (dict_get "used_memory_peak_human" inf));
          ("connected_clients", clients);
          ("total_keys", VInt (Z.of_nat (length all_keys)));
          ("mcp_keys", VInt (Z.of_nat (length mcp_keys)));
          ("uptime", default (VInt 0) (dict_get "uptime_in_seconds" inf))])
    (fun x =>
       logger "ERROR" ("Error getting cache stats: " +:+ exn_str x) ;;;
       ret [("error", VStr (exn_str x))]).

#[export] Instance Redis_ICacheService : ICacheService (RedisCacheService R) := {
  svc_get := get;
  svc_set := set;
  svc_delete := delete;
  svc_exists := exists_;
  svc_clear_namespace := clear_namespace;
  svc_get_stats := get_stats
}.

End WithClient.

End RedisCache.

(* ===================================================================== *)
(** * Concrete stores for the statements about sessions *)
(* ===================================================================== *)

Module Fixtures.
Import Types Redis.

(** The [Session] that the helper of types.py builds for user ["u1"] at
    time [t] with identifier ["s1"]. *)
Definition session_s1 (t : Z) : object :=
  [("id", VStr "s1");
   ("whatsapp_user", VStr "u1");
   ("vscode_workspace", VNone);
   ("status", VEnum "ACTIVE" "active");
   ("created_at", VTime t);
   ("last_activity", VTime t);
   ("context", VNone);
   ("active_suggestions", VList []);
   ("metadata", VDict [])].

(** An in-memory manager holding that session for ["u1"], last active
    at time 0, with a session TTL of one second (the setting of
    [test_cleanup_expired_sessions]). *)
Definition stale_manager : InMemory.InMemorySessionManager :=
  InMemory.mkManager {["s1" := session_s1 0]} {["u1" := "s1"]} 1.

(** An environment whose identifier source answers ["s1"] and whose
    clock stands still at [t]. *)
Definition env_at (t : Z) : env :=
  mkEnv (fun _ => t) 0 (fun _ => "s1") 0 [].

(** A Redis session manager connected to the server [r]. *)
Definition connected (r : server) : RedisSessions.RedisSessionManager server :=
  RedisSessions.mkManager (Some r) (24 * 60 * 60) (60 * 60).

(** The record [test_get_session_redis] reads back, stored for ["s1"],
    indexed for ["u1"] and listed as active. *)
Definition stored_record : list (string * string) :=
  [("session_id", "s1"); ("whatsapp_user", "u1"); ("workspace", "/ws");
   ("status", "active"); ("created_at", "2024-01-01T00:00:00");
   ("last_activity", "2024-01-01T00:00:00"); ("suggestions_count", "5");
   ("commands_executed", "[]")].

Definition server_s1 : server :=
  mkServer {["user_session:u1" := "s1"]}
           {["session:s1" := stored_record]}
           {["active_sessions" := ["s1"]]}
           ∅.

(** Library functions whose parsers accept every string: a date reads
    as time 0, a number as 0, a JSON document as the empty list. *)
Definition lib_accepting : pylib :=
  {| isoformat := fun _ => "1970-01-01T00:00:00";
     fromisoformat := fun _ => Some 0;
     json_dumps := fun _ => Ok "[]";
     json_dumps_default_str := fun _ => Ok "[]";
     json_loads := fun _ => Some (VList []);
     int_of_str := fun _ => Some 0;
     format := fun _ => "" |}.

(** The double quote. *)
Definition dq : string := String (Ascii.ascii_of_nat 34) "".

(** [json.dumps({"type": "simple", "value": 1})] *)
Definition envelope_of_1 : string :=
  "{" +:+ dq +:+ "type" +:+ dq +:+ ": " +:+ dq +:+ "simple" +:+ dq +:+ ", "
  +:+ dq +:+ "value" +:+ dq +:+ ": 1}".

(** Library functions whose JSON codec knows that one document. *)
Definition lib_envelope : pylib :=
  {| isoformat := fun _ => "1970-01-01T00:00:00";
     fromisoformat := fun _ => Some 0;
     json_dumps := fun _ => Ok envelope_of_1;
     json_dumps_default_str := fun _ => Ok envelope_of_1;
     json_loads := fun s =>
       if String.eqb s envelope_of_1
       then Some (VDict [("type", VStr "simple"); ("value", VInt 1)])
       else None;
     int_of_str := fun _ => None;
     format := fun _ => "" |}.

End Fixtures.

(* ===================================================================== *)
(** * health_service.py *)
(* ===================================================================== *)

Module Health.

(** [class HealthStatus(Enum)] *)
Inductive HealthStatus : Type := HEALTHY | DEGRADED | UNHEALTHY | UNKNOWN.

Definition HealthStatus_value (s : HealthStatus) : string :=
  match s with
  | HEALTHY => "healthy"
  | DEGRADED => "degraded"
  | UNHEALTHY => "unhealthy"
  | UNKNOWN => "unknown"
  end.

Definition HealthStatus_eqb (a b : HealthStatus) : bool :=
  match a, b with
  | HEALTHY, HEALTHY | DEGRADED, DEGRADED
  | UNHEALTHY, UNHEALTHY | UNKNOWN, UNKNOWN => true
  | _, _ => false
  end.

(** [class ComponentHealth(NamedTuple)]; response times are floats in the
    source, [last_check] a [datetime]. *)
Record ComponentHealth : Type := mkComponentHealth {
  name : string;
  status : HealthStatus;
  message : string;
  response_time_ms : option float;
  last_check : option Z;
  metadata : option (list (string * value))
}.

(** One entry of what [asyncio.gather(..., return_exceptions=True)]
    hands back: the exception a check raised, or the dictionary it
    returned. *)
Inductive check_result : Type :=
| CheckRaised (e : exn)
| CheckDict (d : list (string * ComponentHealth)).

(** The first loop of [check_overall_health]: failed checks are skipped,
    dictionaries are merged in order. *)
Definition collect_components (health_checks : list check_result)
  : list (string * ComponentHealth) :=
  fold_left
    (fun components check =>
       match check with
       | CheckRaised _ => components
       | CheckDict d => dict_update components d
       end)
    health_checks [].

(** The second loop ("Determine overall status"), started with
    [overall_status]; the [break] ends the recursion. *)
Fixpoint determine_overall (items : list (string * ComponentHealth))
    (overall_status : HealthStatus) : HealthStatus :=
  match items with
  | [] => overall_status
  | (_, component) :: rest =>
      if HealthStatus_eqb (status component) UNHEALTHY then UNHEALTHY
      else if HealthStatus_eqb (status component) DEGRADED
              && HealthStatus_eqb overall_status HEALTHY
           then determine_overall rest DEGRADED
           else determine_overall rest overall_status
  end.

(** The part of the returned payload the claims speak about. *)
Record health_report : Type := mkReport {
  report_status : string;
  report_components : list (string * ComponentHealth)
}.

Definition overall_of (components : list (string * ComponentHealth))
  : HealthStatus :=
  determine_overall components HEALTHY.

Definition check_overall_health (health_checks : list check_result)
  : health_report :=
  let components := collect_components health_checks in
  let overall_status := overall_of components in
  {| report_status := HealthStatus_value overall_status;
     report_components := components |}.

(** The reduction in the words of the specification: the worst status
    under Unhealthy > Degraded > Healthy, Unknown left out. *)
Definition rank (s : HealthStatus) : nat :=
  match s with
  | HEALTHY => 0
  | DEGRADED => 1
  | UNHEALTHY => 2
  | UNKNOWN => 0
  end%nat.

Definition is_known (s : HealthStatus) : bool :=
  negb (HealthStatus_eqb s UNKNOWN).

Definition worse (a b : HealthStatus) : HealthStatus :=
  if (rank a <? rank b)%nat then b else a.

Definition worst_of (statuses : list HealthStatus) : HealthStatus :=
  fold_right worse HEALTHY (List.filter is_known statuses).

Definition statuses_of (components : list (string * ComponentHealth))
  : list HealthStatus :=
  map (fun kv => status (snd kv)) components.

(** Whether a status occurs among those produced. *)
Definition has (s : HealthStatus) (l : list HealthStatus) : bool :=
  existsb (HealthStatus_eqb s) l.

(** The reduction read off which statuses occur. *)
Definition worst_by_count (l : list HealthStatus) : HealthStatus :=
  if has UNHEALTHY l then UNHEALTHY
  else if has DEGRADED l then DEGRADED
  else HEALTHY.

(** A component with the given status and nothing else of interest. *)
Definition comp (n : string) (s : HealthStatus) : string * ComponentHealth :=
  (n, mkComponentHealth n s "" None None None).

End Health.


(* ===================================================================== *)
(** * config.py *)
(* ===================================================================== *)

Module Config.

(** The dataclasses of the module, each with its defaults.  Fields hold
    values of their declared types. *)
Module ServerConfig.
Record t : Type := mk {
  host : string;
  port : Z;
  debug : bool;
  log_level : string;
  cors_origins : list string;
  max_workers : Z;
  timeout : Z
}.
Definition default : t := mk "localhost" 8000 false "INFO" ["*"] 4 30.
End ServerConfig.

Module RedisConfig.
Record t : Type := mk {
  host : string;
  port : Z;
  password : option string;
  db : Z;
  ssl : bool;
  connection_pool_size : Z
}.
Definition default : t := mk "localhost" 6379 None 0 false 10.
End RedisConfig.

Module VSCodeConfig.
Record t : Type := mk {
  executable_path : option string;
  workspace_path : option string;
  extension_id : string;
  timeout : Z;
  port : Z
}.
Definition default : t :=
  mk None None "mcp-whatsapp-copilot-extension" 10 8001.
End VSCodeConfig.

Module WhatsAppConfig.
Record t : Type := mk {
  webhook_url : string;
  session_timeout : Z;
  max_message_length : Z;
  rate_limit_per_minute : Z;
  allowed_users : list string
}.
Definition default : t := mk "http://localhost:3000/webhook" 3600 4000 20 [].
End WhatsAppConfig.

Module CopilotConfig.
Record t : Type := mk {
  api_key : option string;
  model : string;
  max_tokens : Z;
  temperature : float;
  timeout : Z
}.
Definition default : t := mk None "copilot-codex" 2048 0x1.6666666666666p-1%float 15.
End CopilotConfig.

Module SecurityConfig.
Record t : Type := mk {
  secret_key : string;
  jwt_algorithm : string;
  jwt_expiration : Z;
  encryption_key : option string;
  allowed_origins : list string
}.
Definition default : t :=
  mk "your-secret-key-change-this" "HS256" 3600 None ["*"].
End SecurityConfig.

Module MonitoringConfig.
Record t : Type := mk {
  enable_metrics : bool;
  metrics_port : Z;
  prometheus_endpoint : string;
  health_check_interval : Z;
  log_requests : bool
}.
Definition default : t := mk true 8002 "/metrics" 30 true.
End MonitoringConfig.

Record Config : Type := mkConfig {
  server : ServerConfig.t;
  redis : RedisConfig.t;
  vscode : VSCodeConfig.t;
  whatsapp : WhatsAppConfig.t;
  copilot : CopilotConfig.t;
  security : SecurityConfig.t;
  monitoring : MonitoringConfig.t
}.


(** The attributes an instance of [Config] has, besides those of every
    object. *)
Definition Config_fields : list string :=
  ["server"; "redis"; "vscode"; "whatsapp"; "copilot"; "security";
   "monitoring"].

(** [if cond: errors.append(msg)] *)
Definition append_if (cond : bool) (msg : string) (errors : list string)
  : list string :=
  if cond then (errors ++ [msg])%list else errors.

(** [port < 1 or port > 65535] *)
Definition bad_port (port : Z) : bool := (port <? 1) || (65535 <? port).

(** [validate_config] *)
Definition validate_config (config : Config) : list string :=
  let errors := [] in
  let errors :=
    append_if (bad_port (ServerConfig.port (server config)))
      "Server port must be between 1 and 65535" errors in
  let errors :=
    append_if (ServerConfig.max_workers (server config) <? 1)
      "Max workers must be at least 1" errors in
  let errors :=
    append_if (bad_port (RedisConfig.port (redis config)))
      "Redis port must be between 1 and 65535" errors in
  let errors :=
    append_if (bad_port (VSCodeConfig.port (vscode config)))
      "VS Code port must be between 1 and 65535" errors in
  let errors :=
    append_if ((CopilotConfig.temperature (copilot config) <? 0)%float
               || (2 <? CopilotConfig.temperature (copilot config))%float)
      "Copilot temperature must be between 0 and 2" errors in
  let errors :=
    append_if (CopilotConfig.max_tokens (copilot config) <? 1)
      "Copilot max tokens must be at least 1" errors in
  let errors :=
    append_if (Z.of_nat (str_len (SecurityConfig.secret_key (security config)))
               <? 16)
      "Secret key must be at least 16 characters long" errors in
  let errors :=
    append_if (bad_port (MonitoringConfig.metrics_port (monitoring config)))
      "Metrics port must be between 1 and 65535" errors in
  let errors :=
    append_if (MonitoringConfig.health_check_interval (monitoring config) <? 1)
      "Health check interval must be at least 1 second" errors in
  errors.


End Config.

(* ===================================================================== *)
(** * interfaces.py: [MCPFunctionRegistry] *)
(* ===================================================================== *)

Module Registry.
Import Cache.

(** An [IMCPFunction]: its three properties and [execute], which is
    given the parameters and a session identifier. *)
Record IMCPFunction : Type := mkFunction {
  name : string;
  description : string;
  parameters : value;
  execute : list (string * value) -> option string -> callable
}.

(** The registry is its dictionary [_functions], in insertion order. *)
Definition MCPFunctionRegistry : Type := list (string * IMCPFunction).

(** [__init__] *)
Definition MCPFunctionRegistry_init : MCPFunctionRegistry := [].

Definition register (function : IMCPFunction) (self : MCPFunctionRegistry)
  : MCPFunctionRegistry :=
  dict_set (name function) function self.

Definition get (name : string) (self : MCPFunctionRegistry)
  : option IMCPFunction :=
  dict_get name self.

Definition list_functions (self : MCPFunctionRegistry) : list string :=
  map fst self.

(** An instance of a function class is truthy: [if not function] asks
    whether the name was found. *)
Definition get_function_info (name' : string) (self : MCPFunctionRegistry)
  : option (list (string * value)) :=
  match dict_get name' self with
  | None => None
  | Some function =>
      Some [("name", VStr (name function));
            ("description", VStr (description function));
            ("parameters", parameters function)]
  end.

(** The registrations of a list of functions, first to last. *)
Definition register_all (functions : list IMCPFunction)
    (self : MCPFunctionRegistry) : MCPFunctionRegistry :=
  fold_left (fun reg f => register f reg) functions self.

End Registry.


(* ===================================================================== *)
(** * health_service.py: the checks *)
(* ===================================================================== *)

Module HealthChecks.
Import Types Cache Health PyFloat.

(** ** What the checks call on a session manager

    [ISessionManager] of interfaces.py as [_check_session_manager_health]
    uses it.  The identifier handed to [get_session] and [end_session] is
    whatever [test_session.session_id] holds. *)
Class ISessionManager (SM : Type) : Type := {
  mgr_create_session : string -> option string -> M SM object;
  mgr_get_session : value -> M SM (option object);
  mgr_end_session : value -> M SM unit;
  (** [get_active_session_count], for the classes that define it *)
  mgr_get_active_session_count : option (M SM Z)
}.

(** The in-memory manager finds a session by the dictionary key its
    identifier makes; it has no [get_active_session_count]. *)
#[export] Instance InMemory_ISessionManager (T : module_types)
  : ISessionManager InMemory.InMemorySessionManager := {
  mgr_create_session := InMemory.create_session T;
  mgr_get_session := fun session_id =>
    key <- eval (InMemory.dict_key session_id) ;;
    match key with
    | Some k => InMemory.get_session k
    | None => ret None
    end;
  mgr_end_session := fun session_id =>
    key <- eval (InMemory.dict_key session_id) ;;
    match key with
    | Some k => InMemory.end_session T k
    | None => ret tt
    end;
  mgr_get_active_session_count := None
}.

(** The Redis manager formats the identifier into its keys. *)
#[export] Instance Redis_ISessionManager (T : module_types) (L : Redis.pylib)
    {R} (C : Redis.client R)
  : ISessionManager (RedisSessions.RedisSessionManager R) := {
  mgr_create_session := RedisSessions.create_session T L C;
  mgr_get_session := fun session_id =>
    RedisSessions.get_session T L C (Redis.fstr L session_id);
  mgr_end_session := fun session_id =>
    RedisSessions.end_session T L C (Redis.fstr L session_id);
  mgr_get_active_session_count :=
    Some (RedisSessions.get_active_session_count C)
}.

(** ** [HealthService] *)

(** [class SystemMetrics(NamedTuple)] *)
Record SystemMetrics : Type := mkSystemMetrics {
  cpu_percent : float;
  memory_percent : float;
  memory_available_mb : float;
  disk_percent : float;
  uptime_seconds : float
}.

(** What [psutil] reports: [cpu_percent(interval=1)],
    [virtual_memory().percent], [virtual_memory().available] (bytes) and
    [disk_usage('/').percent]. *)
Record psutil_readings : Type := mkReadings {
  cpu : float;
  virtual_memory_percent : float;
  virtual_memory_available : Z;
  disk_usage_percent : float
}.

(** How the request of [_check_vscode_health] ends. *)
Inductive http_outcome : Type :=
| Responded (status : Z)
| TimedOut
| Failed (e : exn).

(** The service holds the two components it checks and its thresholds.
    Of the configuration it only asks which attributes it has.
    [time.time()] is given by its successive answers, [ticks] counts the
    calls made. *)
Record HealthService (SM CS : Type) : Type := mkHealthService {
  config : list string;
  session_manager : option SM;
  cache_service : option CS;
  start_time : float;
  cpu_threshold : float;
  memory_threshold : float;
  disk_threshold : float;
  response_time_threshold : float;
  timer : nat -> float;
  ticks : nat
}.
Arguments mkHealthService {SM CS} _ _ _ _ _ _ _ _ _ _.
Arguments config {SM CS} _.
Arguments session_manager {SM CS} _.
Arguments cache_service {SM CS} _.
Arguments start_time {SM CS} _.
Arguments cpu_threshold {SM CS} _.
Arguments memory_threshold {SM CS} _.
Arguments disk_threshold {SM CS} _.
Arguments response_time_threshold {SM CS} _.
Arguments timer {SM CS} _.
Arguments ticks {SM CS} _.

(** [time.time()] *)
Definition time_time {SM CS} : M (HealthService SM CS) float :=
  fun self e =>
    (Ok (timer self (ticks self)),
     mkHealthService (config self) (session_manager self) (cache_service self)
       (start_time self) (cpu_threshold self) (memory_threshold self)
       (disk_threshold self) (response_time_threshold self)
       (timer self) (S (ticks self)),
     e).

(** [__init__]: the first answer of the timer is the start time. *)
Definition HealthService_init {SM CS} (config : list string)
    (session_manager : option SM) (cache_service : option CS)
    (timer : nat -> float) : HealthService SM CS :=
  mkHealthService config session_manager cache_service (timer O)
    80 85 90 5000 timer 1.

(** [(time.time() - start_time) * 1000] *)
Definition elapsed_ms (t1 t0 : float) : float := ((t1 - t0) * 1000)%float.

(** [_status_to_metric_value] *)
Definition _status_to_metric_value (status : HealthStatus) : float :=
  match status with
  | HEALTHY => 1
  | DEGRADED => 0.5
  | UNHEALTHY => 0
  | UNKNOWN => -1
  end%float.

(** [x == stamp] for the string [stamp]: a string, or a member of a
    [str]-mixin enumeration with that value. *)
Definition eq_str (x : value) (stamp : string) : bool :=
  match x with
  | VStr s | VEnum _ s => String.eqb s stamp
  | _ => false
  end.

(** [retrieved_value != test_value], where [test_value] is the dictionary
    [{"timestamp": stamp}]. *)
Definition differs_from_test_value (retrieved_value : value) (stamp : string)
  : bool :=
  match retrieved_value with
  | VDict [(k, x)] => negb (String.eqb k "timestamp" && eq_str x stamp)
  | _ => true
  end.

(** The dictionary holds the one key [k]. *)
Definition one_key (k : string) (d : list (string * ComponentHealth)) : Prop :=
  exists c, d = [(k, c)].
Section Checks.
Context {SM CS : Type} {mgrSM : ISessionManager SM} {svcCS : ICacheService CS}.
(** [datetime.isoformat] and the like. *)
Variable L : Redis.pylib.
(** [format(x, ".1f")] *)
Variable format_1f : float -> string.
(** What the probes outside the process answer during the check. *)
Variable psutil : result psutil_readings.
Variable vscode_http : http_outcome.

Local Abbreviation HS := (HealthService SM CS).

(** [await self.session_manager.<method>(...)] *)
Definition on_manager {A} (c : M SM A) : M HS A :=
  fun self e =>
    match session_manager self with
    | Some sm =>
        match c sm e with
        | (res, sm', e') =>
            (res,
             mkHealthService (config self) (Some sm') (cache_service self)
               (start_time self) (cpu_threshold self) (memory_threshold self)
               (disk_threshold self) (response_time_threshold self)
               (timer self) (ticks self),
             e')
        end
    | None =>
        (Raise (AttributeError "'NoneType' object has no attribute"), self, e)
    end.

(** [await self.cache_service.<method>(...)] *)
Definition on_cache {A} (c : M CS A) : M HS A :=
  fun self e =>
    match cache_service self with
    | Some cs =>
        match c cs e with
        | (res, cs', e') =>
            (res,
             mkHealthService (config self) (session_manager self) (Some cs')
               (start_time self) (cpu_threshold self) (memory_threshold self)
               (disk_threshold self) (response_time_threshold self)
               (timer self) (ticks self),
             e')
        end
    | None =>
        (Raise (AttributeError "'NoneType' object has no attribute"), self, e)
    end.

(** [_get_system_metrics]: the three probes, then the clock, then the
    division that gives the megabytes. *)
Definition _get_system_metrics : M HS SystemMetrics :=
  p <- eval psutil ;;
  now <- time_time ;;
  self <- get_self ;;
  available_mb <-
    eval (int_truediv (virtual_memory_available p) (1024 * 1024)) ;;
  ret {| cpu_percent := cpu p;
         memory_percent := virtual_memory_percent p;
         memory_available_mb := available_mb;
         disk_percent := disk_usage_percent p;
         uptime_seconds := (now - start_time self)%float |}.

(** The three threshold tests of [_check_system_health], on the status
    and the messages so far. *)
Definition system_status (self : HS) (metrics : SystemMetrics)
  : HealthStatus * list string :=
  let status := HEALTHY in
  let messages := [] in
  let '(status, messages) :=
    if (cpu_threshold self <? cpu_percent metrics)%float
    then (DEGRADED,
          (messages ++ ["High CPU usage: " +:+ format_1f (cpu_percent metrics)
                        +:+ "%"])%list)
    else (status, messages) in
  let '(status, messages) :=
    if (memory_threshold self <? memory_percent metrics)%float
    then ((if HealthStatus_eqb status HEALTHY then DEGRADED else status),
          (messages ++ ["High memory usage: "
                        +:+ format_1f (memory_percent metrics) +:+ "%"])%list)
    else (status, messages) in
  let '(status, messages) :=
    if (disk_threshold self <? disk_percent metrics)%float
    then (UNHEALTHY,
          (messages ++ ["Critical disk usage: "
                        +:+ format_1f (disk_percent metrics) +:+ "%"])%list)
    else (status, messages) in
  (status, messages).

Definition _check_system_health : M HS (list (string * ComponentHealth)) :=
  start_time <- time_time ;;
  try_except
    (metrics <- _get_system_metrics ;;
     self <- get_self ;;
     let '(status, messages) := system_status self metrics in
     let message :=
       match messages with
       | [] => "System resources are healthy"
       | _ => String.concat "; " messages
       end in
     t <- time_time ;;
     let response_time := elapsed_ms t start_time in
     now <- utcnow ;;
     ret [("system",
           mkComponentHealth "system" status message (Some response_time)
             (Some now)
             (Some [("cpu_percent", VFloat (cpu_percent metrics));
                    ("memory_percent", VFloat (memory_percent metrics));
                    ("memory_available_mb",
                     VFloat (memory_available_mb metrics));
                    ("disk_percent", VFloat (disk_percent metrics));
                    ("uptime_seconds", VFloat (uptime_seconds metrics))]))])
    (fun x =>
       logger "ERROR" ("System health check failed: " +:+ exn_str x) ;;;
       now <- utcnow ;;
       ret [("system",
             mkComponentHealth "system" UNHEALTHY
               ("Failed to get system metrics: " +:+ exn_str x)
               None (Some now) None)]).

Definition _check_session_manager_health
  : M HS (list (string * ComponentHealth)) :=
  self <- get_self ;;
  match session_manager self with
  | None =>
      now <- utcnow ;;
      ret [("session_manager",
            mkComponentHealth "session_manager" UNKNOWN
              "Session manager not configured" None (Some now) None)]
  | Some _ =>
      start_time <- time_time ;;
      try_except
        (test_session <-
           on_manager (mgr_create_session "health_check_user" None) ;;
         sid <- eval (getattr test_session "session_id") ;;
         _ <- on_manager (mgr_get_session sid) ;;
         sid' <- eval (getattr test_session "session_id") ;;
         on_manager (mgr_end_session sid') ;;;
         t <- time_time ;;
         let response_time := elapsed_ms t start_time in
         metadata <-
           match mgr_get_active_session_count with
           | Some get_active_session_count =>
               try_except
                 (active_count <- on_manager get_active_session_count ;;
                  ret [("active_sessions", VInt active_count)])
                 (fun _ => ret [])
           | None => ret []
           end ;;
         now <- utcnow ;;
         ret [("session_manager",
               mkComponentHealth "session_manager" HEALTHY
                 "Session manager is operational" (Some response_time)
                 (Some now) (Some metadata))])
        (fun x =>
           logger "ERROR"
             ("Session manager health check failed: " +:+ exn_str x) ;;;
           now <- utcnow ;;
           ret [("session_manager",
                 mkComponentHealth "session_manager" UNHEALTHY
                   ("Session manager error: " +:+ exn_str x)
                   None (Some now) None)])
  end.

Definition _check_cache_health : M HS (list (string * ComponentHealth)) :=
  self <- get_self ;;
  match cache_service self with
  | None =>
      now <- utcnow ;;
      ret [("cache",
            mkComponentHealth "cache" UNKNOWN
              "Cache service not configured" None (Some now) None)]
  | Some _ =>
      start_time <- time_time ;;
      try_except
        (let test_key := "health_check_key" in
         stamp <- utcnow ;;
         let test_value := VDict [("timestamp", VStr (Redis.isoformat L stamp))] in
         _ <- on_cache (svc_set test_key test_value (Some 60) "default") ;;
         retrieved_value <- on_cache (svc_get test_key "default") ;;
         _ <- on_cache (svc_delete test_key "default") ;;
         (if differs_from_test_value retrieved_value (Redis.isoformat L stamp)
          then raise (ValueError "Cache value mismatch")
          else ret tt) ;;;
         t <- time_time ;;
         let response_time := elapsed_ms t start_time in
         metadata <-
           try_except
             (stats <- on_cache svc_get_stats ;; ret (dict_update [] stats))
             (fun _ => ret []) ;;
         now <- utcnow ;;
         ret [("cache",
               mkComponentHealth "cache" HEALTHY
                 "Cache service is operational" (Some response_time)
                 (Some now) (Some metadata))])
        (fun x =>
           logger "ERROR" ("Cache health check failed: " +:+ exn_str x) ;;;
           now <- utcnow ;;
           ret [("cache",
                 mkComponentHealth "cache" UNHEALTHY
                   ("Cache service error: " +:+ exn_str x)
                   None (Some now) None)])
  end.

Definition _check_vscode_health : M HS ComponentHealth :=
  start_time <- time_time ;;
  match vscode_http with
  | Responded status =>
      if status =? 200 then
        t <- time_time ;;
        let response_time := elapsed_ms t start_time in
        now <- utcnow ;;
        ret (mkComponentHealth "vscode" HEALTHY "VS Code service is reachable"
               (Some response_time) (Some now) None)
      else
        now <- utcnow ;;
        ret (mkComponentHealth "vscode" DEGRADED
               ("VS Code service returned status "
                +:+ NilZero.string_of_int (Z.to_int status))
               None (Some now) None)
  | TimedOut =>
      now <- utcnow ;;
      ret (mkComponentHealth "vscode" UNHEALTHY "VS Code service timeout"
             None (Some now) None)
  | Failed x =>
      now <- utcnow ;;
      ret (mkComponentHealth "vscode" UNHEALTHY
             ("VS Code service error: " +:+ exn_str x) None (Some now) None)
  end.

(** [hasattr(self.config, 'vscode_config')] decides whether VS Code is
    checked. *)
Definition _check_external_services_health
  : M HS (list (string * ComponentHealth)) :=
  self <- get_self ;;
  if mem "vscode_config" (config self) then
    vscode_health <- _check_vscode_health ;;
    ret [("vscode", vscode_health)]
  else ret [].

(** One awaitable of [asyncio.gather(..., return_exceptions=True)]: what
    it raises is handed back as a result. *)
Definition gathered (check : M HS (list (string * ComponentHealth)))
  : M HS check_result :=
  fun self e =>
    match check self e with
    | (Ok d, self', e') => (Ok (CheckDict d), self', e')
    | (Raise x, self', e') => (Ok (CheckRaised x), self', e')
    end.

(** The four checks of [check_overall_health].  [gather] starts them in
    the order given and each runs until it first suspends; they are run
    here one after the other to completion, which is what happens when
    none of them suspends, as with the in-memory components. *)
Definition gather_health_checks : M HS (list check_result) :=
  c1 <- gathered _check_system_health ;;
  c2 <- gathered _check_session_manager_health ;;
  c3 <- gathered _check_cache_health ;;
  c4 <- gathered _check_external_services_health ;;
  ret [c1; c2; c3; c4].

(** [check_overall_health], from the checks to the report. *)
Definition run_overall_health : M HS health_report :=
  health_checks <- gather_health_checks ;;
  ret (check_overall_health health_checks).

(** The second service holds the components and the configuration of
    the first. *)
Definition same_components (self self' : HS) : Prop :=
  config self' = config self
  /\ session_manager self' = session_manager self
  /\ cache_service self' = cache_service self.

(** The second service has the configuration of the first. *)
Definition same_config (self self' : HS) : Prop := config self' = config self.

End Checks.

End HealthChecks.

(* ===================================================================== *)
(** * Properties *)
(* ===================================================================== *)

Module PyFacts.

Lemma is_None_true v : is_None v = true <-> v = VNone.
Proof. destruct v; simpl; split; congruence. Qed.

Lemma is_None_false v : is_None v = false <-> v <> VNone.
Proof. destruct v; simpl; split; congruence. Qed.

End PyFacts.

Module SysFacts.

(** Running a sequence: the first method, then the rest on what it left. *)
Lemma bind_run {S A B} (c : M S A) (k : A -> M S B) s e :
  bind c k s e =
    match c s e with
    | (Ok a, s', e') => k a s' e'
    | (Raise x, s', e') => (Raise x, s', e')
    end.
Proof. reflexivity. Qed.

Lemma try_except_run {S A} (c : M S A) (h : exn -> M S A) s e :
  try_except c h s e =
    match c s e with
    | (Ok a, s', e') => (Ok a, s', e')
    | (Raise x, s', e') => h x s' e'
    end.
Proof. reflexivity. Qed.

(** *** [datetime] and [timedelta] *)

Lemma plus_seconds_Ok t n x : plus_seconds t n = Ok x -> x = t + seconds n.
Proof.
  unfold plus_seconds, timedelta_seconds, datetime_add.
  destruct (_ && _); [|discriminate].
  destruct (_ && _); [|discriminate]. congruence.
Qed.

Lemma minus_seconds_Ok t n x : minus_seconds t n = Ok x -> x = t - seconds n.
Proof.
  unfold minus_seconds, timedelta_seconds, datetime_sub.
  destruct (_ && _); [|discriminate].
  destruct (_ && _); [|discriminate]. congruence.
Qed.

Lemma plus_seconds_in_range t n :
  -999999999 <= n / 86400 <= 999999999 ->
  datetime_min <= t + seconds n <= datetime_max ->
  plus_seconds t n = Ok (t + seconds n).
Proof.
  intros [H1 H2] [H3 H4]. unfold plus_seconds, timedelta_seconds, datetime_add.
  apply Z.leb_le in H1, H2, H3, H4. cbv zeta. rewrite H1, H2. cbn [andb].
  rewrite H3, H4. reflexivity.
Qed.

Lemma minus_seconds_in_range t n :
  -999999999 <= n / 86400 <= 999999999 ->
  datetime_min <= t - seconds n <= datetime_max ->
  minus_seconds t n = Ok (t - seconds n).
Proof.
  intros [H1 H2] [H3 H4]. unfold minus_seconds, timedelta_seconds, datetime_sub.
  apply Z.leb_le in H1, H2, H3, H4. cbv zeta. rewrite H1, H2. cbn [andb].
  rewrite H3, H4. reflexivity.
Qed.

Lemma plus_seconds_Raise t n x :
  plus_seconds t n = Raise x -> exists msg, x = OverflowError msg.
Proof.
  unfold plus_seconds, timedelta_seconds, datetime_add.
  destruct (_ && _); [destruct (_ && _); [discriminate|]|];
    intros E; injection E as <-; eauto.
Qed.

Lemma minus_seconds_Raise t n x :
  minus_seconds t n = Raise x -> exists msg, x = OverflowError msg.
Proof.
  unfold minus_seconds, timedelta_seconds, datetime_sub.
  destruct (_ && _); [destruct (_ && _); [discriminate|]|];
    intros E; injection E as <-; eauto.
Qed.

Lemma plus_seconds_is_ok_iff t n :
  is_ok (plus_seconds t n) = true
  <-> (-999999999 <= n / 86400 <= 999999999
       /\ datetime_min <= t + seconds n <= datetime_max).
Proof.
  split.
  - unfold plus_seconds, timedelta_seconds, datetime_add. cbv zeta.
    destruct (Z.leb_spec (-999999999) (n / 86400));
      destruct (Z.leb_spec (n / 86400) 999999999);
      cbn [andb is_ok]; try discriminate.
    destruct (Z.leb_spec datetime_min (t + seconds n));
      destruct (Z.leb_spec (t + seconds n) datetime_max);
      cbn [andb is_ok]; try discriminate. intros _. lia.
  - intros [H1 H2]. now rewrite plus_seconds_in_range.
Qed.

Lemma minus_seconds_is_ok_iff t n :
  is_ok (minus_seconds t n) = true
  <-> (-999999999 <= n / 86400 <= 999999999
       /\ datetime_min <= t - seconds n <= datetime_max).
Proof.
  split.
  - unfold minus_seconds, timedelta_seconds, datetime_sub. cbv zeta.
    destruct (Z.leb_spec (-999999999) (n / 86400));
      destruct (Z.leb_spec (n / 86400) 999999999);
      cbn [andb is_ok]; try discriminate.
    destruct (Z.leb_spec datetime_min (t - seconds n));
      destruct (Z.leb_spec (t - seconds n) datetime_max);
      cbn [andb is_ok]; try discriminate. intros _. lia.
  - intros [H1 H2]. now rewrite minus_seconds_in_range.
Qed.

Lemma plus_seconds_is_ok t n :
  is_ok (plus_seconds t n) = true -> plus_seconds t n = Ok (t + seconds n).
Proof.
  destruct (plus_seconds t n) as [x|x] eqn:E; [|discriminate].
  intros _. now rewrite (plus_seconds_Ok t n x E).
Qed.

End SysFacts.

(* --------------------------------------------------------------------- *)
(** ** Health aggregation *)
(* --------------------------------------------------------------------- *)

Module HealthFacts.
Import Health.

Lemma worst_of_cons s l :
  worst_of (s :: l) = if is_known s then worse s (worst_of l) else worst_of l.
Proof. unfold worst_of; simpl. destruct (is_known s); reflexivity. Qed.

Lemma worst_of_by_count l : worst_of l = worst_by_count l.
Proof.
  induction l as [|s l IH]; [reflexivity|].
  rewrite worst_of_cons, IH. unfold worst_by_count, has; simpl.
  destruct s; simpl;
    destruct (existsb (HealthStatus_eqb UNHEALTHY) l);
    destruct (existsb (HealthStatus_eqb DEGRADED) l); reflexivity.
Qed.

Lemma determine_overall_by_count items o :
  o = HEALTHY \/ o = DEGRADED ->
  determine_overall items o =
    if has UNHEALTHY (statuses_of items) then UNHEALTHY
    else if has DEGRADED (statuses_of items) then DEGRADED
    else o.
Proof.
  revert o. induction items as [|[k c] items IH]; intros o Ho.
  - reflexivity.
  - simpl. unfold has in *; simpl.
    destruct (status c) eqn:E; simpl.
    + rewrite IH by assumption. reflexivity.
    + destruct Ho as [-> | ->]; simpl; rewrite IH by auto;
        repeat match goal with
               | |- context [if ?b then _ else _] => destruct b
               end; reflexivity.
    + reflexivity.
    + rewrite IH by assumption. reflexivity.
Qed.

Lemma overall_of_by_count items :
  overall_of items = worst_by_count (statuses_of items).
Proof. unfold overall_of. rewrite determine_overall_by_count; auto. Qed.

Lemma has_Permutation s l l' : Permutation l l' -> has s l = has s l'.
Proof.
  intros HP. unfold has. apply eq_true_iff_eq.
  rewrite !existsb_exists. split; intros [x [Hin Hx]]; exists x; split; auto.
  - eapply Permutation_in; eauto.
  - eapply Permutation_in; [apply Permutation_sym|]; eauto.
Qed.

(** The overall status does not depend on the order in which the
    components were produced. *)
Lemma overall_of_Permutation items items' :
  Permutation (statuses_of items) (statuses_of items') ->
  overall_of items = overall_of items'.
Proof.
  intros HP. rewrite !overall_of_by_count. unfold worst_by_count.
  rewrite (has_Permutation UNHEALTHY _ _ HP), (has_Permutation DEGRADED _ _ HP).
  reflexivity.
Qed.

(** C8.  For every collection of produced components, the status reported by
    [check_overall_health] is the worst component status under
    Unhealthy > Degraded > Healthy, Unknown components left out; it is a
    function of which statuses occur.  In particular {Healthy, Degraded}
    gives Degraded, {Healthy, Unhealthy, Degraded} gives Unhealthy and
    {Unknown} alone gives Healthy. *)
Theorem C8_overall_status_is_worst :
  (forall health_checks,
      let r := check_overall_health health_checks in
      report_status r
      = HealthStatus_value (worst_of (statuses_of (report_components r))))
  /\ (forall components,
        overall_of components = worst_of (statuses_of components)
        /\ overall_of components = worst_by_count (statuses_of components))
  /\ report_status (check_overall_health
        [CheckDict [comp "system" HEALTHY]; CheckDict [comp "cache" DEGRADED]])
      = "degraded"
  /\ report_status (check_overall_health
        [CheckDict [comp "system" HEALTHY];
         CheckDict [comp "session_manager" UNHEALTHY];
         CheckDict [comp "cache" DEGRADED]])
      = "unhealthy"
  /\ report_status (check_overall_health
        [CheckDict [comp "session_manager" UNKNOWN]])
      = "healthy".
Proof.
  split; [|split; [|repeat split]].
  - intros checks r. subst r. unfold check_overall_health; simpl.
    rewrite overall_of_by_count, worst_of_by_count. reflexivity.
  - intros components. split.
    + rewrite overall_of_by_count, worst_of_by_count. reflexivity.
    + apply overall_of_by_count.
Qed.

End HealthFacts.

(* --------------------------------------------------------------------- *)
(** ** Dictionaries *)
(* --------------------------------------------------------------------- *)

Module DictFacts.

Lemma dict_get_set_eq {V} k (v : V) d : dict_get k (dict_set k v d) = Some v.
Proof.
  induction d as [|[k' v'] d IH]; simpl.
  - now rewrite String.eqb_refl.
  - destruct (String.eqb k k') eqn:E; simpl; rewrite ?E, ?String.eqb_refl; auto.
Qed.

Lemma dict_get_set_ne {V} k k' (v : V) d :
  k <> k' -> dict_get k' (dict_set k v d) = dict_get k' d.
Proof.
  intros Hne. induction d as [|[k0 v0] d IH]; simpl.
  - destruct (String.eqb_spec k' k); congruence.
  - destruct (String.eqb_spec k k0) as [->|Hk]; simpl.
    + destruct (String.eqb_spec k' k0); congruence.
    + destruct (String.eqb_spec k' k0); auto.
Qed.

End DictFacts.

(* --------------------------------------------------------------------- *)
(** ** The in-memory cache *)
(* --------------------------------------------------------------------- *)

Module CacheFacts.
Import Cache PyFloat DictFacts.

(** What [set] does, in one equation: the first clock reading fixes the
    expiry, and when there is one a second reading is the creation time. *)
Lemma set_eq key v ttl ns self e :
  set key v ttl ns self e =
    match plus_seconds (now e) (ttl_or ttl (default_ttl self)) with
    | Ok expires =>
        (Ok true,
         set_cache
           (<[_make_key key ns :=
                mkEntry v (Some expires) (clock e (S (reads e)))]> (cache self))
           self,
         after_reads 2 e)
    | Raise x => (Raise x, self, after_reads 1 e)
    end.
Proof.
  unfold set, bind, get_self, utcnow, modify_self, ret, after_reads, now.
  cbn [fst snd reads clock uuids draws log].
  destruct (plus_seconds (clock e (reads e)) (ttl_or ttl (default_ttl self)));
    cbn [eval ret raise]; unfold ret, raise; cbn [reads clock uuids draws log];
    repeat f_equal; lia.
Qed.

Lemma set_ok key v ttl ns self e :
  is_ok (plus_seconds (now e) (ttl_or ttl (default_ttl self))) = true ->
  set key v ttl ns self e =
    (Ok true,
     set_cache
       (<[_make_key key ns :=
            mkEntry v (Some (now e + seconds (ttl_or ttl (default_ttl self))))
                    (clock e (S (reads e)))]> (cache self)) self,
     after_reads 2 e).
Proof.
  intros H. rewrite set_eq, (SysFacts.plus_seconds_is_ok _ _ H). reflexivity.
Qed.

(** [set] returns [True] exactly when the expiry is a [datetime]. *)
Lemma set_returns key v ttl ns self e :
  fst (fst (set key v ttl ns self e)) = Ok true
  <-> is_ok (plus_seconds (now e) (ttl_or ttl (default_ttl self))) = true.
Proof.
  rewrite set_eq.
  destruct (plus_seconds (now e) (ttl_or ttl (default_ttl self)));
    cbn [fst snd is_ok]; split; congruence.
Qed.

Lemma get_absent key ns self e :
  cache self !! _make_key key ns = None ->
  get key ns self e = (Ok VNone, self, e).
Proof. intros H. unfold get, bind, get_self; simpl. now rewrite H. Qed.

Lemma get_live key ns self e en t :
  cache self !! _make_key key ns = Some en ->
  expires_at en = Some t -> now e <= t ->
  get key ns self e = (Ok (entry_value en), self, after_reads 1 e).
Proof.
  intros H Ht Hle. unfold get, bind, get_self, _is_expired; simpl.
  rewrite H; simpl. rewrite Ht. unfold bind, utcnow, ret; simpl.
  fold (now e). destruct (Z.ltb_spec t (now e)); [lia|].
  unfold after_reads. repeat f_equal; lia.
Qed.

Lemma get_expired key ns self e en t :
  cache self !! _make_key key ns = Some en ->
  expires_at en = Some t -> t < now e ->
  get key ns self e =
    (Ok VNone, set_cache (delete (_make_key key ns) (cache self)) self,
     after_reads 1 e).
Proof.
  intros H Ht Hlt. unfold get, bind, get_self, _is_expired; simpl.
  rewrite H; simpl. rewrite Ht. unfold bind, utcnow, ret, modify_self; simpl.
  fold (now e). destruct (Z.ltb_spec t (now e)); [|lia].
  unfold after_reads. repeat f_equal; lia.
Qed.

Lemma get_eternal key ns self e en :
  cache self !! _make_key key ns = Some en ->
  expires_at en = None ->
  get key ns self e = (Ok (entry_value en), self, e).
Proof.
  intros H Ht. unfold get, bind, get_self, _is_expired; simpl.
  rewrite H; simpl. now rewrite Ht.
Qed.

Lemma exists_absent key ns self e :
  cache self !! _make_key key ns = None ->
  exists_ key ns self e = (Ok false, self, e).
Proof. intros H. unfold exists_, bind, get_self; simpl. now rewrite H. Qed.

(** C5 (as amended).  [set(k, v, ttl)] either returns [True] or raises
    [OverflowError]; it raises, with nothing stored, exactly when the clock
    reading it took plus the effective ttl is no [datetime], the effective
    ttl being [ttl] when one is given and is not zero and the service's
    default (3600 s) otherwise.  After a [set] that returned, the entry
    expires at that instant: a [get(k)] whose clock reading is not later
    (so any reading strictly before it) returns [v] and leaves the store
    alone; a [get(k)] after it returns None and removes the entry, so that
    a later [exists(k)] is false. *)
Theorem C5_set_then_get key v ttl ns self e :
  let ttl_eff := ttl_or ttl (default_ttl self) in
  let expiry := now e + seconds ttl_eff in
  let out := set key v ttl ns self e in
  let self1 := snd (fst out) in
  default_ttl InMemoryCacheService_init = 3600
  /\ (fst (fst out) = Ok true
      \/ exists msg, out = (Raise (OverflowError msg), self, after_reads 1 e))
  /\ (fst (fst out) = Ok true
      <-> (-999999999 <= ttl_eff / 86400 <= 999999999
           /\ datetime_min <= expiry <= datetime_max))
  /\ (fst (fst out) = Ok true ->
      (expires_at <$> cache self1 !! _make_key key ns) = Some (Some expiry)
      /\ (forall e', now e' <= expiry ->
            get key ns self1 e' = (Ok v, self1, after_reads 1 e'))
      /\ (forall e', expiry < now e' ->
            let self2 := snd (fst (get key ns self1 e')) in
            fst (fst (get key ns self1 e')) = Ok VNone
            /\ cache self2 !! _make_key key ns = None
            /\ forall e'', exists_ key ns self2 e'' = (Ok false, self2, e''))).
Proof.
  intros ttl_eff expiry out self1.
  split; [reflexivity|]. split; [|split].
  - subst out. rewrite set_eq. fold ttl_eff.
    destruct (plus_seconds (now e) ttl_eff) as [x|x] eqn:E; [now left|].
    right. destruct (SysFacts.plus_seconds_Raise _ _ _ E) as (msg & ->). eauto.
  - subst out. rewrite set_returns. apply SysFacts.plus_seconds_is_ok_iff.
  - intros Hok. apply set_returns in Hok. subst self1 out.
    rewrite (set_ok _ _ _ _ _ _ Hok). cbn [fst snd cache set_cache].
    fold ttl_eff. fold expiry.
    split; [now rewrite lookup_insert_eq|].
    split.
    + intros e' Hle.
      apply (get_live key ns _ e'
               (mkEntry v (Some expiry) (clock e (S (reads e)))) expiry);
        [simpl; apply lookup_insert_eq | reflexivity | exact Hle].
    + intros e' Hlt.
      rewrite (get_expired key ns _ e'
                 (mkEntry v (Some expiry) (clock e (S (reads e)))) expiry);
        [| simpl; apply lookup_insert_eq | reflexivity | exact Hlt].
      simpl. split; [reflexivity|]. split; [apply lookup_delete_eq|].
      intros e''. apply exists_absent. simpl. apply lookup_delete_eq.
Qed.

(** C5: the claim as stated fails.  With [ttl=0] the entry does not expire
    at [created_at + ttl]: the default of 3600 s is applied, and a
    [get] one second after [created_at + ttl] still returns the value.
    And with a ttl of 10 s on a clock that moves on by a second at every
    reading, [created_at] is the second reading, so the entry expires a
    second before [created_at + ttl]: a [get] half a second before that
    instant finds it gone. *)
Lemma C5_counterexample_zero_ttl :
  (let self1 :=
     snd (fst (set "k" (VInt 1) (Some 0) "default"
                   InMemoryCacheService_init (frozen_env 0))) in
   exists en,
     cache self1 !! "default:k" = Some en
     /\ created_at en = 0
     /\ expires_at en = Some (seconds 3600)
     /\ expires_at en <> Some (created_at en + seconds 0)
     /\ fst (fst (get "k" "default" self1 (frozen_env (seconds 1))))
        = Ok (VInt 1))
  /\ (let ticking := mkEnv (fun i => seconds (Z.of_nat i)) 0 (fun _ => "") 0 [] in
      let self1 :=
        snd (fst (set "k" (VInt 1) (Some 10) "default"
                      InMemoryCacheService_init ticking)) in
      exists en,
        cache self1 !! "default:k" = Some en
        /\ created_at en = seconds 1
        /\ expires_at en = Some (seconds 10)
        /\ expires_at en <> Some (created_at en + seconds 10)
        /\ 10500000 < created_at en + seconds 10
        /\ fst (fst (get "k" "default" self1 (frozen_env 10500000)))
           = Ok VNone).
Proof.
  split.
  - eexists. split; [vm_compute; reflexivity|].
    repeat split; try reflexivity. vm_compute. discriminate.
  - eexists. split; [vm_compute; reflexivity|].
    repeat split; try reflexivity. vm_compute. discriminate.
Qed.

(** C5, at a concrete input: a value set for 10 s is returned 10 s later
    and gone a microsecond after that. *)
Lemma C5_set_then_get_witness :
  let self1 :=
    snd (fst (set "k" (VStr "v") (Some 10) "default"
                  InMemoryCacheService_init (frozen_env 0))) in
  get "k" "default" self1 (frozen_env (seconds 10))
    = (Ok (VStr "v"), self1, after_reads 1 (frozen_env (seconds 10)))
  /\ fst (fst (get "k" "default" self1 (frozen_env (seconds 10 + 1))))
     = Ok VNone.
Proof.
  pose proof (C5_set_then_get "k" (VStr "v") (Some 10) "default"
                InMemoryCacheService_init (frozen_env 0)) as H.
  cbv zeta in H. destruct H as (_ & _ & _ & H).
  destruct (H eq_refl) as (_ & Hlive & Hdead).
  split.
  - apply Hlive. vm_compute. discriminate.
  - apply (Hdead (frozen_env (seconds 10 + 1))). reflexivity.
Defined.

End CacheFacts.

(* --------------------------------------------------------------------- *)
(** ** Cache keys *)
(* --------------------------------------------------------------------- *)

Module KeyFacts.
Import Cache Sha256.

Lemma append_nil b : "" +:+ b = b.
Proof. reflexivity. Qed.

Lemma append_cons c a b : String c a +:+ b = String c (a +:+ b).
Proof. reflexivity. Qed.




Lemma hex8_length x rest :
  String.length (hex8 x rest) = (8 + String.length rest)%nat.
Proof. reflexivity. Qed.


(** The implementation of SHA-256 above, on the test vector of
    FIPS 180-4 and on a key of this program. *)
Example sha256_hex_abc :
  sha256_hex "abc"
  = "ba7816bf8f01cfea414140de5dae2223b00361a396177a9cb410ff61f20015ad".
Proof. vm_compute. reflexivity. Qed.

Example cache_key_for_suggestion_example :
  cache_key_for_suggestion "def f(x):" "python" (Some "ctx")
  = "9bf037aa9fbca240f729d3cefc9cbefc406af81dc99f76d937164c7605766d9c".
Proof. vm_compute. reflexivity. Qed.




End KeyFacts.

(* --------------------------------------------------------------------- *)
(** ** Division and rounding *)
(* --------------------------------------------------------------------- *)

Module PyFloatFacts.
Import PyFloat.

(** [round_half_even m e] is the integer nearest to [m * 2^e]; of two
    nearest integers it is the even one. *)
Lemma round_half_even_nearest m e :
  let h := round_half_even m e in
  (0 <= e -> h = m * 2 ^ e)
  /\ (e < 0 ->
      2 * Z.abs (m - h * 2 ^ (- e)) <= 2 ^ (- e)
      /\ (2 * Z.abs (m - h * 2 ^ (- e)) = 2 ^ (- e) -> Z.even h = true)).
Proof.
  intros h. subst h. unfold round_half_even. split.
  - intros H. apply Z.leb_le in H. now rewrite H.
  - intros H. destruct (Z.leb_spec 0 e); [lia|]. cbv zeta.
    assert (Hd : 0 < 2 ^ (- e)) by (apply Z.pow_pos_nonneg; lia).
    set (d := 2 ^ (- e)) in *.
    pose proof (Z.div_mod m d ltac:(lia)) as Hm.
    pose proof (Z.mod_pos_bound m d Hd) as Hr.
    set (q := m / d) in *. set (r := m mod d) in *.
    destruct (Z.ltb_spec (2 * r) d).
    + split; [nia|]. intros E. nia.
    + destruct (Z.ltb_spec d (2 * r)).
      * split; [nia|]. intros E. nia.
      * destruct (Z.even q) eqn:Eq.
        -- split; [nia|]. intros _. exact Eq.
        -- split; [nia|]. intros _. rewrite Z.even_add, Eq. reflexivity.
Qed.

(** A quotient of at most one in magnitude is in the range of the
    floats: the division of a count by a total that includes it
    returns. *)
Lemma int_truediv_part a b :
  0 <= a <= b -> 0 < b -> int_truediv a b = Ok (nearest_quotient a b).
Proof.
  intros Ha Hb. unfold int_truediv.
  destruct (Z.eqb_spec b 0); [lia|].
  assert (Hc : 1 < 2 ^ 1024 - 2 ^ 970) by (vm_compute; reflexivity).
  set (c := 2 ^ 1024 - 2 ^ 970) in *.
  destruct (Z.leb_spec (c * Z.abs b) (Z.abs a)); [|reflexivity].
  exfalso. rewrite !Z.abs_eq in * by lia. nia.
Qed.

(** The division of a count of bytes by [1024 * 1024] raises only from
    [2^1043] on. *)
Lemma int_truediv_megabytes a x :
  int_truediv a (1024 * 1024) = Raise x -> 2 ^ 1043 <= Z.abs a.
Proof.
  unfold int_truediv. change (1024 * 1024 =? 0) with false. cbv iota.
  destruct (Z.leb_spec ((2 ^ 1024 - 2 ^ 970) * Z.abs (1024 * 1024)) (Z.abs a))
    as [H|H]; [|discriminate].
  intros _. etransitivity; [|exact H]. vm_compute. discriminate.
Qed.

End PyFloatFacts.

(* --------------------------------------------------------------------- *)
(** ** The cache manager *)
(* --------------------------------------------------------------------- *)

Module ManagerFacts.
Import Cache PyFloat DictFacts CacheFacts PyFloatFacts.

Section AnyService.
Context {C : Type} {svcC : ICacheService C}.

(** A lookup that comes back with [None] makes [get_or_set] count a miss,
    call [value_func], store what it returned and return it. *)
Lemma get_or_set_miss key f ttl ns (m : CacheManager C) e c1 e1 :
  svc_get key ns (cache_service m) e = (Ok VNone, c1, e1) ->
  get_or_set key f ttl ns m e =
    match f e1 with
    | (Ok new_value, e2) =>
        match svc_set key new_value ttl ns c1 e2 with
        | (Ok _, c3, e3) =>
            (Ok new_value, mkCacheManager c3 (hit_count m) (miss_count m + 1), e3)
        | (Raise x, c3, e3) =>
            (Raise x, mkCacheManager c3 (hit_count m) (miss_count m + 1), e3)
        end
    | (Raise x, e2) =>
        (Raise x, mkCacheManager c1 (hit_count m) (miss_count m + 1), e2)
    end.
Proof.
  intros Hget. unfold get_or_set, bind, on_service, lift. rewrite Hget; simpl.
  unfold call. destruct (f e1) as [[v|x] e2]; simpl; [|reflexivity].
  destruct (svc_set key v ttl ns c1 e2) as [[[b|x] c3] e3]; reflexivity.
Qed.

(** A lookup that comes back with a value counts a hit and returns it;
    [value_func] is not called. *)
Lemma get_or_set_hit key f ttl ns (m : CacheManager C) e v c1 e1 :
  svc_get key ns (cache_service m) e = (Ok v, c1, e1) ->
  v <> VNone ->
  get_or_set key f ttl ns m e =
    (Ok v, mkCacheManager c1 (hit_count m + 1) (miss_count m), e1).
Proof.
  intros Hget Hv. unfold get_or_set, bind, on_service, lift. rewrite Hget; simpl.
  apply PyFacts.is_None_false in Hv. rewrite Hv; reflexivity.
Qed.

(** The four keys [get_cache_stats] adds win over whatever the service
    reports under the same names. *)
Lemma get_cache_stats_eq (m : CacheManager C) e stats c1 e1 ratio :
  svc_get_stats (cache_service m) e = (Ok stats, c1, e1) ->
  hit_ratio_percent (hit_count m) (miss_count m) = Ok ratio ->
  exists out,
    get_cache_stats m e
      = (Ok out, mkCacheManager c1 (hit_count m) (miss_count m), e1)
    /\ dict_get "hit_count" out = Some (VInt (hit_count m))
    /\ dict_get "miss_count" out = Some (VInt (miss_count m))
    /\ dict_get "total_requests" out
       = Some (VInt (hit_count m + miss_count m))
    /\ dict_get "hit_ratio_percent" out = Some ratio.
Proof.
  intros Hs Hr. eexists. split.
  - unfold get_cache_stats, bind, on_service, lift, get_self.
    rewrite Hs; cbn [fst snd cache_service hit_count miss_count].
    rewrite Hr. reflexivity.
  - unfold dict_update; simpl.
    repeat split;
      repeat first
        [ apply dict_get_set_eq
        | rewrite dict_get_set_ne by discriminate ].
Qed.

(** [get_or_set] adds one to one counter and never takes anything from
    either, whether it returns or raises: counters that start at zero stay
    non-negative. *)
Lemma get_or_set_counters key f ttl ns (m : CacheManager C) e :
  let m' := snd (fst (get_or_set key f ttl ns m e)) in
  hit_count m <= hit_count m' /\ miss_count m <= miss_count m'.
Proof.
  unfold get_or_set, bind, on_service, lift, modify_self, call, ret.
  destruct (svc_get key ns (cache_service m) e) as [[[v|x] c1] e1];
    simpl; [|lia].
  destruct (is_None v); simpl; [|lia].
  destruct (f e1) as [[w|x] e2]; simpl; [|lia].
  destruct (svc_set key w ttl ns c1 e2) as [[[b|x] c2] e3]; simpl; lia.
Qed.

(** The ratio of counters that count: no request gives the integer [0],
    otherwise the division returns and its hundredfold is rounded. *)
Lemma hit_ratio_percent_counts hits misses :
  0 <= hits -> 0 <= misses ->
  hit_ratio_percent hits misses
  = Ok (if 0 <? hits + misses
        then VFloat (round2 (nearest_quotient hits (hits + misses)
                             * float_of_Z 100)%float)
        else VInt 0).
Proof.
  intros Hh Hm. unfold hit_ratio_percent. cbv zeta.
  destruct (Z.ltb_spec 0 (hits + misses)); [|reflexivity].
  rewrite int_truediv_part by lia. reflexivity.
Qed.

(** C9.  [get_cache_stats] reports, over whatever the service reports,
    [hit_count], [miss_count], their sum as [total_requests], and as
    [hit_ratio_percent] the float [hit_count / total_requests * 100] rounded
    to 2 decimals, or [0] when there was no request.  Starting from zero
    counters, a [get_or_set] whose lookup misses followed by a
    [get_or_set] on the same key whose lookup hits leaves
    [hit_count = 1], [miss_count = 1], [total_requests = 2] and
    [hit_ratio_percent = 50.0].  The counters only grow, and the ratio is
    stated for counters that are not negative.

    The division is Python's division of integers, which rounds the exact
    quotient once; rounding to 2 decimals takes the number of hundredths
    nearest to the exact value of the float, the even one of two nearest,
    and returns the float nearest to it.  The values computed at the end
    are those of CPython: a third is 33.33, two thirds 66.67, one in
    thirty-two 3.12 (from 3.125, half to even), and counters beyond
    [2^53] give the ratio of the exact quotient. *)
Theorem C9_hit_miss_accounting
    key ns ttl ttl' (f g : callable) (svc : C)
    e0 c1 e1 v e2 b c2 e3 e4 w c3 e5 e6 stats c4 e7 :
  svc_get key ns svc e0 = (Ok VNone, c1, e1) ->
  f e1 = (Ok v, e2) ->
  svc_set key v ttl ns c1 e2 = (Ok b, c2, e3) ->
  svc_get key ns c2 e4 = (Ok w, c3, e5) ->
  w <> VNone ->
  svc_get_stats c3 e6 = (Ok stats, c4, e7) ->
  let m0 := CacheManager_init svc in
  let m1 := snd (fst (get_or_set key f ttl ns m0 e0)) in
  let m2 := snd (fst (get_or_set key g ttl' ns m1 e4)) in
  (fst (fst (get_or_set key f ttl ns m0 e0)) = Ok v
   /\ fst (fst (get_or_set key g ttl' ns m1 e4)) = Ok w
   /\ hit_count m2 = 1 /\ miss_count m2 = 1
   /\ exists out,
        fst (fst (get_cache_stats m2 e6)) = Ok out
        /\ dict_get "hit_count" out = Some (VInt 1)
        /\ dict_get "miss_count" out = Some (VInt 1)
        /\ dict_get "total_requests" out = Some (VInt 2)
        /\ dict_get "hit_ratio_percent" out = Some (VFloat 50%float))
  /\ (forall key' f' ttl0 ns' (m : CacheManager C) e,
        let m' := snd (fst (get_or_set key' f' ttl0 ns' m e)) in
        hit_count m <= hit_count m' /\ miss_count m <= miss_count m')
  /\ (forall (m : CacheManager C) e stats' c' e',
        svc_get_stats (cache_service m) e = (Ok stats', c', e') ->
        0 <= hit_count m -> 0 <= miss_count m ->
        exists out,
          fst (fst (get_cache_stats m e)) = Ok out
          /\ dict_get "hit_count" out = Some (VInt (hit_count m))
          /\ dict_get "miss_count" out = Some (VInt (miss_count m))
          /\ dict_get "total_requests" out
             = Some (VInt (hit_count m + miss_count m))
          /\ dict_get "hit_ratio_percent" out
             = Some (if 0 <? hit_count m + miss_count m
                     then VFloat (round2
                            (nearest_quotient (hit_count m)
                                              (hit_count m + miss_count m)
                             * float_of_Z 100)%float)
                     else VInt 0))
  /\ (forall x sgn m e,
        Prim2SF x = S754_finite sgn m e ->
        exists h,
          round2 x = (if sgn then - nearest_quotient h 100
                      else nearest_quotient h 100)%float
          /\ (0 <= e -> h = Z.pos m * 100 * 2 ^ e)
          /\ (e < 0 ->
              2 * Z.abs (Z.pos m * 100 - h * 2 ^ (- e)) <= 2 ^ (- e)
              /\ (2 * Z.abs (Z.pos m * 100 - h * 2 ^ (- e)) = 2 ^ (- e) ->
                  Z.even h = true)))
  /\ (hit_ratio_percent 0 0 = Ok (VInt 0)
      /\ hit_ratio_percent 1 1 = Ok (VFloat 50%float)
      /\ hit_ratio_percent 0 5 = Ok (VFloat 0%float)
      /\ hit_ratio_percent 1 2 = Ok (VFloat 0x1.0aa3d70a3d70ap+5%float)
      /\ hit_ratio_percent 2 1 = Ok (VFloat 0x1.0aae147ae147bp+6%float)
      /\ hit_ratio_percent 1 7 = Ok (VFloat 12.5%float)
      /\ hit_ratio_percent 1 31 = Ok (VFloat 0x1.8f5c28f5c28f6p+1%float)
      /\ hit_ratio_percent 9007199254740999 1432144681503818841
         = Ok (VFloat 0x1.3d70a3d70a3d7p-1%float)).
Proof.
  intros Hg1 Hf Hs1 Hg2 Hw Hst m0 m1 m2.
  assert (E1 : get_or_set key f ttl ns m0 e0
               = (Ok v, mkCacheManager c2 0 1, e3)).
  { rewrite (get_or_set_miss key f ttl ns m0 e0 c1 e1 Hg1), Hf, Hs1.
    reflexivity. }
  assert (E2 : get_or_set key g ttl' ns m1 e4
               = (Ok w, mkCacheManager c3 1 1, e5)).
  { subst m1. rewrite E1; simpl.
    rewrite (get_or_set_hit key g ttl' ns (mkCacheManager c2 0 1)
               e4 w c3 e5 Hg2 Hw).
    reflexivity. }
  split; [|split; [|split; [|split]]].
  - subst m2. rewrite E1, E2; simpl. repeat split.
    destruct (get_cache_stats_eq (mkCacheManager c3 1 1) e6 stats c4 e7
                (VFloat 50%float) Hst)
      as (out & Eo & Hh & Hm & Ht & Hr); [vm_compute; reflexivity|].
    exists out. rewrite Eo; simpl in *. repeat split; assumption.
  - intros key' f' ttl0 ns' m e. apply get_or_set_counters.
  - intros m e stats' c' e' Hs Hh Hm.
    destruct (get_cache_stats_eq m e stats' c' e' _ Hs
                (hit_ratio_percent_counts _ _ Hh Hm))
      as (out & Eo & Hc1 & Hc2 & Hc3 & Hr).
    exists out. rewrite Eo. repeat split; assumption.
  - intros x sgn m e Hx. unfold round2. rewrite Hx.
    exists (round_half_even (Z.pos m * 100) e).
    split; [reflexivity|]. apply round_half_even_nearest.
  - repeat split; vm_compute; reflexivity.
Qed.

End AnyService.

(** *** A stored [None] *)

Lemma make_key_inj ns k k' : _make_key k ns = _make_key k' ns -> k = k'.
Proof.
  unfold _make_key. induction ns as [|a ns IH]; simpl; intros E.
  - now inversion E.
  - inversion E. auto.
Qed.

Lemma None_or_absent_delete key ns ck self :
  None_or_absent key ns self ->
  None_or_absent key ns (set_cache (delete ck (cache self)) self).
Proof.
  unfold None_or_absent; simpl. intros HI.
  destruct (decide (ck = _make_key key ns)) as [->|Hne].
  - now rewrite lookup_delete_eq.
  - now rewrite lookup_delete_ne.
Qed.

Lemma stored_None_or_absent key ns self :
  stored_None key ns self -> None_or_absent key ns self.
Proof. intros (en & Hl & Hv). unfold None_or_absent. now rewrite Hl. Qed.

(** [get] never raises, and at most drops the entry it looked at. *)
Lemma get_cases key ns self e :
  exists v self' e',
    get key ns self e = (Ok v, self', e')
    /\ (self' = self
        \/ self' = set_cache (delete (_make_key key ns) (cache self)) self)
    /\ (v = VNone
        \/ exists en, cache self !! _make_key key ns = Some en
                      /\ v = entry_value en)
    /\ clock e' = clock e.
Proof.
  unfold get, bind, get_self; simpl.
  destruct (cache self !! _make_key key ns) as [en|] eqn:El; simpl.
  - unfold _is_expired. destruct (expires_at en) as [t|]; simpl.
    + unfold bind, utcnow, ret, modify_self; simpl.
      destruct (t <? clock e (reads e)); simpl;
        eexists _, _, _; repeat split; eauto.
    + unfold ret. eexists _, _, _; repeat split; eauto.
  - unfold ret. eexists _, _, _; repeat split; eauto.
Qed.

Lemma get_preserves_None_or_absent key ns key' ns' self e :
  None_or_absent key ns self ->
  None_or_absent key ns (snd (fst (get key' ns' self e))).
Proof.
  intros HI. destruct (get_cases key' ns' self e)
    as (v & self' & e' & -> & [-> | ->] & _); simpl; auto.
  now apply None_or_absent_delete.
Qed.

Lemma get_None_or_absent key ns self e :
  None_or_absent key ns self ->
  fst (fst (get key ns self e)) = Ok VNone.
Proof.
  intros HI. destruct (get_cases key ns self e)
    as (v & self' & e' & -> & _ & [-> | (en & Hl & ->)] & _); simpl; auto.
  unfold None_or_absent in HI. rewrite Hl in HI. now rewrite HI.
Qed.

Lemma get_default_ttl key ns self e :
  default_ttl (snd (fst (get key ns self e))) = default_ttl self.
Proof.
  destruct (get_cases key ns self e)
    as (v & self' & e' & -> & [-> | ->] & _); reflexivity.
Qed.

Lemma get_clock key ns self e : clock (snd (get key ns self e)) = clock e.
Proof.
  destruct (get_cases key ns self e) as (v & self' & e' & -> & _ & _ & Hc).
  exact Hc.
Qed.

Lemma set_stores key v ttl ns self e :
  is_ok (plus_seconds (now e) (ttl_or ttl (default_ttl self))) = true ->
  exists en,
    cache (snd (fst (set key v ttl ns self e))) !! _make_key key ns = Some en
    /\ entry_value en = v.
Proof.
  intros H. rewrite set_ok by exact H; simpl. eexists.
  rewrite lookup_insert_eq. eauto.
Qed.

(** On the in-memory cache a lookup that finds nothing, an expired entry
    or a stored [None] is a miss: it is counted, [value_func] is called,
    and what it returns is stored and returned, unless [set] raises. *)
Lemma get_or_set_None_or_absent key f ttl ns self h ms e :
  None_or_absent key ns self ->
  exists c1 e1,
    get key ns self e = (Ok VNone, c1, e1)
    /\ get_or_set key f ttl ns (mkCacheManager self h ms) e =
       match f e1 with
       | (Ok new_value, e2) =>
           match plus_seconds (now e2) (ttl_or ttl (default_ttl self)) with
           | Ok _ =>
               (Ok new_value,
                mkCacheManager (snd (fst (set key new_value ttl ns c1 e2)))
                               h (ms + 1),
                after_reads 2 e2)
           | Raise x =>
               (Raise x, mkCacheManager c1 h (ms + 1), after_reads 1 e2)
           end
       | (Raise x, e2) => (Raise x, mkCacheManager c1 h (ms + 1), e2)
       end.
Proof.
  intros HI. pose proof (get_None_or_absent key ns self e HI) as Hv.
  pose proof (get_default_ttl key ns self e) as Hd.
  destruct (get key ns self e) as [[r c1] e1] eqn:Eg; simpl in Hv, Hd; subst r.
  exists c1, e1. split; [reflexivity|].
  rewrite (get_or_set_miss (svcC := InMemory_ICacheService)
             key f ttl ns (mkCacheManager self h ms) e c1 e1 Eg).
  destruct (f e1) as [[v|x] e2]; [|reflexivity].
  cbn [svc_set InMemory_ICacheService]. rewrite set_eq, Hd.
  destruct (plus_seconds (now e2) (ttl_or ttl (default_ttl self)));
    reflexivity.
Qed.

Lemma get_or_set_n_None key f ttl ns n d :
  (forall e, fst (f e) = Ok VNone) ->
  keeps_clock f ->
  forall self h ms e,
    None_or_absent key ns self ->
    default_ttl self = d ->
    ttl_fits (ttl_or ttl d) e ->
    exists m' e',
      get_or_set_n n key f ttl ns (mkCacheManager self h ms) e
        = (Ok (repeat VNone n), m', e')
      /\ miss_count m' = ms + Z.of_nat n
      /\ hit_count m' = h
      /\ None_or_absent key ns (cache_service m').
Proof.
  intros Hf Hk. induction n as [|n IH]; intros self h ms e HI Hd Hfit.
  - simpl. unfold ret. eexists _, _. split; [reflexivity|]. simpl.
    repeat split; auto; lia.
  - destruct (get_or_set_None_or_absent key f ttl ns self h ms e HI)
      as (c1 & e1 & Eg & Egs).
    pose proof (get_clock key ns self e) as Hc1.
    pose proof (get_default_ttl key ns self e) as Hd1.
    rewrite Eg in Hc1, Hd1. cbn [fst snd] in Hc1, Hd1.
    pose proof (Hk e1) as Hc2.
    specialize (Hf e1). destruct (f e1) as [[v|x] e2]; simpl in Hf, Hc2;
      [|discriminate]. injection Hf as ->.
    assert (Hok : is_ok (plus_seconds (now e2) (ttl_or ttl (default_ttl self)))
                  = true).
    { unfold now. rewrite Hc2, Hc1, Hd. apply Hfit. }
    assert (Hok1 : is_ok (plus_seconds (now e2) (ttl_or ttl (default_ttl c1)))
                   = true) by (now rewrite Hd1).
    destruct (set_stores key VNone ttl ns c1 e2 Hok1) as (en & Hl & Hv).
    rewrite (SysFacts.plus_seconds_is_ok _ _ Hok) in Egs.
    set (c3 := snd (fst (set key VNone ttl ns c1 e2))) in *.
    assert (HI3 : None_or_absent key ns c3).
    { unfold None_or_absent. now rewrite Hl. }
    assert (Hd3 : default_ttl c3 = d).
    { subst c3. rewrite set_ok by exact Hok1. cbn [fst snd default_ttl set_cache].
      congruence. }
    assert (Hfit3 : ttl_fits (ttl_or ttl d) (after_reads 2 e2)).
    { intros i. cbn [clock after_reads]. rewrite Hc2, Hc1. apply Hfit. }
    destruct (IH c3 h (ms + 1) (after_reads 2 e2) HI3 Hd3 Hfit3)
      as (m' & e' & En & Hm & Hh & HI').
    exists m', e'. split.
    + cbn [get_or_set_n]. unfold bind at 1. rewrite Egs.
      unfold bind at 1. rewrite En. reflexivity.
    + repeat split; auto. lia.
Qed.

Lemma mget_loop_omits key ns keys :
  forall self h ms e results,
    None_or_absent key ns self ->
    dict_get key results = None ->
    exists out m' e',
      mget_loop keys ns results (mkCacheManager self h ms) e = (Ok out, m', e')
      /\ dict_get key out = None.
Proof.
  induction keys as [|k keys IH]; intros self h ms e results HI Hr.
  - simpl. unfold ret. eauto.
  - cbn [mget_loop]. unfold bind, on_service, lift. cbn [svc_get InMemory_ICacheService cache_service].
    pose proof (get_preserves_None_or_absent key ns k ns self e HI) as HI'.
    destruct (get_cases k ns self e)
      as (v & self' & e' & Eg & _ & Hv & _).
    rewrite Eg in *. cbn [fst snd] in HI'. cbn [hit_count miss_count].
    apply IH; [exact HI'|].
    destruct (is_None v) eqn:Ev; simpl; [exact Hr|].
    destruct (decide (k = key)) as [->|Hne].
    + exfalso. pose proof (get_None_or_absent key ns self e HI) as Hn.
      rewrite Eg in Hn. simpl in Hn. injection Hn as ->. discriminate.
    + now rewrite dict_get_set_ne.
Qed.

(** C10.  On the in-memory cache a key whose stored value is [None] is
    treated like a missing key: [get] returns [None], as it does for a
    missing key; [get_or_set] counts a miss and calls [value_func], and
    stores and returns what that returns unless the expiry is no
    [datetime], in which case the [OverflowError] of [set] leaves
    [get_or_set] with the miss counted; it does so again on every call as
    long as [value_func] returns [None]; [mget] leaves the key out of its
    result. *)
Theorem C10_stored_None_is_a_miss key ns (self : InMemoryCacheService) :
  stored_None key ns self ->
  (forall e, fst (fst (get key ns self e)) = Ok VNone)
  /\ (forall self0 e,
        cache self0 !! _make_key key ns = None ->
        fst (fst (get key ns self0 e)) = Ok VNone)
  /\ (forall h ms f ttl e,
        exists c1 e1,
          get key ns self e = (Ok VNone, c1, e1)
          /\ get_or_set key f ttl ns (mkCacheManager self h ms) e =
             match f e1 with
             | (Ok new_value, e2) =>
                 match plus_seconds (now e2) (ttl_or ttl (default_ttl self)) with
                 | Ok _ =>
                     (Ok new_value,
                      mkCacheManager
                        (snd (fst (set key new_value ttl ns c1 e2))) h (ms + 1),
                      after_reads 2 e2)
                 | Raise x =>
                     (Raise x, mkCacheManager c1 h (ms + 1), after_reads 1 e2)
                 end
             | (Raise x, e2) => (Raise x, mkCacheManager c1 h (ms + 1), e2)
             end)
  /\ (forall h ms f ttl n e,
        (forall e', fst (f e') = Ok VNone) ->
        keeps_clock f ->
        ttl_fits (ttl_or ttl (default_ttl self)) e ->
        exists m' e',
          get_or_set_n n key f ttl ns (mkCacheManager self h ms) e
            = (Ok (repeat VNone n), m', e')
          /\ miss_count m' = ms + Z.of_nat n
          /\ hit_count m' = h)
  /\ (forall h ms keys e,
        exists out m' e',
          mget keys ns (mkCacheManager self h ms) e = (Ok out, m', e')
          /\ dict_get key out = None).
Proof.
  intros HS. pose proof (stored_None_or_absent key ns self HS) as HI.
  split; [|split; [|split; [|split]]].
  - intros e. now apply get_None_or_absent.
  - intros self0 e Habs. now rewrite get_absent.
  - intros h ms f ttl e. now apply get_or_set_None_or_absent.
  - intros h ms f ttl n e Hf Hk Hfit.
    destruct (get_or_set_n_None key f ttl ns n (default_ttl self) Hf Hk
                self h ms e HI eq_refl Hfit)
      as (m' & e' & En & Hm & Hh & _).
    eauto.
  - intros h ms keys e. unfold mget. now apply mget_loop_omits.
Qed.

(** C10 at a concrete store: ["k"] holds [None] with no expiry. *)
Lemma C10_stored_None_is_a_miss_witness :
  let self :=
    mkInMemoryCache {["default:k" := mkEntry VNone None 0]} 3600 in
  fst (fst (get "k" "default" self (frozen_env 0))) = Ok VNone
  /\ exists m' e',
       get_or_set_n 3 "k" (const_func VNone) None "default"
                    (mkCacheManager self 0 0) (frozen_env 0)
         = (Ok [VNone; VNone; VNone], m', e')
       /\ miss_count m' = 3 /\ hit_count m' = 0.
Proof.
  intros self.
  assert (HS : stored_None "k" "default" self).
  { exists (mkEntry VNone None 0). split; reflexivity. }
  destruct (C10_stored_None_is_a_miss "k" "default" self HS)
    as (Hget & _ & _ & Hn & _).
  split; [apply Hget|].
  destruct (Hn 0 0 (const_func VNone) None 3%nat (frozen_env 0))
    as (m' & e' & En & Hm & Hh);
    [reflexivity | intros e; reflexivity | intros i; reflexivity |].
  exists m', e'. repeat split; assumption.
Defined.

(** C9 on the in-memory cache: a first [get_or_set] on an empty cache, a
    second one on the same key before the entry expires. *)
Lemma C9_hit_miss_accounting_witness :
  let m0 := CacheManager_init InMemoryCacheService_init in
  let m1 := snd (fst (get_or_set "k" (const_func (VInt 7)) None "default"
                        m0 (frozen_env 0))) in
  let m2 := snd (fst (get_or_set "k" (const_func (VInt 8)) None "default"
                        m1 (frozen_env (seconds 5)))) in
  hit_count m2 = 1 /\ miss_count m2 = 1
  /\ exists out,
       fst (fst (get_cache_stats m2 (frozen_env (seconds 6)))) = Ok out
       /\ dict_get "total_requests" out = Some (VInt 2)
       /\ dict_get "hit_ratio_percent" out = Some (VFloat 50%float).
Proof.
  intros m0 m1 m2.
  edestruct (C9_hit_miss_accounting (C := InMemoryCacheService)
               "k" "default" None None
               (const_func (VInt 7)) (const_func (VInt 8))
               InMemoryCacheService_init (frozen_env 0))
    as [(_ & _ & Hh & Hm & out & Ho & _ & _ & Ht & Hr) _].
  - cbv; reflexivity.
  - cbv; reflexivity.
  - cbv; reflexivity.
  - instantiate (4 := frozen_env (seconds 5)). cbv; reflexivity.
  - discriminate.
  - instantiate (4 := frozen_env (seconds 6)). cbv; reflexivity.
  - split; [exact Hh|]. split; [exact Hm|].
    exists out. repeat split; assumption.
Defined.

End ManagerFacts.

(* --------------------------------------------------------------------- *)
(** ** types.py against session_manager.py *)
(* --------------------------------------------------------------------- *)

Module TypesFacts.
Import Types.

(** The dataclass of types.py has no field [session_id] (its identifier
    is [id]): the constructor call of both session managers is refused,
    whatever the values passed. *)
Lemma construct_Session_types_py v1 v2 v3 v4 v5 v6 v7 v8 :
  construct (Session types_py)
    [("session_id", v1); ("whatsapp_user", v2); ("workspace", v3);
     ("status", v4); ("created_at", v5); ("last_activity", v6);
     ("suggestions_count", v7); ("commands_executed", v8)]
  = Raise unexpected_session_id.
Proof. reflexivity. Qed.

(** [SessionStatus] of types.py has the members ACTIVE, INACTIVE, EXPIRED
    and BLOCKED, and no ENDED. *)
Lemma SessionStatus_ENDED_types_py :
  enum_attr (SessionStatus types_py) "ENDED" = Raise no_ENDED.
Proof. reflexivity. Qed.

Lemma SessionStatus_ACTIVE_types_py :
  enum_attr (SessionStatus types_py) "ACTIVE" = Ok (VEnum "ACTIVE" "active").
Proof. reflexivity. Qed.

End TypesFacts.

(* --------------------------------------------------------------------- *)
(** ** The in-memory session manager against types.py *)
(* --------------------------------------------------------------------- *)

Module InMemoryFacts.
Import Types InMemory TypesFacts.

(** Without an Active session for the user, [create_session] reaches the
    constructor call and raises; nothing is stored. *)
Lemma create_session_raises user ws self e e1 :
  existing_active types_py user self e = (Ok None, self, e1) ->
  create_session types_py user ws self e
  = (Raise unexpected_session_id, self, after_failed_create e1).
Proof.
  intros Hex. unfold create_session, bind at 1. rewrite Hex. reflexivity.
Qed.

Lemma existing_active_no_index user self e :
  user_sessions self !! user = None ->
  existing_active types_py user self e = (Ok None, self, e).
Proof.
  intros H. unfold existing_active, bind, get_self; simpl. now rewrite H.
Qed.

(** [end_session] on a session that is there raises on
    [SessionStatus.ENDED], before anything is changed. *)
Lemma end_session_present_raises sid o self e :
  sessions self !! sid = Some o ->
  end_session types_py sid self e = (Raise no_ENDED, self, e).
Proof.
  intros H. unfold end_session, bind, get_self; simpl. now rewrite H.
Qed.

Lemma end_session_absent T sid self e :
  sessions self !! sid = None ->
  end_session T sid self e = (Ok tt, self, e).
Proof.
  intros H. unfold end_session, bind, get_self; simpl. now rewrite H.
Qed.

Lemma end_all_raises sid ids o self e :
  sessions self !! sid = Some o ->
  end_all types_py (sid :: ids) self e = (Raise no_ENDED, self, e).
Proof.
  intros H. cbn [end_all]. unfold bind.
  now rewrite (end_session_present_raises sid o self e H).
Qed.

End InMemoryFacts.

(* --------------------------------------------------------------------- *)
(** ** The Redis session manager against types.py *)
(* --------------------------------------------------------------------- *)

Module RedisSessionFacts.
Import Types Redis RedisSessions TypesFacts.

Lemma enum_call_raises en v x :
  enum_call en v = Raise x -> is_Key_or_ValueError x = true.
Proof.
  unfold enum_call. destruct (find _ _) as [[n s]|]; intros E; inversion E.
  reflexivity.
Qed.

Ltac step_parse :=
  match goal with
  | |- context [dict_get ?k ?d] => destruct (dict_get k d)
  | |- context [enum_call ?en ?v] => destruct (enum_call en v) eqn:?
  | |- context [fromisoformat ?L ?s] => destruct (fromisoformat L s)
  | |- context [int_of_str ?L ?s] => destruct (int_of_str L s)
  | |- context [json_loads ?L ?s] => destruct (json_loads L s)
  end; cbn [eval bind raise ret parsed item].

(** Against types.py the record read back from Redis is never turned
    into a [Session]: a field is missing or does not parse, or the
    constructor refuses [session_id]. *)
Lemma parse_session_types_py {R} L data (self : RedisSessionManager R) e :
  exists x,
    parse_session types_py L data self e = (Raise x, self, e)
    /\ (is_Key_or_ValueError x = true \/ x = unexpected_session_id).
Proof.
  unfold parse_session, bind, eval, item, parsed, raise, ret.
  repeat step_parse; eauto using enum_call_raises.
Qed.

(** [get_session] on the small server: [None] for a key without hash
    and for a record that does not parse, [TypeError] for one that
    does.  The server is left as it was. *)
Lemma get_session_types_py L sid r ttl ci e :
  let self := mkManager (Some r) ttl ci in
  exists res e',
    get_session types_py L server_client sid self e = (res, self, e')
    /\ (res = Ok None \/ res = Raise unexpected_session_id).
Proof.
  intros self. unfold get_session, bind at 1, require_client, bind at 1,
    get_self; simpl.
  unfold bind at 1, on_client; simpl.
  match goal with
  | |- context [match ?d with [] => _ | _ :: _ => _ end] =>
      destruct d as [|kv data]
  end.
  - unfold ret. eauto.
  - unfold try_except, bind at 1. fold self.
    destruct (parse_session_types_py L (kv :: data) self e) as (x & -> & Hx).
    destruct Hx as [Hx | ->].
    + rewrite Hx. unfold bind, logger, ret; simpl. eauto.
    + simpl. unfold raise. eauto.
Qed.

Lemma require_connected {R} (r : R) ttl ci e :
  require_client (mkManager (Some r) ttl ci) e
  = (Ok tt, mkManager (Some r) ttl ci, e).
Proof. reflexivity. Qed.

(** Hence [end_session] never writes: it logs the warning of the absent
    case, or it raises. *)
Lemma end_session_types_py L sid r ttl ci e :
  let self := mkManager (Some r) ttl ci in
  exists res e',
    end_session types_py L server_client sid self e = (res, self, e')
    /\ (res = Ok tt \/ res = Raise unexpected_session_id).
Proof.
  intros self. unfold end_session.
  rewrite SysFacts.bind_run. unfold self at 1. rewrite require_connected.
  rewrite SysFacts.bind_run.
  destruct (get_session_types_py L sid r ttl ci e) as (res & e' & Eg & Hres).
  cbv zeta in Eg. rewrite Eg. destruct Hres as [-> | ->].
  - unfold logger. eauto.
  - eauto.
Qed.

(** Whatever the types, a session without record is taken for absent:
    [end_session] logs the warning, returns, and sends no command. *)
Lemma redis_end_session_absent T L sid r ttl ci e :
  hashes r !! ("session:" +:+ sid) = None ->
  end_session T L server_client sid (mkManager (Some r) ttl ci) e
  = (Ok tt, mkManager (Some r) ttl ci,
     mkEnv (clock e) (reads e) (uuids e) (draws e)
           (log e ++ [("WARNING",
                       "Session " +:+ sid +:+ " not found for ending")])).
Proof.
  intros H. unfold end_session.
  rewrite SysFacts.bind_run, require_connected.
  rewrite SysFacts.bind_run.
  assert (Eg : get_session T L server_client sid (mkManager (Some r) ttl ci) e
               = (Ok None, mkManager (Some r) ttl ci, e)).
  { unfold get_session.
    rewrite SysFacts.bind_run, require_connected.
    rewrite SysFacts.bind_run. unfold on_client; simpl.
    unfold bind, get_self, ret; simpl. now rewrite H. }
  rewrite Eg. reflexivity.
Qed.

(** A user without index entry: [create_session] finds nothing, reaches
    the constructor call and raises; no command is sent. *)
Lemma redis_create_session_raises L user ws r ttl ci e :
  strings r !! ("user_session:" +:+ user) = None ->
  create_session types_py L server_client user ws (mkManager (Some r) ttl ci) e
  = (Raise unexpected_session_id, mkManager (Some r) ttl ci,
     InMemory.after_failed_create e).
Proof.
  intros H. unfold create_session.
  rewrite SysFacts.bind_run, require_connected.
  rewrite SysFacts.bind_run.
  assert (Eu : get_user_session types_py L server_client user
                 (mkManager (Some r) ttl ci) e
               = (Ok None, mkManager (Some r) ttl ci, e)).
  { unfold get_user_session.
    rewrite SysFacts.bind_run, require_connected.
    rewrite SysFacts.bind_run. unfold on_client; simpl.
    unfold bind, get_self, ret; simpl. now rewrite H. }
  rewrite Eu. reflexivity.
Qed.

End RedisSessionFacts.

(* --------------------------------------------------------------------- *)
(** ** The session claims on the code as it stands *)
(* --------------------------------------------------------------------- *)

Module SessionClaims.
Import Types Redis TypesFacts Fixtures.

(** The helper of types.py does build a [Session]: the class is usable
    with its own field names. *)
Example types_create_session_s1 :
  fst (fst (types_create_session types_py (S := unit) "u1" None tt (env_at 0)))
  = Ok (session_s1 0).
Proof. reflexivity. Qed.

(** C1 on the code.  On a manager without a session for the user (a fresh
    in-memory manager; a Redis manager connected to an empty server) the
    first [create_session] raises [TypeError] from the [Session(...)] call
    and stores nothing, and so does the second: no session is returned
    either time. *)
Theorem C1_create_session_twice_raises L user ws e :
  let fresh := InMemory.InMemorySessionManager_init in
  let first := InMemory.create_session types_py user ws fresh e in
  let second :=
    InMemory.create_session types_py user ws (snd (fst first)) (snd first) in
  let rfresh := connected empty_server in
  let rfirst :=
    RedisSessions.create_session types_py L server_client user ws rfresh e in
  let rsecond :=
    RedisSessions.create_session types_py L server_client user ws
      (snd (fst rfirst)) (snd rfirst) in
  fst (fst first) = Raise unexpected_session_id
  /\ snd (fst first) = fresh
  /\ fst (fst second) = Raise unexpected_session_id
  /\ fst (fst rfirst) = Raise unexpected_session_id
  /\ snd (fst rfirst) = rfresh
  /\ fst (fst rsecond) = Raise unexpected_session_id.
Proof.
  intros fresh first second rfresh rfirst rsecond.
  assert (E1 : first = (Raise unexpected_session_id, fresh,
                        InMemory.after_failed_create e)).
  { apply InMemoryFacts.create_session_raises.
    apply InMemoryFacts.existing_active_no_index. apply lookup_empty. }
  assert (E2 : rfirst = (Raise unexpected_session_id, rfresh,
                         InMemory.after_failed_create e)).
  { apply RedisSessionFacts.redis_create_session_raises. apply lookup_empty. }
  subst second rsecond. rewrite E1, E2. cbn [fst snd].
  split; [reflexivity|]. split; [reflexivity|].
  split.
  { erewrite InMemoryFacts.create_session_raises; [reflexivity|].
    apply InMemoryFacts.existing_active_no_index. apply lookup_empty. }
  split; [reflexivity|]. split; [reflexivity|].
  unfold rfresh, connected.
  rewrite RedisSessionFacts.redis_create_session_raises; [reflexivity|].
  apply lookup_empty.
Qed.

(** C2 on the code.  For a user without index entry, whatever else the
    store holds, [create_session] returns no record: the constructor call
    raises [TypeError], nothing is written to the dictionaries of the
    in-memory manager, and no command reaches the Redis server. *)
Theorem C2_create_session_returns_no_record L user ws e :
  (forall self,
      let self0 :=
        InMemory.set_user_sessions
          (base.delete user (InMemory.user_sessions self)) self in
      InMemory.create_session types_py user ws self0 e
      = (Raise unexpected_session_id, self0,
         InMemory.after_failed_create e))
  /\ (forall r ttl ci,
        let r0 := mkServer (base.delete ("user_session:" +:+ user) (strings r))
                           (hashes r) (sets r) (ttls r) in
        RedisSessions.create_session types_py L server_client user ws
          (RedisSessions.mkManager (Some r0) ttl ci) e
        = (Raise unexpected_session_id,
           RedisSessions.mkManager (Some r0) ttl ci,
           InMemory.after_failed_create e)).
Proof.
  split.
  - intros self self0. apply InMemoryFacts.create_session_raises.
    apply InMemoryFacts.existing_active_no_index. apply lookup_delete_eq.
  - intros r ttl ci r0. apply RedisSessionFacts.redis_create_session_raises.
    apply lookup_delete_eq.
Qed.

(** C3 on the code.  A session that is absent: [end_session] returns
    and changes nothing, with a warning logged by the Redis manager and
    nothing logged by the in-memory one.  A session that is present:
    in memory, [end_session] raises [AttributeError] on
    [SessionStatus.ENDED] and changes nothing, so that on the manager
    holding ["s1"] for ["u1"] the session stays Active and
    [get_user_session "u1"] still returns it; on Redis, [end_session]
    writes nothing, it either takes the record for absent (warning) or
    raises [TypeError] while reading it back. *)
Theorem C3_end_session_absent_and_present :
  (forall self sid e,
      let self0 :=
        InMemory.set_sessions (base.delete sid (InMemory.sessions self)) self in
      InMemory.end_session types_py sid self0 e = (Ok tt, self0, e))
  /\ (forall L sid r ttl ci e,
        let r0 := mkServer (strings r)
                           (base.delete ("session:" +:+ sid) (hashes r))
                           (sets r) (ttls r) in
        let self := RedisSessions.mkManager (Some r0) ttl ci in
        let out := RedisSessions.end_session types_py L server_client sid self e in
        fst out = (Ok tt, self)
        /\ log (snd out)
           = (log e ++ [("WARNING",
                         "Session " +:+ sid +:+ " not found for ending")])%list)
  /\ (forall self sid o e,
        let self1 :=
          InMemory.set_sessions (<[sid := o]> (InMemory.sessions self)) self in
        InMemory.end_session types_py sid self1 e = (Raise no_ENDED, self1, e))
  /\ InMemory.end_session types_py "s1" stale_manager (env_at 0)
     = (Raise no_ENDED, stale_manager, env_at 0)
  /\ fst (fst (InMemory.get_user_session "u1" stale_manager (env_at 0)))
     = Ok (Some (session_s1 0))
  /\ (forall L sid r ttl ci e,
        let self := RedisSessions.mkManager (Some r) ttl ci in
        let out := RedisSessions.end_session types_py L server_client sid self e in
        snd (fst out) = self
        /\ (fst (fst out) = Ok tt \/ fst (fst out) = Raise unexpected_session_id))
  /\ fst (fst (RedisSessions.end_session types_py lib_accepting server_client
                 "s1" (connected server_s1) (env_at 0)))
     = Raise unexpected_session_id.
Proof.
  split; [|split; [|split; [|split; [|split; [|split]]]]].
  - intros self sid e self0. apply InMemoryFacts.end_session_absent.
    simpl. apply lookup_delete_eq.
  - intros L sid r ttl ci e r0 self out. subst out self.
    rewrite RedisSessionFacts.redis_end_session_absent
      by (subst r0; simpl; apply lookup_delete_eq).
    split; reflexivity.
  - intros self sid o e self1.
    apply (InMemoryFacts.end_session_present_raises sid o).
    simpl. apply lookup_insert_eq.
  - apply (InMemoryFacts.end_session_present_raises "s1" (session_s1 0)).
    reflexivity.
  - reflexivity.
  - intros L sid r ttl ci e self out.
    destruct (RedisSessionFacts.end_session_types_py L sid r ttl ci e)
      as (res & e' & E & Hres).
    subst out. cbv zeta in E. unfold self. rewrite E. simpl. auto.
  - vm_compute. reflexivity.
Qed.

(** C4 on the code.  In-memory, the sweep over a manager that holds an
    expired session raises [AttributeError] from [end_session]: no count
    is returned and the session stays as it was.  On Redis, the sweep
    over an active set whose member has a readable record raises
    [TypeError] from [get_session]: the member stays in the active set and
    the count of active sessions is unchanged. *)
Theorem C4_cleanup_raises_on_expired_session :
  InMemory.cleanup_expired_sessions types_py stale_manager (env_at (seconds 2))
  = (Raise no_ENDED, stale_manager, after_reads 1 (env_at (seconds 2)))
  /\ (let out :=
        RedisSessions.cleanup_expired_sessions types_py lib_accepting
          server_client (connected server_s1)
          (env_at (seconds (2 * 24 * 60 * 60))) in
      fst (fst out) = Raise unexpected_session_id
      /\ snd (fst out) = connected server_s1
      /\ fst (fst (RedisSessions.get_active_session_count server_client
                     (snd (fst out)) (snd out)))
         = Ok 1).
Proof.
  split.
  - vm_compute. reflexivity.
  - vm_compute. repeat split; reflexivity.
Qed.

End SessionClaims.

(* --------------------------------------------------------------------- *)
(** ** Backend errors: the Redis cache and the Redis session manager *)
(* --------------------------------------------------------------------- *)

Module BackendFacts.
Import Redis Types.

Section AnyClient.
Variable L : pylib.
Context {R : Type}.
Variable C : client R.

(** A handler that logs and returns a value ends every [try] well. *)
Lemma try_log_ret_ok {S A} (c : M S A) (msg : exn -> string) (a : A) s e :
  is_ok (fst (fst (try_except c
                     (fun x => logger "ERROR" (msg x) ;;; ret a) s e))) = true.
Proof.
  rewrite SysFacts.try_except_run.
  destruct (c s e) as [[[v|x] s'] e']; reflexivity.
Qed.

(** *** The cache service *)

Lemma cache_not_connected (self : RedisCache.RedisCacheService R)
    key ns v ttl e :
  RedisCache.redis_client self = None ->
  RedisCache.get L C key ns self e = (Raise RedisCache.not_connected, self, e)
  /\ RedisCache.set L C key v ttl ns self e
     = (Raise RedisCache.not_connected, self, e)
  /\ RedisCache.delete C key ns self e
     = (Raise RedisCache.not_connected, self, e)
  /\ RedisCache.exists_ C key ns self e
     = (Raise RedisCache.not_connected, self, e)
  /\ RedisCache.clear_namespace C ns self e
     = (Raise RedisCache.not_connected, self, e).
Proof.
  intros H.
  unfold RedisCache.get, RedisCache.set, RedisCache.delete,
    RedisCache.exists_, RedisCache.clear_namespace.
  rewrite !SysFacts.bind_run. unfold RedisCache.require_client, bind, get_self.
  rewrite H. repeat split.
Qed.

Lemma cache_require_connected (self : RedisCache.RedisCacheService R) r e :
  RedisCache.redis_client self = Some r ->
  RedisCache.require_client self e = (Ok tt, self, e).
Proof.
  intros H. unfold RedisCache.require_client, bind, get_self. now rewrite H.
Qed.

Lemma cache_connected_never_raises (self : RedisCache.RedisCacheService R)
    r key ns v ttl e :
  RedisCache.redis_client self = Some r ->
  is_ok (fst (fst (RedisCache.get L C key ns self e))) = true
  /\ is_ok (fst (fst (RedisCache.set L C key v ttl ns self e))) = true
  /\ is_ok (fst (fst (RedisCache.delete C key ns self e))) = true
  /\ is_ok (fst (fst (RedisCache.exists_ C key ns self e))) = true
  /\ is_ok (fst (fst (RedisCache.clear_namespace C ns self e))) = true.
Proof.
  intros H.
  unfold RedisCache.get, RedisCache.set, RedisCache.delete,
    RedisCache.exists_, RedisCache.clear_namespace.
  rewrite !SysFacts.bind_run, !(cache_require_connected self r e H).
  rewrite !SysFacts.bind_run. unfold get_self.
  repeat split; apply try_log_ret_ok.
Qed.

Lemma on_client_raised {A} (c : M R A)
    (self : RedisCache.RedisCacheService R) r e x r' e' :
  RedisCache.redis_client self = Some r ->
  c r e = (Raise x, r', e') ->
  RedisCache.on_client c self e
  = (Raise x,
     RedisCache.mkService (Some r') (RedisCache.default_ttl self)
                          (RedisCache.key_prefix self), e').
Proof. intros H E. unfold RedisCache.on_client. now rewrite H, E. Qed.

Lemma on_client_ok {A} (c : M R A)
    (self : RedisCache.RedisCacheService R) r e a r' e' :
  RedisCache.redis_client self = Some r ->
  c r e = (Ok a, r', e') ->
  RedisCache.on_client c self e
  = (Ok a,
     RedisCache.mkService (Some r') (RedisCache.default_ttl self)
                          (RedisCache.key_prefix self), e').
Proof. intros H E. unfold RedisCache.on_client. now rewrite H, E. Qed.

Lemma try_log_ret_eq {S A} (c : M S A) (msg : exn -> string) (a : A)
    s e x s' e' :
  c s e = (Raise x, s', e') ->
  try_except c (fun x => logger "ERROR" (msg x) ;;; ret a) s e
  = (Ok a, s', logged "ERROR" (msg x) e').
Proof. intros E. rewrite SysFacts.try_except_run, E. reflexivity. Qed.

(** What an error is converted to, wherever it arises inside an
    operation of the cache service: in the call of the client, in
    serialisation before it, in deserialisation after it, and for
    [clear_namespace] in either of its two calls.  The error is logged and
    the benign value returned. *)
Lemma cache_backend_error (self : RedisCache.RedisCacheService R)
    r key ns v ttl e x r' e' :
  RedisCache.redis_client self = Some r ->
  let k := RedisCache._make_key self key ns in
  let left r' :=
    RedisCache.mkService (Some r') (RedisCache.default_ttl self)
                         (RedisCache.key_prefix self) in
  (Redis.get C k r e = (Raise x, r', e') ->
   RedisCache.get L C key ns self e
   = (Ok VNone, left r',
      logged "ERROR" ("Error getting cache value for " +:+ k +:+ ": "
                      +:+ exn_str x) e'))
  /\ (forall serialized,
        Redis.get C k r e = (Ok (Some serialized), r', e') ->
        RedisCache._deserialize_value L serialized = Raise x ->
        RedisCache.get L C key ns self e
        = (Ok VNone, left r',
           logged "ERROR" ("Error getting cache value for " +:+ k +:+ ": "
                           +:+ exn_str x) e'))
  /\ (RedisCache._serialize_value L v = Raise x ->
      RedisCache.set L C key v ttl ns self e
      = (Ok false, self,
         logged "ERROR" ("Error setting cache value for " +:+ k +:+ ": "
                         +:+ exn_str x) e))
  /\ (forall serialized,
        RedisCache._serialize_value L v = Ok serialized ->
        Redis.setex C k (Cache.ttl_or ttl (RedisCache.default_ttl self))
                    serialized r e = (Raise x, r', e') ->
        RedisCache.set L C key v ttl ns self e
        = (Ok false, left r',
           logged "ERROR" ("Error setting cache value for " +:+ k +:+ ": "
                           +:+ exn_str x) e'))
  /\ (Redis.delete C [k] r e = (Raise x, r', e') ->
      RedisCache.delete C key ns self e
      = (Ok false, left r',
         logged "ERROR" ("Error deleting cache value for " +:+ k +:+ ": "
                         +:+ exn_str x) e'))
  /\ (Redis.exists_ C k r e = (Raise x, r', e') ->
      RedisCache.exists_ C key ns self e
      = (Ok false, left r',
         logged "ERROR" ("Error checking cache existence for " +:+ k +:+ ": "
                         +:+ exn_str x) e'))
  /\ (Redis.keys C (RedisCache.key_prefix self +:+ ns +:+ ":*") r e
      = (Raise x, r', e') ->
      RedisCache.clear_namespace C ns self e
      = (Ok 0, left r',
         logged "ERROR" ("Error clearing namespace " +:+ ns +:+ ": "
                         +:+ exn_str x) e'))
  /\ (forall ks r1 e1,
        Redis.keys C (RedisCache.key_prefix self +:+ ns +:+ ":*") r e
        = (Ok ks, r1, e1) ->
        ks <> [] ->
        Redis.delete C ks r1 e1 = (Raise x, r', e') ->
        RedisCache.clear_namespace C ns self e
        = (Ok 0, left r',
           logged "ERROR" ("Error clearing namespace " +:+ ns +:+ ": "
                           +:+ exn_str x) e')).
Proof.
  intros H k left. subst k left.
  unfold RedisCache.get, RedisCache.set, RedisCache.delete,
    RedisCache.exists_, RedisCache.clear_namespace.
  rewrite !SysFacts.bind_run, !(cache_require_connected self r e H).
  rewrite !SysFacts.bind_run. unfold get_self.
  split; [|split; [|split; [|split; [|split; [|split; [|split]]]]]].
  - intros E. rewrite SysFacts.try_except_run, SysFacts.bind_run.
    rewrite (on_client_raised _ self r e x r' e' H E). reflexivity.
  - intros serialized E Ed. rewrite SysFacts.try_except_run, SysFacts.bind_run.
    rewrite (on_client_ok _ self r e _ r' e' H E), Ed. reflexivity.
  - intros Es. rewrite SysFacts.try_except_run, SysFacts.bind_run, Es.
    destruct self; reflexivity.
  - intros serialized Es E.
    rewrite SysFacts.try_except_run, SysFacts.bind_run, Es. cbn [eval ret].
    rewrite SysFacts.bind_run.
    rewrite (on_client_raised _ self r e x r' e' H E). reflexivity.
  - intros E. rewrite SysFacts.try_except_run, SysFacts.bind_run.
    rewrite (on_client_raised _ self r e x r' e' H E). reflexivity.
  - intros E. rewrite SysFacts.try_except_run, SysFacts.bind_run.
    rewrite (on_client_raised _ self r e x r' e' H E). reflexivity.
  - intros E. rewrite SysFacts.try_except_run, SysFacts.bind_run.
    rewrite (on_client_raised _ self r e x r' e' H E). reflexivity.
  - intros ks r1 e1 E Hks Ed.
    rewrite SysFacts.try_except_run, SysFacts.bind_run.
    rewrite (on_client_ok _ self r e _ r1 e1 H E).
    destruct ks as [|k0 ks]; [congruence|].
    rewrite (on_client_raised _
               (RedisCache.mkService (Some r1) (RedisCache.default_ttl self)
                                     (RedisCache.key_prefix self))
               r1 e1 x r' e' eq_refl Ed).
    reflexivity.
Qed.

(** *** The session manager *)

Lemma sessions_not_connected T (self : RedisSessions.RedisSessionManager R)
    user ws sid (session : object) e :
  RedisSessions.redis_client self = None ->
  RedisSessions.create_session T L C user ws self e
  = (Raise RedisSessions.not_connected, self, e)
  /\ RedisSessions.get_session T L C sid self e
     = (Raise RedisSessions.not_connected, self, e)
  /\ RedisSessions.get_user_session T L C user self e
     = (Raise RedisSessions.not_connected, self, e)
  /\ RedisSessions.update_session L C session self e
     = (Raise RedisSessions.not_connected, self, e)
  /\ RedisSessions.end_session T L C sid self e
     = (Raise RedisSessions.not_connected, self, e)
  /\ RedisSessions.cleanup_expired_sessions T L C self e
     = (Raise RedisSessions.not_connected, self, e)
  /\ RedisSessions.get_active_session_count C self e
     = (Raise RedisSessions.not_connected, self, e)
  /\ RedisSessions.get_all_active_sessions T L C self e
     = (Raise RedisSessions.not_connected, self, e).
Proof.
  intros H.
  unfold RedisSessions.create_session, RedisSessions.get_session,
    RedisSessions.get_user_session, RedisSessions.update_session,
    RedisSessions.end_session, RedisSessions.cleanup_expired_sessions,
    RedisSessions.get_active_session_count,
    RedisSessions.get_all_active_sessions.
  rewrite !SysFacts.bind_run.
  unfold RedisSessions.require_client, bind, get_self.
  rewrite H. repeat split.
Qed.

Lemma sessions_require_connected (self : RedisSessions.RedisSessionManager R)
    r e :
  RedisSessions.redis_client self = Some r ->
  RedisSessions.require_client self e = (Ok tt, self, e).
Proof.
  intros H. unfold RedisSessions.require_client, bind, get_self. now rewrite H.
Qed.

Lemma sessions_on_client_raised {A} (c : M R A)
    (self : RedisSessions.RedisSessionManager R) r e x r' e' :
  RedisSessions.redis_client self = Some r ->
  c r e = (Raise x, r', e') ->
  RedisSessions.on_client c self e
  = (Raise x,
     RedisSessions.mkManager (Some r') (RedisSessions.session_ttl self)
                             (RedisSessions.cleanup_interval self), e').
Proof. intros H E. unfold RedisSessions.on_client. now rewrite H, E. Qed.

(** [get_session] has no handler around the call of the client: what
    [hgetall] raises leaves the method. *)
Lemma get_session_propagates T (self : RedisSessions.RedisSessionManager R)
    r sid e x r' e' :
  RedisSessions.redis_client self = Some r ->
  hgetall C ("session:" +:+ sid) r e = (Raise x, r', e') ->
  RedisSessions.get_session T L C sid self e
  = (Raise x,
     RedisSessions.mkManager (Some r') (RedisSessions.session_ttl self)
                             (RedisSessions.cleanup_interval self), e').
Proof.
  intros H E. unfold RedisSessions.get_session.
  rewrite SysFacts.bind_run, (sessions_require_connected self r e H).
  rewrite SysFacts.bind_run.
  now rewrite (sessions_on_client_raised _ self r e x r' e' H E).
Qed.

Lemma get_user_session_propagates T
    (self : RedisSessions.RedisSessionManager R) r user e x r' e' :
  RedisSessions.redis_client self = Some r ->
  Redis.get C ("user_session:" +:+ user) r e = (Raise x, r', e') ->
  RedisSessions.get_user_session T L C user self e
  = (Raise x,
     RedisSessions.mkManager (Some r') (RedisSessions.session_ttl self)
                             (RedisSessions.cleanup_interval self), e').
Proof.
  intros H E. unfold RedisSessions.get_user_session.
  rewrite SysFacts.bind_run, (sessions_require_connected self r e H).
  rewrite SysFacts.bind_run.
  now rewrite (sessions_on_client_raised _ self r e x r' e' H E).
Qed.

(** [update_session] reads the attributes of the session and calls
    [hset]: whatever the session, it does not return when [hset] fails. *)
Lemma update_session_propagates (self : RedisSessions.RedisSessionManager R)
    r session e x :
  RedisSessions.redis_client self = Some r ->
  (forall key data r0 e0, hset C key data r0 e0 = (Raise x, r0, e0)) ->
  is_ok (fst (fst (RedisSessions.update_session L C session self e))) = false.
Proof.
  intros H Hh. unfold RedisSessions.update_session.
  rewrite SysFacts.bind_run, (sessions_require_connected self r e H).
  repeat (rewrite SysFacts.bind_run;
          match goal with
          | |- context [eval ?c] =>
              destruct c; cbn [eval ret raise utcnow]; [|reflexivity]
          | |- context [utcnow] => cbn [utcnow]
          end).
  rewrite SysFacts.bind_run.
  erewrite sessions_on_client_raised; [reflexivity | exact H | apply Hh].
Qed.

(** What a failing call of the client does to an operation of the session
    manager: it leaves the operation as the exception it is. *)
Lemma sessions_backend_error T (self : RedisSessions.RedisSessionManager R)
    r user ws sid e x r' e' :
  RedisSessions.redis_client self = Some r ->
  let left r' :=
    RedisSessions.mkManager (Some r') (RedisSessions.session_ttl self)
                            (RedisSessions.cleanup_interval self) in
  (hgetall C ("session:" +:+ sid) r e = (Raise x, r', e') ->
   RedisSessions.get_session T L C sid self e = (Raise x, left r', e')
   /\ RedisSessions.end_session T L C sid self e = (Raise x, left r', e'))
  /\ (Redis.get C ("user_session:" +:+ user) r e = (Raise x, r', e') ->
      RedisSessions.get_user_session T L C user self e
      = (Raise x, left r', e')
      /\ RedisSessions.create_session T L C user ws self e
         = (Raise x, left r', e'))
  /\ (smembers C "active_sessions" r e = (Raise x, r', e') ->
      RedisSessions.get_all_active_sessions T L C self e
      = (Raise x, left r', e'))
  /\ (scard C "active_sessions" r e = (Raise x, r', e') ->
      RedisSessions.get_active_session_count C self e
      = (Raise x, left r', e'))
  /\ (is_ok (minus_seconds (now e) (RedisSessions.session_ttl self)) = true ->
      smembers C "active_sessions" r (after_reads 1 e) = (Raise x, r', e') ->
      RedisSessions.cleanup_expired_sessions T L C self e
      = (Raise x, left r', e')).
Proof.
  intros H left.
  split; [|split; [|split; [|split]]].
  - intros E.
    pose proof (get_session_propagates T self r sid e x r' e' H E) as Eg.
    split; [exact Eg|]. unfold RedisSessions.end_session.
    rewrite SysFacts.bind_run, (sessions_require_connected self r e H).
    now rewrite SysFacts.bind_run, Eg.
  - intros E.
    pose proof (get_user_session_propagates T self r user e x r' e' H E) as Eg.
    split; [exact Eg|]. unfold RedisSessions.create_session.
    rewrite SysFacts.bind_run, (sessions_require_connected self r e H).
    now rewrite SysFacts.bind_run, Eg.
  - intros E. unfold RedisSessions.get_all_active_sessions.
    rewrite SysFacts.bind_run, (sessions_require_connected self r e H).
    rewrite SysFacts.bind_run.
    now rewrite (sessions_on_client_raised _ self r e x r' e' H E).
  - intros E. unfold RedisSessions.get_active_session_count.
    rewrite SysFacts.bind_run, (sessions_require_connected self r e H).
    now rewrite (sessions_on_client_raised _ self r e x r' e' H E).
  - intros Hok E. unfold RedisSessions.cleanup_expired_sessions.
    rewrite SysFacts.bind_run, (sessions_require_connected self r e H).
    rewrite SysFacts.bind_run. cbn [get_self].
    rewrite SysFacts.bind_run. cbn [utcnow].
    rewrite SysFacts.bind_run. fold (now e).
    destruct (minus_seconds (now e) (RedisSessions.session_ttl self));
      [|discriminate].
    cbn [eval ret]. rewrite SysFacts.bind_run.
    replace (mkEnv (clock e) (S (reads e)) (uuids e) (draws e) (log e))
      with (after_reads 1 e) by (unfold after_reads; f_equal; lia).
    now rewrite (sessions_on_client_raised _ self r _ x r' e' H E).
Qed.

(** C7 (as amended).  Every operation of the Redis cache service
    ([get], [set], [delete], [exists], [clear_namespace]) and of the Redis
    session manager raises [RuntimeError] while no client is assigned.
    With a client assigned, no exception leaves an operation of the cache
    service: an error raised by a call of the client, by serialisation
    before it or by deserialisation after it is logged and turned into
    [None] for [get], [False] for [set], [delete] and [exists], [0] for
    [clear_namespace].  The session manager has no such handler: an error
    raised by the call of the client that opens an operation leaves the
    operation, and [update_session] does not return when [hset] fails. *)
Theorem C7_backend_errors :
  (forall (self : RedisCache.RedisCacheService R) key ns v ttl e,
      RedisCache.redis_client self = None ->
      RedisCache.get L C key ns self e
      = (Raise (RuntimeError "Redis client not connected"), self, e)
      /\ RedisCache.set L C key v ttl ns self e
         = (Raise (RuntimeError "Redis client not connected"), self, e)
      /\ RedisCache.delete C key ns self e
         = (Raise (RuntimeError "Redis client not connected"), self, e)
      /\ RedisCache.exists_ C key ns self e
         = (Raise (RuntimeError "Redis client not connected"), self, e)
      /\ RedisCache.clear_namespace C ns self e
         = (Raise (RuntimeError "Redis client not connected"), self, e))
  /\ (forall (self : RedisCache.RedisCacheService R) r key ns v ttl e,
        RedisCache.redis_client self = Some r ->
        is_ok (fst (fst (RedisCache.get L C key ns self e))) = true
        /\ is_ok (fst (fst (RedisCache.set L C key v ttl ns self e))) = true
        /\ is_ok (fst (fst (RedisCache.delete C key ns self e))) = true
        /\ is_ok (fst (fst (RedisCache.exists_ C key ns self e))) = true
        /\ is_ok (fst (fst (RedisCache.clear_namespace C ns self e))) = true)
  /\ (forall (self : RedisCache.RedisCacheService R) r key ns v ttl e x r' e',
        RedisCache.redis_client self = Some r ->
        let k := RedisCache._make_key self key ns in
        let left r' :=
          RedisCache.mkService (Some r') (RedisCache.default_ttl self)
                               (RedisCache.key_prefix self) in
        (Redis.get C k r e = (Raise x, r', e') ->
         RedisCache.get L C key ns self e
         = (Ok VNone, left r',
            logged "ERROR" ("Error getting cache value for " +:+ k +:+ ": "
                            +:+ exn_str x) e'))
        /\ (forall serialized,
              Redis.get C k r e = (Ok (Some serialized), r', e') ->
              RedisCache._deserialize_value L serialized = Raise x ->
              RedisCache.get L C key ns self e
              = (Ok VNone, left r',
                 logged "ERROR" ("Error getting cache value for " +:+ k
                                 +:+ ": " +:+ exn_str x) e'))
        /\ (RedisCache._serialize_value L v = Raise x ->
            RedisCache.set L C key v ttl ns self e
            = (Ok false, self,
               logged "ERROR" ("Error setting cache value for " +:+ k +:+ ": "
                               +:+ exn_str x) e))
        /\ (forall serialized,
              RedisCache._serialize_value L v = Ok serialized ->
              Redis.setex C k (Cache.ttl_or ttl (RedisCache.default_ttl self))
                          serialized r e = (Raise x, r', e') ->
              RedisCache.set L C key v ttl ns self e
              = (Ok false, left r',
                 logged "ERROR" ("Error setting cache value for " +:+ k
                                 +:+ ": " +:+ exn_str x) e'))
        /\ (Redis.delete C [k] r e = (Raise x, r', e') ->
            RedisCache.delete C key ns self e
            = (Ok false, left r',
               logged "ERROR" ("Error deleting cache value for " +:+ k +:+ ": "
                               +:+ exn_str x) e'))
        /\ (Redis.exists_ C k r e = (Raise x, r', e') ->
            RedisCache.exists_ C key ns self e
            = (Ok false, left r',
               logged "ERROR" ("Error checking cache existence for " +:+ k
                               +:+ ": " +:+ exn_str x) e'))
        /\ (Redis.keys C (RedisCache.key_prefix self +:+ ns +:+ ":*") r e
            = (Raise x, r', e') ->
            RedisCache.clear_namespace C ns self e
            = (Ok 0, left r',
               logged "ERROR" ("Error clearing namespace " +:+ ns +:+ ": "
                               +:+ exn_str x) e'))
        /\ (forall ks r1 e1,
              Redis.keys C (RedisCache.key_prefix self +:+ ns +:+ ":*") r e
              = (Ok ks, r1, e1) ->
              ks <> [] ->
              Redis.delete C ks r1 e1 = (Raise x, r', e') ->
              RedisCache.clear_namespace C ns self e
              = (Ok 0, left r',
                 logged "ERROR" ("Error clearing namespace " +:+ ns +:+ ": "
                                 +:+ exn_str x) e')))
  /\ (forall T (self : RedisSessions.RedisSessionManager R)
             user ws sid session e,
        RedisSessions.redis_client self = None ->
        fst (fst (RedisSessions.create_session T L C user ws self e))
        = Raise (RuntimeError "Redis client not connected")
        /\ fst (fst (RedisSessions.get_session T L C sid self e))
           = Raise (RuntimeError "Redis client not connected")
        /\ fst (fst (RedisSessions.get_user_session T L C user self e))
           = Raise (RuntimeError "Redis client not connected")
        /\ fst (fst (RedisSessions.update_session L C session self e))
           = Raise (RuntimeError "Redis client not connected")
        /\ fst (fst (RedisSessions.end_session T L C sid self e))
           = Raise (RuntimeError "Redis client not connected")
        /\ fst (fst (RedisSessions.cleanup_expired_sessions T L C self e))
           = Raise (RuntimeError "Redis client not connected")
        /\ fst (fst (RedisSessions.get_active_session_count C self e))
           = Raise (RuntimeError "Redis client not connected")
        /\ fst (fst (RedisSessions.get_all_active_sessions T L C self e))
           = Raise (RuntimeError "Redis client not connected"))
  /\ (forall T (self : RedisSessions.RedisSessionManager R)
             r user ws sid e x r' e',
        RedisSessions.redis_client self = Some r ->
        let left r' :=
          RedisSessions.mkManager (Some r') (RedisSessions.session_ttl self)
                                  (RedisSessions.cleanup_interval self) in
        (hgetall C ("session:" +:+ sid) r e = (Raise x, r', e') ->
         RedisSessions.get_session T L C sid self e = (Raise x, left r', e')
         /\ RedisSessions.end_session T L C sid self e
            = (Raise x, left r', e'))
        /\ (Redis.get C ("user_session:" +:+ user) r e = (Raise x, r', e') ->
            RedisSessions.get_user_session T L C user self e
            = (Raise x, left r', e')
            /\ RedisSessions.create_session T L C user ws self e
               = (Raise x, left r', e'))
        /\ (smembers C "active_sessions" r e = (Raise x, r', e') ->
            RedisSessions.get_all_active_sessions T L C self e
            = (Raise x, left r', e'))
        /\ (scard C "active_sessions" r e = (Raise x, r', e') ->
            RedisSessions.get_active_session_count C self e
            = (Raise x, left r', e'))
        /\ (is_ok (minus_seconds (now e) (RedisSessions.session_ttl self))
            = true ->
            smembers C "active_sessions" r (after_reads 1 e)
            = (Raise x, r', e') ->
            RedisSessions.cleanup_expired_sessions T L C self e
            = (Raise x, left r', e')))
  /\ (forall (self : RedisSessions.RedisSessionManager R) r session e x,
        RedisSessions.redis_client self = Some r ->
        (forall key data r0 e0, hset C key data r0 e0 = (Raise x, r0, e0)) ->
        is_ok (fst (fst (RedisSessions.update_session L C session self e)))
        = false).
Proof.
  split; [|split; [|split; [|split; [|split]]]].
  - intros self key ns v ttl e H. now apply cache_not_connected.
  - intros self r key ns v ttl e H. now apply (cache_connected_never_raises self r).
  - intros self r key ns v ttl e x r' e' H.
    exact (cache_backend_error self r key ns v ttl e x r' e' H).
  - intros T self user ws sid session e H.
    destruct (sessions_not_connected T self user ws sid session e H)
      as (-> & -> & -> & -> & -> & -> & -> & ->).
    repeat split.
  - intros T self r user ws sid e x r' e' H.
    exact (sessions_backend_error T self r user ws sid e x r' e' H).
  - intros self r session e x H Hh.
    exact (update_session_propagates self r session e x H Hh).
Qed.

End AnyClient.

(** A [connect] whose ping fails raises, and leaves the client assigned:
    the next [get] of the cache service goes to the client and answers
    [None] instead of raising [RuntimeError]. *)
Lemma connect_failed_keeps_client :
  let out :=
    RedisCache.connect down_client tt RedisCache.RedisCacheService_init
      (Cache.frozen_env 0) in
  fst (fst out) = Raise unreachable
  /\ RedisCache.redis_client (snd (fst out)) = Some tt
  /\ fst (fst (RedisCache.get lib_stub down_client "k" "default"
                 (snd (fst out)) (snd out))) = Ok VNone.
Proof. repeat split. Qed.

(** C7: the claim as stated fails.  A connected Redis session manager
    whose server cannot be reached: [get_session] does not return
    [None], the error of the client reaches the caller. *)
Lemma C7_counterexample_get_session_propagates :
  fst (fst (RedisSessions.get_session types_py lib_stub down_client "s1"
              (RedisSessions.mkManager (Some tt) (24 * 60 * 60) (60 * 60))
              (Cache.frozen_env 0)))
  = Raise (BackendError "Connection refused").
Proof. reflexivity. Qed.

(** C7 with the server down: the cache service answers with its benign
    values, and raises [RuntimeError] when it has no client. *)
Lemma C7_backend_errors_witness :
  fst (fst (RedisCache.get lib_stub down_client "k" "default"
              (RedisCache.mkService (Some tt) 3600 "mcp_cache:")
              (Cache.frozen_env 0))) = Ok VNone
  /\ fst (fst (RedisCache.clear_namespace down_client "default"
                 (RedisCache.mkService (Some tt) 3600 "mcp_cache:")
                 (Cache.frozen_env 0))) = Ok 0
  /\ fst (fst (RedisCache.get lib_stub down_client "k" "default"
                 RedisCache.RedisCacheService_init (Cache.frozen_env 0)))
     = Raise (RuntimeError "Redis client not connected")
  /\ fst (fst (RedisSessions.get_active_session_count down_client
                 (RedisSessions.mkManager (Some tt) (24 * 60 * 60) (60 * 60))
                 (Cache.frozen_env 0)))
     = Raise (BackendError "Connection refused").
Proof.
  destruct (C7_backend_errors lib_stub down_client)
    as (Hnc & _ & Herr & _ & Hs & _).
  split; [|split; [|split]].
  - destruct (Herr (RedisCache.mkService (Some tt) 3600 "mcp_cache:") tt
                "k" "default" VNone None (Cache.frozen_env 0)
                unreachable tt (Cache.frozen_env 0) eq_refl)
      as (Hg & _).
    rewrite Hg; reflexivity.
  - destruct (Herr (RedisCache.mkService (Some tt) 3600 "mcp_cache:") tt
                "k" "default" VNone None (Cache.frozen_env 0)
                unreachable tt (Cache.frozen_env 0) eq_refl)
      as (_ & _ & _ & _ & _ & _ & Hc & _).
    rewrite Hc; reflexivity.
  - destruct (Hnc RedisCache.RedisCacheService_init "k" "default" VNone None
                (Cache.frozen_env 0) eq_refl) as (-> & _).
    reflexivity.
  - destruct (Hs types_py
                (RedisSessions.mkManager (Some tt) (24 * 60 * 60) (60 * 60)) tt
                "u" None "s" (Cache.frozen_env 0)
                unreachable tt (Cache.frozen_env 0) eq_refl)
      as (_ & _ & _ & Hcount & _).
    rewrite Hcount; reflexivity.
Defined.

End BackendFacts.

(* --------------------------------------------------------------------- *)
(** ** What the in-memory manager does against the types it expects

    The lemmas of this module are about session_manager.py run against a
    module of types that declares what it uses ([matches_manager]); types.py
    of the repository is not such a module ([types_py_does_not_match]). *)
(* --------------------------------------------------------------------- *)

Module ExpectedTypesFacts.
Import Types InMemory DictFacts.

Lemma types_py_does_not_match : ~ matches_manager types_py.
Proof. intros [Hf _]. discriminate Hf. Qed.

Lemma types_expected_matches : matches_manager types_expected.
Proof.
  split; [reflexivity|]. exists "active", "ended".
  repeat split; try reflexivity. discriminate.
Qed.

Section Expected.
Variable T : module_types.
Hypothesis HT : matches_manager T.

Lemma construct_expected v1 v2 v3 v4 v5 v6 v7 v8 :
  let kwargs :=
    [("session_id", v1); ("whatsapp_user", v2); ("workspace", v3);
     ("status", v4); ("created_at", v5); ("last_activity", v6);
     ("suggestions_count", v7); ("commands_executed", v8)] in
  construct (Session T) kwargs = Ok kwargs.
Proof.
  destruct HT as [Hf _]. intros kwargs. unfold construct. rewrite Hf.
  reflexivity.
Qed.

(** Without index entry for the user a session is created: Active, zero
    suggestions, no commands, the two timestamps being the two clock
    readings taken; it is stored under its identifier and indexed for the
    user. *)
Lemma create_session_new user ws self e :
  user_sessions self !! user = None ->
  exists a,
    dict_get "ACTIVE" (members (SessionStatus T)) = Some a
    /\ let sid := uuids e (draws e) in
       let session :=
         new_session sid user ws a (clock e (reads e)) (clock e (S (reads e))) in
       create_session T user ws self e
       = (Ok session,
          mkManager (<[sid := session]> (sessions self))
                    (<[user := sid]> (user_sessions self))
                    (session_ttl self),
          mkEnv (clock e) (S (S (reads e))) (uuids e) (S (draws e))
                (log e ++ [("INFO",
                            "Created new in-memory session " +:+ sid
                            +:+ " for user " +:+ user)])).
Proof.
  intros Hu. destruct HT as (Hf & a & n & Ha & Hn & Hne).
  exists a. split; [exact Ha|]. intros sid session.
  unfold create_session. rewrite SysFacts.bind_run.
  unfold existing_active at 1, bind at 1, get_self. rewrite Hu.
  cbn [ret]. rewrite SysFacts.bind_run. cbn [uuid4].
  rewrite SysFacts.bind_run. unfold enum_attr at 1. rewrite Ha. cbn [eval ret].
  rewrite SysFacts.bind_run. cbn [utcnow].
  rewrite SysFacts.bind_run. cbn [utcnow clock reads uuids draws log].
  rewrite SysFacts.bind_run. rewrite construct_expected. cbn [eval ret].
  reflexivity.
Qed.

(** With an Active session indexed for the user, that session is
    returned and nothing changes. *)
Lemma create_session_existing user ws sid o st a self e :
  user_sessions self !! user = Some sid ->
  sessions self !! sid = Some o ->
  getattr o "status" = Ok st ->
  dict_get "ACTIVE" (members (SessionStatus T)) = Some a ->
  eq_member st (VEnum "ACTIVE" a) = true ->
  create_session T user ws self e = (Ok o, self, e).
Proof.
  intros Hu Hs Hst Ha Heq.
  unfold create_session. rewrite SysFacts.bind_run.
  unfold existing_active at 1, bind at 1, get_self. rewrite Hu, Hs.
  rewrite SysFacts.bind_run, Hst. cbn [eval ret].
  rewrite SysFacts.bind_run. unfold enum_attr. rewrite Ha. cbn [eval ret].
  rewrite Heq. reflexivity.
Qed.

(** Two calls in a row: the second returns the session the first
    created and leaves the store as the first left it. *)
Lemma create_session_twice user ws ws' self e :
  user_sessions self !! user = None ->
  let first := create_session T user ws self e in
  let second := create_session T user ws' (snd (fst first)) (snd first) in
  is_ok (fst (fst first)) = true
  /\ fst (fst second) = fst (fst first)
  /\ snd (fst second) = snd (fst first).
Proof.
  intros Hu first second.
  destruct (create_session_new user ws self e Hu) as (a & Ha & E).
  cbv zeta in E. subst second first. rewrite E. cbn [fst snd is_ok].
  split; [reflexivity|].
  erewrite create_session_existing; [split; reflexivity | | | | exact Ha | ].
  - cbn. apply lookup_insert_eq.
  - cbn. apply lookup_insert_eq.
  - reflexivity.
  - cbn. apply String.eqb_refl.
Qed.

Lemma alter_present {A} (f : A -> A) (k : string) (m : gmap string A) x :
  m !! k = Some x -> alter f k m = <[k := f x]> m.
Proof.
  intros H. apply map_eq. intros i.
  destruct (decide (k = i)) as [->|Hne].
  - now rewrite lookup_alter_eq, H, lookup_insert_eq.
  - now rewrite lookup_alter_ne, lookup_insert_ne.
Qed.

(** [end_session] on a session that is present: the status becomes ENDED,
    [last_activity] the clock reading, and the index entry of the session's
    user is removed. *)
Lemma end_session_present sid o u self e :
  sessions self !! sid = Some o ->
  getattr o "whatsapp_user" = Ok (VStr u) ->
  exists n,
    dict_get "ENDED" (members (SessionStatus T)) = Some n
    /\ end_session T sid self e
       = (Ok tt,
          mkManager (<[sid := ended_session o n (now e)]> (sessions self))
                    (delete u (user_sessions self))
                    (session_ttl self),
          mkEnv (clock e) (S (reads e)) (uuids e) (draws e)
                (log e ++ [("INFO", "Ended in-memory session " +:+ sid)])).
Proof.
  intros Hs Hu. destruct HT as (Hf & a & n & Ha & Hn & Hne).
  exists n. split; [exact Hn|].
  destruct self as [ss us ttl]. cbn [sessions user_sessions session_ttl] in *.
  unfold end_session. rewrite SysFacts.bind_run. cbn [get_self sessions].
  rewrite Hs.
  rewrite SysFacts.bind_run. unfold enum_attr. rewrite Hn. cbn [eval ret].
  rewrite SysFacts.bind_run.
  unfold set_session_attr at 1, modify_self at 1, set_sessions.
  cbn [sessions user_sessions session_ttl].
  rewrite (alter_present _ sid ss o Hs).
  rewrite SysFacts.bind_run. cbn [utcnow].
  rewrite SysFacts.bind_run.
  unfold set_session_attr at 1, modify_self at 1, set_sessions.
  cbn [sessions user_sessions session_ttl].
  rewrite (alter_present _ sid _ (setattr o "status" (VEnum "ENDED" n)))
    by apply lookup_insert_eq.
  rewrite insert_insert_eq.
  rewrite SysFacts.bind_run. cbn [get_self sessions].
  rewrite lookup_insert_eq. cbn [default from_option id].
  assert (Hu' : getattr (setattr (setattr o "status" (VEnum "ENDED" n))
                                 "last_activity" (VTime (clock e (reads e))))
                        "whatsapp_user" = Ok (VStr u)).
  { unfold getattr, setattr in *.
    rewrite !dict_get_set_ne by discriminate. exact Hu. }
  rewrite SysFacts.bind_run, Hu'. cbn [eval ret as_key].
  rewrite SysFacts.bind_run. cbn [eval ret as_key].
  rewrite SysFacts.bind_run. cbn [user_sessions].
  unfold ended_session, now.
  destruct (us !! u) eqn:Eu.
  - reflexivity.
  - cbn [ret logger]. rewrite (delete_id us u Eu). reflexivity.
Qed.

(** After [end_session] the user has no session. *)
Lemma end_session_then_get_user_session sid o u self e e' :
  sessions self !! sid = Some o ->
  getattr o "whatsapp_user" = Ok (VStr u) ->
  fst (fst (get_user_session u (snd (fst (end_session T sid self e))) e'))
  = Ok None.
Proof.
  intros Hs Hu.
  destruct (end_session_present sid o u self e Hs Hu) as (n & _ & ->).
  cbn [fst snd]. unfold get_user_session, bind, get_self.
  cbn [user_sessions]. now rewrite lookup_delete_eq.
Qed.

End Expected.

(** On Redis, without index entry for the user, a session is created
    and one pipeline is run: the record is written under
    [session:<id>], the identifier under [user_session:<user>], both with
    the session TTL, and the identifier is added to [active_sessions]. *)
Lemma redis_create_session_new T L user ws r ttl ci e js :
  matches_manager T ->
  Redis.strings r !! ("user_session:" +:+ user) = None ->
  Redis.json_dumps L (VList []) = Ok js ->
  exists a,
    dict_get "ACTIVE" (members (SessionStatus T)) = Some a
    /\ let sid := uuids e (draws e) in
       let session :=
         new_session sid user ws a (clock e (reads e)) (clock e (S (reads e))) in
       let record :=
         [("session_id", VStr sid); ("whatsapp_user", VStr user);
          ("workspace", RedisSessions.or_empty (opt_str ws));
          ("status", VStr a);
          ("created_at", VStr (Redis.isoformat L (clock e (reads e))));
          ("last_activity", VStr (Redis.isoformat L (clock e (S (reads e)))));
          ("suggestions_count", VInt 0);
          ("commands_executed", VStr js)] in
       let out :=
         RedisSessions.create_session T L Redis.server_client user ws
           (RedisSessions.mkManager (Some r) ttl ci) e in
       fst (fst out) = Ok session
       /\ RedisSessions.redis_client (snd (fst out))
          = Some (fold_left (fun r c => Redis.run_command c r)
                    [Redis.HSET ("session:" +:+ sid) record;
                     Redis.EXPIRE ("session:" +:+ sid) ttl;
                     Redis.SET ("user_session:" +:+ user) sid ttl;
                     Redis.SADD "active_sessions" sid] r).
Proof.
  intros HT Hu Hj. pose proof HT as (Hf & a & n & Ha & Hn & Hne).
  exists a. split; [exact Ha|]. intros sid session record out. subst out.
  unfold RedisSessions.create_session.
  rewrite SysFacts.bind_run, RedisSessionFacts.require_connected.
  rewrite SysFacts.bind_run.
  assert (Eu : RedisSessions.get_user_session T L Redis.server_client user
                 (RedisSessions.mkManager (Some r) ttl ci) e
               = (Ok None, RedisSessions.mkManager (Some r) ttl ci, e)).
  { unfold RedisSessions.get_user_session.
    rewrite SysFacts.bind_run, RedisSessionFacts.require_connected.
    rewrite SysFacts.bind_run. unfold RedisSessions.on_client; simpl.
    unfold bind, get_self, ret; simpl. now rewrite Hu. }
  rewrite Eu.
  assert (Hact : enum_attr (SessionStatus T) "ACTIVE" = Ok (VEnum "ACTIVE" a)).
  { unfold enum_attr. now rewrite Ha. }
  unfold bind, eval, ret, raise, get_self, uuid4, utcnow.
  rewrite Hact. cbn [clock reads uuids draws log].
  rewrite (construct_expected T HT).
  unfold getattr, enum_value, RedisSessions.isoformat_of,
    RedisSessions.on_client, logger.
  cbn [dict_get String.eqb Ascii.eqb Bool.eqb].
  rewrite Hj.
  cbn [RedisSessions.redis_client RedisSessions.session_ttl
       RedisSessions.cleanup_interval Redis.execute Redis.server_client
       modify_self Redis.fstr fst snd].
  split; reflexivity.
Qed.

Lemma run_SADD k m r :
  let r' := Redis.run_command (Redis.SADD k m) r in
  Redis.strings r' = Redis.strings r
  /\ Redis.hashes r' = Redis.hashes r
  /\ Redis.ttls r' = Redis.ttls r
  /\ In m (default [] (Redis.sets r' !! k)).
Proof.
  cbn [Redis.run_command].
  destruct (existsb (String.eqb m) (default [] (Redis.sets r !! k))) eqn:Ex.
  - repeat split. apply existsb_exists in Ex as (x & Hin & Hx).
    apply String.eqb_eq in Hx. now subst x.
  - cbn [Redis.strings Redis.hashes Redis.ttls Redis.sets].
    repeat split. rewrite lookup_insert_eq. cbn [default from_option id].
    apply in_or_app. right. now left.
Qed.

Lemma run_EXPIRE_present k t r :
  is_Some (Redis.hashes r !! k) ->
  Redis.run_command (Redis.EXPIRE k t) r
  = Redis.mkServer (Redis.strings r) (Redis.hashes r) (Redis.sets r)
                   (<[k := t]> (Redis.ttls r)).
Proof.
  intros H. cbn [Redis.run_command]. unfold Redis.has_key.
  rewrite (bool_decide_eq_true_2 _ H), orb_true_r. reflexivity.
Qed.

(** What that pipeline leaves on the server. *)
Lemma redis_create_session_persists sid record user ttl r :
  let r' :=
    fold_left (fun r c => Redis.run_command c r)
      [Redis.HSET ("session:" +:+ sid) record;
       Redis.EXPIRE ("session:" +:+ sid) ttl;
       Redis.SET ("user_session:" +:+ user) sid ttl;
       Redis.SADD "active_sessions" sid] r in
  Redis.strings r' !! ("user_session:" +:+ user) = Some sid
  /\ is_Some (Redis.hashes r' !! ("session:" +:+ sid))
  /\ Redis.ttls r' !! ("user_session:" +:+ user) = Some ttl
  /\ Redis.ttls r' !! ("session:" +:+ sid) = Some ttl
  /\ In sid (default [] (Redis.sets r' !! "active_sessions")).
Proof.
  intros r'. subst r'. cbn [fold_left].
  set (r1 := Redis.run_command (Redis.HSET _ _) r).
  assert (H1 : is_Some (Redis.hashes r1 !! ("session:" +:+ sid))).
  { subst r1. cbn [Redis.run_command Redis.hashes].
    rewrite lookup_insert_eq. eauto. }
  rewrite (run_EXPIRE_present _ ttl r1 H1).
  set (r3 := Redis.run_command (Redis.SET _ _ _) _).
  destruct (run_SADD "active_sessions" sid r3) as (Hs & Hh & Ht & Hin).
  cbv zeta in *. rewrite Hs, Hh, Ht.
  assert (Hne : "user_session:" +:+ user <> "session:" +:+ sid).
  { intros E. inversion E. }
  subst r3. cbn [Redis.run_command Redis.strings Redis.hashes Redis.ttls].
  rewrite !lookup_insert_eq.
  rewrite lookup_insert_ne by exact Hne. rewrite lookup_insert_eq.
  repeat split; auto.
Qed.

(** The scenario of the specification, against the expected types:
    create for ["u1"] with workspace ["/ws"], create again, end, look the
    user up. *)
Example scenario_expected_types :
  let T := types_expected in
  let e0 := Fixtures.env_at 5 in
  let '(r1, m1, e1) :=
    create_session T "u1" (Some "/ws") InMemorySessionManager_init e0 in
  let '(r2, m2, e2) := create_session T "u1" None m1 e1 in
  let '(r3, m3, e3) := end_session T "s1" m2 e2 in
  let '(r4, m4, e4) := get_user_session "u1" m3 e3 in
  r1 = Ok (new_session "s1" "u1" (Some "/ws") "active" 5 5)
  /\ r2 = r1
  /\ r3 = Ok tt
  /\ r4 = Ok None
  /\ attr_of m3 "s1" "status"
     = Some (Ok (VEnum "ENDED" "ended")).
Proof. vm_compute. repeat split; reflexivity. Qed.

(** The two timestamps of a new session are two readings of the clock:
    they differ as soon as it ticks in between. *)
Example created_at_before_last_activity :
  let e0 := mkEnv (fun n => Z.of_nat n) 0 (fun _ => "s1") 0 [] in
  let '(_, m1, _) :=
    create_session types_expected "u1" None InMemorySessionManager_init e0 in
  attr_of m1 "s1" "created_at" = Some (Ok (VTime 0))
  /\ attr_of m1 "s1" "last_activity" = Some (Ok (VTime 1)).
Proof. vm_compute. split; reflexivity. Qed.

(** Even against the expected types one user can come to hold two Active
    sessions: ending a session a second time removes the index entry of
    the user although it points to a newer session, and the next
    [create_session] makes another one. *)
Example two_active_sessions_expected_types :
  let T := types_expected in
  let e0 := mkEnv (fun _ => 0) 0
              (fun n => match n with O => "s1" | 1%nat => "s2" | _ => "s3" end)
              0 [] in
  let '(_, m1, e1) := create_session T "u1" None InMemorySessionManager_init e0 in
  let '(_, m2, e2) := end_session T "s1" m1 e1 in
  let '(_, m3, e3) := create_session T "u1" None m2 e2 in
  let '(_, m4, e4) := end_session T "s1" m3 e3 in
  let '(_, m5, e5) := create_session T "u1" None m4 e4 in
  attr_of m5 "s2" "status"
  = Some (Ok (VEnum "ACTIVE" "active"))
  /\ attr_of m5 "s3" "status"
     = Some (Ok (VEnum "ACTIVE" "active"))
  /\ attr_of m5 "s2" "whatsapp_user"
     = Some (Ok (VStr "u1"))
  /\ attr_of m5 "s3" "whatsapp_user"
     = Some (Ok (VStr "u1")).
Proof. vm_compute. repeat split; reflexivity. Qed.

(** The sweep of [test_cleanup_expired_sessions] against the expected
    types: one session reaped and ended.  A sweep two seconds later
    counts the ended session again: the in-memory sweep goes over every
    stored session, not over the active ones. *)
Example cleanup_expected_types :
  let T := types_expected in
  let m0 :=
    mkManager {["s1" := new_session "s1" "u1" None "active" 0 0]}
              {["u1" := "s1"]} 1 in
  let e0 := mkEnv (fun n => if (n <? 2)%nat then seconds 2 else seconds 4)
              0 (fun _ => "") 0 [] in
  let '(r1, m1, e1) := cleanup_expired_sessions T m0 e0 in
  let '(r2, m2, e2) := cleanup_expired_sessions T m1 e1 in
  r1 = Ok 1
  /\ attr_of m1 "s1" "status"
     = Some (Ok (VEnum "ENDED" "ended"))
  /\ user_sessions m1 !! "u1" = None
  /\ r2 = Ok 1.
Proof. vm_compute. repeat split; reflexivity. Qed.

End ExpectedTypesFacts.


(* --------------------------------------------------------------------- *)
(** ** The in-memory cache: [delete], [exists] and [get] *)
(* --------------------------------------------------------------------- *)

Module InMemoryCacheFacts.
Import Cache CacheFacts KeyFacts ManagerFacts.

Lemma delete_eq key ns self e :
  delete_ key ns self e =
    (Ok (bool_decide (is_Some (cache self !! _make_key key ns))),
     set_cache (delete (_make_key key ns) (cache self)) self, e).
Proof.
  unfold delete_, bind, get_self, modify_self, ret.
  destruct (cache self !! _make_key key ns) as [en|] eqn:El.
  - reflexivity.
  - rewrite delete_id by exact El. destruct self; reflexivity.
Qed.

(** [delete] says whether the key was stored, with no look at its expiry
    and no reading of the clock; after it the key is absent: [get] gives
    [None], [exists] gives [False] and a second [delete] gives [False]. *)
Theorem delete_then_absent key ns self e :
  let out := delete_ key ns self e in
  let self' := snd (fst out) in
  fst (fst out) = Ok (bool_decide (is_Some (cache self !! _make_key key ns)))
  /\ snd out = e
  /\ cache self' = delete (_make_key key ns) (cache self)
  /\ default_ttl self' = default_ttl self
  /\ (forall e', get key ns self' e' = (Ok VNone, self', e'))
  /\ (forall e', exists_ key ns self' e' = (Ok false, self', e'))
  /\ (forall e', delete_ key ns self' e' = (Ok false, self', e')).
Proof.
  intros out self'. subst self' out. rewrite delete_eq. cbn [fst snd].
  repeat split.
  - intros e'. apply get_absent. simpl. apply lookup_delete_eq.
  - intros e'. apply exists_absent. simpl. apply lookup_delete_eq.
  - intros e'. rewrite delete_eq. cbn [cache set_cache].
    rewrite lookup_delete_eq.
    rewrite delete_id by apply lookup_delete_eq. reflexivity.
Qed.

(** What [get] and [exists] do, in one equation each: the entry looked at
    is dropped when the clock reads past its expiry. *)
Lemma get_eq key ns self e :
  get key ns self e =
    match cache self !! _make_key key ns with
    | None => (Ok VNone, self, e)
    | Some en =>
        match expires_at en with
        | None => (Ok (entry_value en), self, e)
        | Some _ =>
            if expired_at (now e) en
            then (Ok VNone,
                  set_cache (delete (_make_key key ns) (cache self)) self,
                  after_reads 1 e)
            else (Ok (entry_value en), self, after_reads 1 e)
        end
    end.
Proof.
  unfold get, bind, get_self, _is_expired, expired_at; simpl.
  destruct (cache self !! _make_key key ns) as [en|]; [|reflexivity]. simpl.
  destruct (expires_at en) as [t|]; [|reflexivity].
  unfold bind, utcnow, ret, modify_self, now, after_reads; simpl.
  destruct (t <? clock e (reads e)); repeat f_equal; lia.
Qed.

Lemma exists_eq key ns self e :
  exists_ key ns self e =
    match cache self !! _make_key key ns with
    | None => (Ok false, self, e)
    | Some en =>
        match expires_at en with
        | None => (Ok true, self, e)
        | Some _ =>
            if expired_at (now e) en
            then (Ok false,
                  set_cache (delete (_make_key key ns) (cache self)) self,
                  after_reads 1 e)
            else (Ok true, self, after_reads 1 e)
        end
    end.
Proof.
  unfold exists_, bind, get_self, _is_expired, expired_at; simpl.
  destruct (cache self !! _make_key key ns) as [en|]; [|reflexivity]. simpl.
  destruct (expires_at en) as [t|]; [|reflexivity].
  unfold bind, utcnow, ret, modify_self, now, after_reads; simpl.
  destruct (t <? clock e (reads e)); repeat f_equal; lia.
Qed.

(** [exists] and [get] agree: on the same cache at the same time they
    leave the same cache and the same clock, [exists] is [False] only
    where [get] gives [None], and where it is [True] the entry is stored
    and live, [get] gives its value, and nothing is changed. *)
Theorem exists_agrees_with_get key ns self e :
  let g := get key ns self e in
  let x := exists_ key ns self e in
  snd (fst x) = snd (fst g)
  /\ snd x = snd g
  /\ exists b,
       fst (fst x) = Ok b
       /\ (b = false -> fst (fst g) = Ok VNone)
       /\ (b = true ->
           exists en,
             cache self !! _make_key key ns = Some en
             /\ expired_at (now e) en = false
             /\ fst (fst g) = Ok (entry_value en)
             /\ snd (fst x) = self).
Proof.
  intros g x. subst g x. rewrite get_eq, exists_eq.
  destruct (cache self !! _make_key key ns) as [en|] eqn:El.
  - destruct (expires_at en) as [t|] eqn:Et.
    + destruct (expired_at (now e) en) eqn:Ex; cbn [fst snd].
      * repeat split. exists false. repeat split; congruence.
      * repeat split. exists true. repeat split; [congruence|].
        intros _. exists en. repeat split; auto.
    + cbn [fst snd]. repeat split. exists true. repeat split; [congruence|].
      intros _. exists en. repeat split. unfold expired_at. now rewrite Et.
  - cbn [fst snd]. repeat split. exists false. repeat split; congruence.
Qed.

End InMemoryCacheFacts.


(* --------------------------------------------------------------------- *)
(** ** The in-memory cache: [clear_namespace] *)
(* --------------------------------------------------------------------- *)

Module ClearNamespaceFacts.
Import Cache CacheFacts KeyFacts ManagerFacts.

Lemma append_assoc a b c : (a +:+ b) +:+ c = a +:+ (b +:+ c).
Proof.
  induction a as [|x a IH]; [reflexivity|].
  rewrite !append_cons. now rewrite IH.
Qed.

Lemma prefix_append a b : String.prefix a (a +:+ b) = true.
Proof.
  induction a as [|x a IH]; [now destruct b|].
  rewrite append_cons. simpl. destruct (ascii_dec x x); [exact IH|congruence].
Qed.

Lemma prefix_make_key key ns : String.prefix (ns +:+ ":") (_make_key key ns) = true.
Proof. unfold _make_key. rewrite <- append_assoc. apply prefix_append. Qed.

Lemma keys_In {A} (m : gmap string A) k :
  In k (map fst (map_to_list m)) <-> is_Some (m !! k).
Proof.
  rewrite in_map_iff. split.
  - intros [[k' v] [E Hin]]. simpl in E. subst k'.
    apply list_elem_of_In, elem_of_map_to_list in Hin. eauto.
  - intros [v Hv]. exists (k, v). split; [reflexivity|].
    apply list_elem_of_In, elem_of_map_to_list. exact Hv.
Qed.

Lemma keys_NoDup {A} (m : gmap string A) :
  List.NoDup (map fst (map_to_list m)).
Proof. apply NoDup_ListNoDup. exact (NoDup_fst_map_to_list m). Qed.

Lemma lookup_fold_delete_In {A} (ks : list string) (m : gmap string A) k :
  In k ks -> fold_right (fun k c => delete k c) m ks !! k = None.
Proof.
  induction ks as [|k0 ks IH]; simpl; [tauto|]. intros Hin.
  destruct (decide (k0 = k)) as [->|Hne].
  - apply lookup_delete_eq.
  - rewrite lookup_delete_ne by exact Hne. apply IH. tauto.
Qed.

Lemma lookup_fold_delete_notin {A} (ks : list string) (m : gmap string A) k :
  ~ In k ks -> fold_right (fun k c => delete k c) m ks !! k = m !! k.
Proof.
  induction ks as [|k0 ks IH]; simpl; [reflexivity|]. intros Hni.
  rewrite lookup_delete_ne by tauto. apply IH. tauto.
Qed.

Lemma size_fold_delete {A} (ks : list string) (m : gmap string A) :
  List.NoDup ks -> (forall k, In k ks -> is_Some (m !! k)) ->
  (size (fold_right (fun k c => delete k c) m ks) + length ks = size m)%nat.
Proof.
  induction ks as [|k0 ks IH]; intros Hnd Hin; simpl.
  - lia.
  - apply List.NoDup_cons_iff in Hnd as [Hni Hnd].
    specialize (IH Hnd (fun k H => Hin k (or_intror H))).
    destruct (Hin k0 (or_introl eq_refl)) as [v Hv].
    assert (Hl : fold_right (fun k c => delete k c) m ks !! k0 = Some v).
    { rewrite lookup_fold_delete_notin by exact Hni. exact Hv. }
    rewrite map_size_delete_Some by eauto.
    assert (0 < size (fold_right (fun k c => delete k c) m ks))%nat; [|lia].
    destruct (size _) eqn:Es; [|lia].
    apply map_size_empty_inv in Es. rewrite Es in Hl.
    rewrite lookup_empty in Hl. discriminate.
Qed.

Lemma filter_nil_iff {A} (f : A -> bool) l :
  (forall x, In x l -> f x = false) -> List.filter f l = [].
Proof.
  induction l as [|a l IH]; intros H; simpl; [reflexivity|].
  rewrite (H a (or_introl eq_refl)). apply IH. intros x Hx. apply H. now right.
Qed.

(** What is stored after [clear_namespace]. *)
Lemma clear_namespace_lookup ns self e k :
  cache (snd (fst (clear_namespace ns self e))) !! k
  = if String.prefix (ns +:+ ":") k then None else cache self !! k.
Proof.
  unfold clear_namespace, bind, get_self, modify_self, ret.
  cbn [fst snd cache set_cache].
  set (ks := List.filter (fun k => String.prefix (ns +:+ ":") k)
                         (map fst (map_to_list (cache self)))).
  destruct (String.prefix (ns +:+ ":") k) eqn:Ep.
  - destruct (cache self !! k) eqn:Ek.
    + apply lookup_fold_delete_In. subst ks. apply filter_In.
      split; [|exact Ep]. apply keys_In. eauto.
    + destruct (in_dec string_dec k ks) as [Hin|Hni].
      * now apply lookup_fold_delete_In.
      * now rewrite lookup_fold_delete_notin.
  - rewrite lookup_fold_delete_notin; [reflexivity|].
    subst ks. rewrite filter_In. intros [_ H]. congruence.
Qed.

(** [clear_namespace] takes no clock reading and removes every stored key
    that begins with [namespace:], expired or not; the number returned is the
    number of entries removed. *)
Theorem clear_namespace_removes ns self e :
  let out := clear_namespace ns self e in
  let self' := snd (fst out) in
  exists n,
    fst (fst out) = Ok n
    /\ snd out = e
    /\ default_ttl self' = default_ttl self
    /\ (forall k, cache self' !! k
                  = if String.prefix (ns +:+ ":") k then None else cache self !! k)
    /\ Z.of_nat (size (cache self')) + n = Z.of_nat (size (cache self))
    /\ (forall key e', get key ns self' e' = (Ok VNone, self', e'))
    /\ (forall e', clear_namespace ns self' e' = (Ok 0, self', e')).
Proof.
  intros out self'. subst self' out.
  unfold clear_namespace at 1 2 3 4 5 6 7, bind, get_self, modify_self, ret. cbn [fst snd].
  set (ks := List.filter (fun k => String.prefix (ns +:+ ":") k)
                         (map fst (map_to_list (cache self)))).
  set (c' := fold_right (fun k c => delete k c) (cache self) ks).
  assert (Hl : forall k, c' !! k
             = if String.prefix (ns +:+ ":") k then None else cache self !! k).
  { intros k. exact (clear_namespace_lookup ns self e k). }
  exists (Z.of_nat (length ks)).
  split; [reflexivity|]. split; [reflexivity|]. split; [reflexivity|].
  split; [exact Hl|]. cbn [cache set_cache].
  split.
  { assert (size c' + length ks = size (cache self))%nat; [|lia].
    subst c'. apply size_fold_delete.
    - subst ks. apply List.NoDup_filter, keys_NoDup.
    - intros k Hk. subst ks. apply filter_In in Hk as [Hk _]. now apply keys_In. }
  split.
  - intros key e'. apply get_absent. cbn [cache set_cache].
    rewrite Hl, prefix_make_key. reflexivity.
  - intros e'. unfold clear_namespace, bind, get_self, modify_self, ret.
    cbn [cache set_cache default_ttl].
    rewrite filter_nil_iff.
    + reflexivity.
    + intros k Hk. apply keys_In in Hk. rewrite Hl in Hk.
      destruct (String.prefix (ns +:+ ":") k); [|reflexivity].
      destruct Hk; discriminate.
Qed.

End ClearNamespaceFacts.


(* --------------------------------------------------------------------- *)
(** ** The in-memory cache: [get_stats] *)
(* --------------------------------------------------------------------- *)

Module CacheStatsFacts.
Import Cache CacheFacts KeyFacts ManagerFacts InMemoryCacheFacts ClearNamespaceFacts.

(** *** Statistics *)

Lemma count_expired_frozen t entries :
  forall self e,
    (forall n, (reads e <= n)%nat -> clock e n = t) ->
    exists e',
      count_expired entries self e
      = (Ok (Z.of_nat (length (List.filter (expired_at t) entries))), self, e')
      /\ clock e' = clock e /\ (reads e <= reads e')%nat.
Proof.
  induction entries as [|en entries IH]; intros self e Hc.
  - exists e. simpl. unfold ret. auto.
  - cbn [count_expired List.filter]. rewrite SysFacts.bind_run.
    unfold _is_expired.
    destruct (expires_at en) as [x|] eqn:Ex.
    + assert (Hx : expired_at t en = (x <? t)).
      { unfold expired_at. now rewrite Ex. }
      rewrite Hx, SysFacts.bind_run. cbn [utcnow ret].
      rewrite (Hc (reads e)) by lia.
      set (e1 := mkEnv (clock e) (S (reads e)) (uuids e) (draws e) (log e)).
      destruct (IH self e1) as (e' & E & Hcl & Hr).
      { intros n Hn. apply Hc. simpl in Hn. lia. }
      rewrite SysFacts.bind_run, E. exists e'.
      split; [|split; [exact Hcl | simpl in Hr; lia]].
      unfold ret. destruct (x <? t); cbn [length]; do 3 f_equal; lia.
    + assert (Hx : expired_at t en = false).
      { unfold expired_at. now rewrite Ex. }
      rewrite Hx. cbn [ret]. destruct (IH self e Hc) as (e' & E & Hcl & Hr).
      rewrite SysFacts.bind_run, E. exists e'. auto.
Qed.

(** With the clock standing at [t], [get_stats] counts as expired the
    entries whose expiry lies before [t], reports the rest as active, and
    removes nothing: the expired entries stay stored. *)
Theorem get_stats_counts self e t :
  (forall n, (reads e <= n)%nat -> clock e n = t) ->
  let entries := map snd (map_to_list (cache self)) in
  let total := Z.of_nat (size (cache self)) in
  let expired := Z.of_nat (length (List.filter (expired_at t) entries)) in
  0 <= expired <= total
  /\ exists e',
       get_stats self e
       = (Ok [("total_keys", VInt total);
              ("expired_keys", VInt expired);
              ("active_keys", VInt (total - expired));
              ("memory_usage", VStr "N/A (in-memory)");
              ("cache_type", VStr "in_memory")], self, e').
Proof.
  intros Hc entries total expired. split.
  - subst expired total entries. split; [lia|].
    apply inj_le. etransitivity; [apply List.filter_length_le|].
    rewrite length_map, length_map_to_list. reflexivity.
  - unfold get_stats. rewrite SysFacts.bind_run. cbn [get_self].
    destruct (count_expired_frozen t entries self e Hc) as (e' & E & _ & _).
    rewrite SysFacts.bind_run. fold entries. rewrite E. exists e'. reflexivity.
Qed.

Lemma get_stats_counts_witness :
  let self :=
    mkInMemoryCache {["default:old" := mkEntry (VInt 1) (Some 5) 0;
                      "default:new" := mkEntry (VInt 2) (Some 50) 0]} 3600 in
  exists e',
    get_stats self (frozen_env 10)
    = (Ok [("total_keys", VInt 2);
           ("expired_keys", VInt 1);
           ("active_keys", VInt 1);
           ("memory_usage", VStr "N/A (in-memory)");
           ("cache_type", VStr "in_memory")], self, e').
Proof.
  intros self.
  destruct (get_stats_counts self (frozen_env 10) 10 (fun _ _ => eq_refl))
    as [_ H].
  exact H.
Defined.

End CacheStatsFacts.


(* --------------------------------------------------------------------- *)
(** ** The in-memory cache: namespaces *)
(* --------------------------------------------------------------------- *)

Module NamespaceFacts.
Import Cache CacheFacts KeyFacts ManagerFacts InMemoryCacheFacts ClearNamespaceFacts.

(** *** Namespaces *)

Lemma make_key_inj_ns k k' ns :
  forall ns',
    has_colon ns = false -> has_colon ns' = false ->
    _make_key k ns = _make_key k' ns' -> ns = ns' /\ k = k'.
Proof.
  unfold _make_key.
  induction ns as [|c ns IH]; intros [|c' ns'] H H' E;
    rewrite ?append_nil, ?append_cons in E; simpl in H, H'.
  - inversion E. auto.
  - inversion E; subst c'. simpl in H'. discriminate.
  - inversion E; subst c. simpl in H. discriminate.
  - inversion E; subst c'. apply orb_false_iff in H as [_ H].
    apply orb_false_iff in H' as [_ H'].
    destruct (IH ns' H H') as [-> ->]; auto.
Qed.

Lemma prefix_cons c a c' b :
  String.prefix (String c a) (String c' b)
  = if ascii_dec c c' then String.prefix a b else false.
Proof. reflexivity. Qed.

Lemma prefix_other_ns k' ns :
  forall ns',
    has_colon ns = false -> has_colon ns' = false -> ns <> ns' ->
    String.prefix (ns +:+ ":") (_make_key k' ns') = false.
Proof.
  unfold _make_key.
  induction ns as [|c ns IH]; intros [|c' ns'] H H' Hne;
    rewrite ?append_nil, ?append_cons; cbn [has_colon] in H, H'.
  - congruence.
  - rewrite prefix_cons. apply orb_false_iff in H' as [Hc _].
    destruct (ascii_dec ":" c') as [<-|]; [discriminate|reflexivity].
  - rewrite prefix_cons. apply orb_false_iff in H as [Hc _].
    destruct (ascii_dec c ":") as [->|]; [discriminate|reflexivity].
  - rewrite prefix_cons. destruct (ascii_dec c c') as [->|]; [|reflexivity].
    apply orb_false_iff in H as [_ H]. apply orb_false_iff in H' as [_ H'].
    apply IH; auto. congruence.
Qed.

Lemma get_value_by_lookup k ns self self' e :
  cache self' !! _make_key k ns = cache self !! _make_key k ns ->
  fst (fst (get k ns self' e)) = fst (fst (get k ns self e)).
Proof.
  intros E. rewrite !get_eq, E.
  destruct (cache self !! _make_key k ns) as [en|]; [|reflexivity].
  destruct (expires_at en); [|reflexivity].
  destruct (expired_at (now e) en); reflexivity.
Qed.

(** Entries under different keys of one namespace do not interfere, and
    entries of different namespaces do not interfere as long as neither
    namespace contains a colon: writing, deleting or clearing on one side
    leaves what is stored, and what [get] answers, on the other. *)
Theorem namespace_isolation ns ns' k k' v ttl self e e' :
  has_colon ns = false -> has_colon ns' = false ->
  ns <> ns' \/ k <> k' ->
  let after_set := snd (fst (set k v ttl ns self e)) in
  let after_delete := snd (fst (delete_ k ns self e)) in
  let after_clear := snd (fst (clear_namespace ns self e)) in
  cache after_set !! _make_key k' ns' = cache self !! _make_key k' ns'
  /\ cache after_delete !! _make_key k' ns' = cache self !! _make_key k' ns'
  /\ fst (fst (get k' ns' after_set e')) = fst (fst (get k' ns' self e'))
  /\ fst (fst (get k' ns' after_delete e')) = fst (fst (get k' ns' self e'))
  /\ (ns <> ns' ->
      cache after_clear !! _make_key k' ns' = cache self !! _make_key k' ns'
      /\ fst (fst (get k' ns' after_clear e')) = fst (fst (get k' ns' self e'))).
Proof.
  intros H H' Hne after_set after_delete after_clear.
  assert (Hk : _make_key k ns <> _make_key k' ns').
  { intros E. destruct (make_key_inj_ns k k' ns ns' H H' E) as [-> ->].
    destruct Hne; congruence. }
  assert (E1 : cache after_set !! _make_key k' ns'
               = cache self !! _make_key k' ns').
  { subst after_set. rewrite set_eq.
    destruct (plus_seconds (now e) (ttl_or ttl (default_ttl self)));
      cbn [fst snd cache set_cache]; [|reflexivity].
    now rewrite lookup_insert_ne. }
  assert (E2 : cache after_delete !! _make_key k' ns'
               = cache self !! _make_key k' ns').
  { subst after_delete. rewrite delete_eq. cbn [fst snd cache set_cache].
    now rewrite lookup_delete_ne. }
  split; [exact E1|]. split; [exact E2|].
  split; [now apply get_value_by_lookup|].
  split; [now apply get_value_by_lookup|].
  intros Hns.
  assert (E3 : cache after_clear !! _make_key k' ns'
               = cache self !! _make_key k' ns').
  { subst after_clear.
    rewrite clear_namespace_lookup, prefix_other_ns by assumption.
    reflexivity. }
  split; [exact E3|]. now apply get_value_by_lookup.
Qed.

Lemma namespace_isolation_witness :
  let self0 := InMemoryCacheService_init in
  let self1 := snd (fst (set "k" (VInt 1) None "suggestions" self0 (frozen_env 0))) in
  let self2 := snd (fst (set "k" (VInt 2) None "tests" self1 (frozen_env 0))) in
  let self3 := snd (fst (clear_namespace "tests" self2 (frozen_env 0))) in
  fst (fst (get "k" "suggestions" self2 (frozen_env 1))) = Ok (VInt 1)
  /\ fst (fst (get "k" "suggestions" self3 (frozen_env 1))) = Ok (VInt 1).
Proof.
  intros self0 self1 self2 self3.
  destruct (namespace_isolation "tests" "suggestions" "k" "k" (VInt 2) None
              self1 (frozen_env 0) (frozen_env 1))
    as (_ & _ & Hs & _ & Hc); [reflexivity | reflexivity | left; discriminate |].
  destruct (namespace_isolation "tests" "suggestions" "k" "k" (VInt 2) None
              self2 (frozen_env 0) (frozen_env 1))
    as (_ & _ & _ & _ & Hc2); [reflexivity | reflexivity | left; discriminate |].
  split.
  - subst self2. rewrite Hs. reflexivity.
  - subst self3. destruct Hc2 as [_ ->]; [discriminate|].
    subst self2. rewrite Hs. reflexivity.
Defined.

(** A namespace that contains a colon shares its keys with the namespace
    before the colon: key [c] of namespace [a:b] is key [b:c] of namespace
    [a].  Clearing [a] removes it; and an entry that [set] stored as the
    first is deleted by a [delete] in [a] and read from [a]. *)
Theorem namespace_collision a b c v ttl self e :
  let inner := a +:+ ":" +:+ b in
  let self1 := snd (fst (set c v ttl inner self e)) in
  _make_key c inner = _make_key (b +:+ ":" +:+ c) a
  /\ (forall e' e'',
        let self2 := snd (fst (clear_namespace a self1 e')) in
        get c inner self2 e'' = (Ok VNone, self2, e''))
  /\ (fst (fst (set c v ttl inner self e)) = Ok true ->
      (forall e', fst (fst (delete_ (b +:+ ":" +:+ c) a self1 e')) = Ok true)
      /\ (forall e',
            now e' <= now e + seconds (ttl_or ttl (default_ttl self)) ->
            fst (fst (get (b +:+ ":" +:+ c) a self1 e')) = Ok v)).
Proof.
  intros inner self1.
  assert (Ek : _make_key c inner = _make_key (b +:+ ":" +:+ c) a).
  { subst inner. unfold _make_key. now rewrite !append_assoc. }
  split; [exact Ek|]. split.
  - intros e' e'' self2. apply get_absent.
    subst self2. rewrite clear_namespace_lookup, Ek, prefix_make_key.
    reflexivity.
  - intros Hok. apply set_returns in Hok.
    assert (El : cache self1 !! _make_key c inner
                 = Some (mkEntry v
                           (Some (now e + seconds (ttl_or ttl (default_ttl self))))
                           (clock e (S (reads e))))).
    { subst self1. rewrite set_ok by exact Hok. cbn [fst snd cache set_cache].
      apply lookup_insert_eq. }
    split.
    + intros e'. rewrite delete_eq. cbn [fst]. rewrite <- Ek, El. reflexivity.
    + intros e' Hle. rewrite get_eq, <- Ek, El. cbn [expires_at entry_value].
      unfold expired_at. cbn [expires_at].
      destruct (Z.ltb_spec (now e + seconds (ttl_or ttl (default_ttl self)))
                           (now e'));
        [lia|reflexivity].
Qed.

(** The collision on a fresh cache: what was set in ["tests:unit"] is
    deleted from ["tests"]. *)
Lemma namespace_collision_witness :
  let self1 :=
    snd (fst (set "k" (VInt 1) None "tests:unit" InMemoryCacheService_init
                  (frozen_env 0))) in
  fst (fst (delete_ "unit:k" "tests" self1 (frozen_env 0))) = Ok true
  /\ fst (fst (get "unit:k" "tests" self1 (frozen_env 0))) = Ok (VInt 1).
Proof.
  intros self1.
  destruct (namespace_collision "tests" "unit" "k" (VInt 1) None
              InMemoryCacheService_init (frozen_env 0)) as (_ & _ & H).
  destruct (H eq_refl) as (Hd & Hg).
  split; [apply Hd | apply Hg; vm_compute; discriminate].
Defined.

End NamespaceFacts.


(* --------------------------------------------------------------------- *)
(** ** The cache manager: [mget] and [mset] *)
(* --------------------------------------------------------------------- *)

Module BulkFacts.
Import Cache CacheFacts KeyFacts DictFacts ManagerFacts InMemoryCacheFacts ClearNamespaceFacts.

Section AnyService.
Context {C : Type} {svcC : ICacheService C}.

Lemma on_service_counters {A} (c : M C A) (m : CacheManager C) e :
  hit_count (snd (fst (on_service c m e))) = hit_count m
  /\ miss_count (snd (fst (on_service c m e))) = miss_count m.
Proof.
  unfold on_service, lift. destruct (c (cache_service m) e) as [[r c'] e'].
  split; reflexivity.
Qed.

Lemma mget_loop_counters keys ns :
  forall results (m : CacheManager C) e,
    hit_count (snd (fst (mget_loop keys ns results m e))) = hit_count m
    /\ miss_count (snd (fst (mget_loop keys ns results m e))) = miss_count m.
Proof.
  induction keys as [|k keys IH]; intros results m e.
  - split; reflexivity.
  - cbn [mget_loop]. rewrite SysFacts.bind_run.
    destruct (on_service_counters (svc_get k ns) m e) as [Hh Hm].
    destruct (on_service (svc_get k ns) m e) as [[[v|x] m1] e1];
      cbn [fst snd] in *.
    + destruct (IH (if negb (is_None v) then dict_set k v results else results)
                   m1 e1) as [Hh' Hm'].
      split; congruence.
    + split; assumption.
Qed.

Lemma mset_loop_counters items ttl ns :
  forall n (m : CacheManager C) e,
    hit_count (snd (fst (mset_loop items ttl ns n m e))) = hit_count m
    /\ miss_count (snd (fst (mset_loop items ttl ns n m e))) = miss_count m.
Proof.
  induction items as [|[k v] items IH]; intros n m e.
  - split; reflexivity.
  - cbn [mset_loop]. rewrite SysFacts.bind_run.
    destruct (on_service_counters (svc_set k v ttl ns) m e) as [Hh Hm].
    destruct (on_service (svc_set k v ttl ns) m e) as [[[b|x] m1] e1];
      cbn [fst snd] in *.
    + destruct (IH (if b then n + 1 else n) m1 e1) as [Hh' Hm'].
      split; congruence.
    + split; assumption.
Qed.

Lemma mget_loop_result keys ns :
  forall results (m : CacheManager C) e out m' e',
    mget_loop keys ns results m e = (Ok out, m', e') ->
    forall k v, dict_get k out = Some v ->
      dict_get k results = Some v \/ (In k keys /\ v <> VNone).
Proof.
  induction keys as [|k0 keys IH]; intros results m e out m' e' E k v Hk.
  - cbn [mget_loop] in E. unfold ret in E. injection E as <- _ _. auto.
  - cbn [mget_loop] in E. rewrite SysFacts.bind_run in E.
    destruct (on_service (svc_get k0 ns) m e) as [[[w|x] m1] e1];
      [|discriminate].
    destruct (IH _ _ _ _ _ _ E k v Hk) as [Hr | [Hin Hv]].
    + destruct (is_None w) eqn:Ew; cbn [negb] in Hr; [auto|].
      destruct (String.eqb_spec k0 k) as [->|Hne].
      * rewrite dict_get_set_eq in Hr. injection Hr as ->.
        right. split; [now left|]. now apply PyFacts.is_None_false.
      * rewrite dict_get_set_ne in Hr by exact Hne. auto.
    + right. split; [now right | exact Hv].
Qed.

(** Whatever the cache service, [mget] and [mset] leave the hit and miss
    counters alone, whether they return or raise: the statistics of
    [get_cache_stats] count the lookups of [get_or_set] only.  What [mget]
    returns holds requested keys only, and no [None]. *)
Theorem bulk_operations_bypass_counters keys data ttl ns (m : CacheManager C) e :
  hit_count (snd (fst (mget keys ns m e))) = hit_count m
  /\ miss_count (snd (fst (mget keys ns m e))) = miss_count m
  /\ hit_count (snd (fst (mset data ttl ns m e))) = hit_count m
  /\ miss_count (snd (fst (mset data ttl ns m e))) = miss_count m
  /\ (forall out, fst (fst (mget keys ns m e)) = Ok out ->
        forall k v, dict_get k out = Some v -> In k keys /\ v <> VNone).
Proof.
  destruct (mget_loop_counters keys ns [] m e) as [Hh Hm].
  destruct (mset_loop_counters data ttl ns 0 m e) as [Hh' Hm'].
  split; [exact Hh|]. split; [exact Hm|].
  split; [exact Hh'|]. split; [exact Hm'|].
  intros out Hout k v Hk.
  destruct (mget keys ns m e) as [[r m'] e'] eqn:E. cbn [fst] in Hout. subst r.
  destruct (mget_loop_result keys ns [] m e out m' e' E k v Hk)
    as [Hr | Hin]; [discriminate | exact Hin].
Qed.

End AnyService.

(** *** On the in-memory service *)

Lemma after_reads_0 e : after_reads 0 e = e.
Proof. destruct e. unfold after_reads. simpl. f_equal. lia. Qed.

Lemma after_reads_add n k e :
  after_reads n (after_reads k e) = after_reads (k + n) e.
Proof. unfold after_reads. simpl. f_equal. lia. Qed.

Lemma ttl_fits_after_reads ttl n e : ttl_fits ttl e -> ttl_fits ttl (after_reads n e).
Proof. intros H i. apply H. Qed.

Lemma mset_loop_in_memory ttl ns data :
  forall self n h ms e,
    ttl_fits (ttl_or ttl (default_ttl self)) e ->
    exists self',
      mset_loop data ttl ns n (mkCacheManager self h ms) e
      = (Ok (n + Z.of_nat (length data)), mkCacheManager self' h ms,
         after_reads (2 * length data) e)
      /\ default_ttl self' = default_ttl self
      /\ (forall ck, (forall k, In k (map fst data) -> ck <> _make_key k ns) ->
            cache self' !! ck = cache self !! ck)
      /\ (List.NoDup (map fst data) ->
          forall k v, In (k, v) data ->
            exists i c,
              cache self' !! _make_key k ns
              = Some (mkEntry v
                        (Some (clock e i + seconds (ttl_or ttl (default_ttl self))))
                        c)).
Proof.
  induction data as [|[k v] data IH]; intros self n h ms e Hfit.
  - exists self. cbn [mset_loop length]. unfold ret.
    split; [|split; [reflexivity|split; [reflexivity|intros _ ? ? []]]].
    rewrite after_reads_0. do 3 f_equal. simpl. lia.
  - cbn [mset_loop]. rewrite SysFacts.bind_run.
    unfold on_service, lift. cbn [svc_set InMemory_ICacheService cache_service].
    rewrite set_ok by apply Hfit. cbn [hit_count miss_count].
    set (self1 := set_cache _ self).
    destruct (IH self1 (n + 1) h ms (after_reads 2 e))
      as (self' & E & Hd & Hother & Hin).
    { apply ttl_fits_after_reads. exact Hfit. }
    exists self'. rewrite E.
    split; [|split; [exact Hd|split]].
    + rewrite after_reads_add. do 2 f_equal.
      * f_equal. cbn [length]. lia.
      * f_equal. cbn [length]. lia.
    + intros ck Hck. rewrite Hother.
      * subst self1. cbn [cache set_cache]. apply lookup_insert_ne.
        intros E'. apply (Hck k); [now left | now symmetry].
      * intros k' Hk'. apply Hck. now right.
    + intros Hnd k' v' [Ekv | Hkv].
      * injection Ekv as <- <-. cbn [map fst] in Hnd.
        apply List.NoDup_cons_iff in Hnd as [Hni _].
        rewrite Hother.
        -- subst self1. cbn [cache set_cache]. rewrite lookup_insert_eq.
           unfold now. eauto.
        -- intros k' Hk' E'. apply make_key_inj in E'. congruence.
      * cbn [map fst] in Hnd. apply List.NoDup_cons_iff in Hnd as [_ Hnd].
        destruct (Hin Hnd k' v' Hkv) as (i & c & El). exists i, c.
        rewrite El. reflexivity.
Qed.

(** On the in-memory service [mset] stores every item and returns their
    number, reading the clock twice per item and changing nothing else, as
    long as the expiry is a [datetime] whatever the clock answers.  [set]
    is awaited unguarded: when the expiry of the first item is no
    [datetime], its [OverflowError] leaves [mset] and nothing is
    stored. *)
Theorem mset_stores_all data ttl ns self h ms e :
  List.NoDup (map fst data) ->
  (ttl_fits (ttl_or ttl (default_ttl self)) e ->
   exists self',
     mset data ttl ns (mkCacheManager self h ms) e
     = (Ok (Z.of_nat (length data)), mkCacheManager self' h ms,
        after_reads (2 * length data) e)
     /\ (forall k v, In (k, v) data ->
           exists en, cache self' !! _make_key k ns = Some en
                      /\ entry_value en = v)
     /\ (forall ck, (forall k, In k (map fst data) -> ck <> _make_key k ns) ->
           cache self' !! ck = cache self !! ck))
  /\ (forall x, data <> [] ->
        plus_seconds (now e) (ttl_or ttl (default_ttl self)) = Raise x ->
        mset data ttl ns (mkCacheManager self h ms) e
        = (Raise x, mkCacheManager self h ms, after_reads 1 e)).
Proof.
  intros Hnd. split.
  - intros Hfit. unfold mset.
    destruct (mset_loop_in_memory ttl ns data self 0 h ms e Hfit)
      as (self' & E & _ & Hother & Hin).
    exists self'. split; [exact E|]. split; [|exact Hother].
    intros k v Hkv. destruct (Hin Hnd k v Hkv) as (i & c & El).
    eexists. split; [exact El | reflexivity].
  - intros x Hne Hx. destruct data as [|[k v] data]; [congruence|].
    unfold mset. cbn [mset_loop]. rewrite SysFacts.bind_run.
    unfold on_service, lift. cbn [svc_set InMemory_ICacheService cache_service].
    rewrite set_eq, Hx. reflexivity.
Qed.

Lemma mset_stores_all_witness :
  exists self',
    mset [("a", VInt 1); ("b", VNone)] None "default"
         (CacheManager_init InMemoryCacheService_init) (frozen_env 0)
    = (Ok 2, mkCacheManager self' 0 0, after_reads 4 (frozen_env 0))
    /\ (exists en, cache self' !! "default:b" = Some en /\ entry_value en = VNone).
Proof.
  destruct (mset_stores_all [("a", VInt 1); ("b", VNone)] None "default"
              InMemoryCacheService_init 0 0 (frozen_env 0))
    as [H _].
  { repeat constructor; simpl; intuition discriminate. }
  destruct H as (self' & E & Hin & _); [intros i; reflexivity|].
  exists self'. split; [exact E|]. apply (Hin "b" VNone). simpl. auto.
Defined.

Lemma dict_set_fresh {V} k (v : V) d :
  dict_get k d = None -> dict_set k v d = (d ++ [(k, v)])%list.
Proof.
  induction d as [|[k' v'] d IH]; simpl; [reflexivity|].
  destruct (String.eqb k k'); [discriminate|]. intros H. now rewrite IH.
Qed.

Lemma dict_get_app_None {V} k (d d' : list (string * V)) :
  dict_get k d = None -> dict_get k d' = None -> dict_get k (d ++ d')%list = None.
Proof.
  induction d as [|[k' v'] d IH]; simpl; [auto|].
  destruct (String.eqb k k'); [discriminate|auto].
Qed.

Lemma dict_get_notin {V} k (d : list (string * V)) :
  ~ In k (map fst d) -> dict_get k d = None.
Proof.
  induction d as [|[k' v'] d IH]; simpl; [reflexivity|]. intros H.
  destruct (String.eqb_spec k k') as [->|]; [tauto|]. apply IH. tauto.
Qed.

Lemma mget_loop_live ns (self : InMemoryCacheService) h ms data :
  forall done e,
    List.NoDup (map fst (done ++ data)%list) ->
    (forall k v, In (k, v) data ->
       v <> VNone
       /\ exists x c, cache self !! _make_key k ns = Some (mkEntry v (Some x) c)
                      /\ forall i, clock e i <= x) ->
    exists e',
      mget_loop (map fst data) ns done (mkCacheManager self h ms) e
      = (Ok (done ++ data)%list, mkCacheManager self h ms, e').
Proof.
  induction data as [|[k v] data IH]; intros done e Hnd Hlive.
  - exists e. cbn [map mget_loop]. rewrite app_nil_r. reflexivity.
  - destruct (Hlive k v (or_introl eq_refl)) as (Hv & x & c & El & Hx).
    cbn [map fst mget_loop]. rewrite SysFacts.bind_run.
    unfold on_service, lift. cbn [svc_get InMemory_ICacheService cache_service].
    rewrite (get_live k ns self e _ x El eq_refl (Hx _)).
    cbn [entry_value hit_count miss_count].
    apply PyFacts.is_None_false in Hv. rewrite Hv. cbn [negb].
    rewrite dict_set_fresh.
    + destruct (IH (done ++ [(k, v)])%list (after_reads 1 e)) as (e' & E).
      * now rewrite <- app_assoc.
      * intros k' v' Hin. destruct (Hlive k' v' (or_intror Hin))
          as (Hv' & x' & c' & El' & Hx'). split; [exact Hv'|].
        exists x', c'. split; [exact El' | exact Hx'].
      * exists e'. rewrite E, <- app_assoc. reflexivity.
    + apply dict_get_notin. rewrite map_app in Hnd.
      apply List.NoDup_remove_2 in Hnd. intros Hin. apply Hnd.
      apply in_or_app. now left.
Qed.

(** Round trip on the in-memory service: what [mset] stored, [mget] gives
    back, as long as no value is [None], the keys are distinct, the expiry
    is a [datetime] whatever the clock answers, and the clock does not run
    past the time to live in between. *)
Theorem mset_then_mget data ttl ns self h ms e :
  List.NoDup (map fst data) ->
  (forall k v, In (k, v) data -> v <> VNone) ->
  ttl_fits (ttl_or ttl (default_ttl self)) e ->
  (forall i j, clock e j <= clock e i + seconds (ttl_or ttl (default_ttl self))) ->
  let stored := mset data ttl ns (mkCacheManager self h ms) e in
  fst (fst stored) = Ok (Z.of_nat (length data))
  /\ exists e',
       mget (map fst data) ns (snd (fst stored)) (snd stored)
       = (Ok data, snd (fst stored), e').
Proof.
  intros Hnd Hv Hfit Hclock stored. subst stored. unfold mset, mget.
  destruct (mset_loop_in_memory ttl ns data self 0 h ms e Hfit)
    as (self' & E & _ & _ & Hin).
  rewrite E. cbn [fst snd]. split; [reflexivity|].
  destruct (mget_loop_live ns self' h ms data [] (after_reads (2 * length data) e))
    as (e' & E').
  - exact Hnd.
  - intros k v Hkv. split; [now apply (Hv k)|].
    destruct (Hin Hnd k v Hkv) as (i & c & El).
    eexists _, c. split; [exact El|]. intros j. cbn [after_reads clock]. apply Hclock.
  - exists e'. exact E'.
Qed.

Lemma mset_then_mget_witness :
  let m0 := CacheManager_init InMemoryCacheService_init in
  let stored := mset [("a", VInt 1); ("b", VStr "x")] (Some 60) "default"
                     m0 (frozen_env 0) in
  exists e',
    mget ["a"; "b"] "default" (snd (fst stored)) (snd stored)
    = (Ok [("a", VInt 1); ("b", VStr "x")], snd (fst stored), e').
Proof.
  intros m0 stored.
  destruct (mset_then_mget [("a", VInt 1); ("b", VStr "x")] (Some 60) "default"
              InMemoryCacheService_init 0 0 (frozen_env 0))
    as [_ H].
  - repeat constructor; simpl; intuition discriminate.
  - intros k v [E|[E|[]]]; injection E as <- <-; discriminate.
  - intros i. reflexivity.
  - intros i j. vm_compute. discriminate.
  - exact H.
Defined.

End BulkFacts.


(* --------------------------------------------------------------------- *)
(** ** The cache manager: [get_or_set] when the function raises *)
(* --------------------------------------------------------------------- *)

Module GetOrSetFacts.
Import Cache CacheFacts KeyFacts DictFacts ManagerFacts InMemoryCacheFacts ClearNamespaceFacts.

(** When [value_func] raises, [get_or_set] lets the exception through
    after counting the miss, and stores nothing: the key is as absent as
    before, so the next call counts another miss and calls its function.
    That call returns what its function returned, unless the expiry is no
    [datetime] and [set] raises. *)
Theorem get_or_set_value_func_raises key f g ttl ns self h ms e x v :
  None_or_absent key ns self ->
  (forall e', fst (f e') = Raise x) ->
  (forall e', fst (g e') = Ok v) ->
  let first := get_or_set key f ttl ns (mkCacheManager self h ms) e in
  let second := get_or_set key g ttl ns (snd (fst first)) (snd first) in
  fst (fst first) = Raise x
  /\ hit_count (snd (fst first)) = h
  /\ miss_count (snd (fst first)) = ms + 1
  /\ None_or_absent key ns (cache_service (snd (fst first)))
  /\ (fst (fst second) = Ok v
      \/ exists msg, fst (fst second) = Raise (OverflowError msg))
  /\ (keeps_clock f -> keeps_clock g ->
      ttl_fits (ttl_or ttl (default_ttl self)) e ->
      fst (fst second) = Ok v)
  /\ hit_count (snd (fst second)) = h
  /\ miss_count (snd (fst second)) = ms + 2.
Proof.
  intros HI Hf Hg first second.
  destruct (get_or_set_None_or_absent key f ttl ns self h ms e HI)
    as (c1 & e1 & Eg & E1).
  pose proof (get_preserves_None_or_absent key ns key ns self e HI) as HI1.
  pose proof (get_clock key ns self e) as Hc1.
  pose proof (get_default_ttl key ns self e) as Hd1.
  rewrite Eg in HI1, Hc1, Hd1. cbn [fst snd] in HI1, Hc1, Hd1.
  pose proof (Hf e1) as Hf1. destruct (f e1) as [[w|y] e2] eqn:Ef;
    cbn [fst] in Hf1; [discriminate|]. injection Hf1 as ->.
  subst second first. rewrite E1. cbn [fst snd hit_count miss_count cache_service].
  split; [reflexivity|]. split; [reflexivity|]. split; [reflexivity|].
  split; [exact HI1|].
  destruct (get_or_set_None_or_absent key g ttl ns c1 h (ms + 1) e2 HI1)
    as (c2 & e3 & Eg2 & E2).
  pose proof (get_clock key ns c1 e2) as Hc3.
  rewrite Eg2 in Hc3. cbn [fst snd] in Hc3.
  rewrite E2. pose proof (Hg e3) as Hg3. destruct (g e3) as [[w|y] e4] eqn:Eg3;
    cbn [fst] in Hg3; [|discriminate]. injection Hg3 as ->.
  rewrite Hd1.
  destruct (plus_seconds (now e4) (ttl_or ttl (default_ttl self))) as [t|y] eqn:Ep;
    cbn [fst snd hit_count miss_count].
  - split; [now left|]. split; [reflexivity|]. split; [reflexivity|lia].
  - destruct (SysFacts.plus_seconds_Raise _ _ _ Ep) as (msg & ->).
    split; [right; eauto|]. split; [|split; [reflexivity|lia]].
    intros Hkf Hkg Hfit. exfalso.
    pose proof (Hkf e1) as K1. rewrite Ef in K1. cbn [snd] in K1.
    pose proof (Hkg e3) as K2. rewrite Eg3 in K2. cbn [snd] in K2.
    specialize (Hfit (reads e4)). unfold now in Ep.
    rewrite K2, Hc3, K1, Hc1 in Ep. rewrite Ep in Hfit. discriminate.
Qed.

Lemma get_or_set_value_func_raises_witness :
  let failing : callable := fun e => (Raise (ValueError "no value"), e) in
  let m0 := CacheManager_init InMemoryCacheService_init in
  let first := get_or_set "k" failing None "default" m0 (frozen_env 0) in
  let second :=
    get_or_set "k" (const_func (VInt 1)) None "default"
               (snd (fst first)) (snd first) in
  fst (fst first) = Raise (ValueError "no value")
  /\ miss_count (snd (fst first)) = 1
  /\ fst (fst second) = Ok (VInt 1)
  /\ miss_count (snd (fst second)) = 2.
Proof.
  intros failing m0 first second.
  destruct (get_or_set_value_func_raises "k" failing (const_func (VInt 1)) None
              "default" InMemoryCacheService_init 0 0 (frozen_env 0)
              (ValueError "no value") (VInt 1))
    as (H1 & _ & H2 & _ & _ & H3 & _ & H4).
  - unfold None_or_absent. cbn [cache InMemoryCacheService_init].
    rewrite lookup_empty. exact I.
  - reflexivity.
  - reflexivity.
  - split; [exact H1|]. split; [exact H2|]. split; [|exact H4].
    apply H3; [intros e; reflexivity | intros e; reflexivity
              | intros i; reflexivity].
Defined.

End GetOrSetFacts.

(* --------------------------------------------------------------------- *)
(** ** The cache manager: the three key generators *)
(* --------------------------------------------------------------------- *)

Module KeyCollisionFacts.
Import Cache Sha256 KeyFacts ClearNamespaceFacts.

(** The three key generators hash strings joined with [|] and do not
    escape it, and only two of them start with a tag.  Hence a suggestion
    key for the code ["explain"] is an explanation key, a suggestion key
    for the code ["tests"] is a test key, and within one generator a [|]
    can move from one argument to the next without changing the key. *)
Theorem cache_keys_collide code language function_code test_framework context :
  cache_key_for_suggestion "explain" code (Some language)
  = cache_key_for_explanation code language
  /\ cache_key_for_suggestion "tests" (function_code +:+ "|" +:+ test_framework)
       (Some language)
     = cache_key_for_tests function_code test_framework language
  /\ cache_key_for_explanation (code +:+ "|" +:+ language) context
     = cache_key_for_explanation code (language +:+ "|" +:+ context)
  /\ cache_key_for_suggestion (code +:+ "|" +:+ language) context None
     = cache_key_for_suggestion code language (Some (context +:+ "|"))
  /\ cache_key_for_tests (code +:+ "|" +:+ language) test_framework context
     = cache_key_for_tests code (language +:+ "|" +:+ test_framework) context.
Proof.
  unfold cache_key_for_suggestion, cache_key_for_explanation,
    cache_key_for_tests, suggestion_content, str_or_empty.
  repeat split; f_equal; rewrite ?append_assoc; try reflexivity.
Qed.

End KeyCollisionFacts.


(* --------------------------------------------------------------------- *)
(** ** The Redis cache *)
(* --------------------------------------------------------------------- *)

Module RedisCacheFacts.
Import Redis Cache RedisCache BackendFacts Fixtures.

Section AnyClient.
Variable L : pylib.
Context {R : Type}.
Variable C : client R.

(** [get] of a key under which the client holds a JSON object. *)
Lemma get_of_object (self : RedisCacheService R) r key ns e s r' e' d :
  redis_client self = Some r ->
  Redis.get C (_make_key self key ns) r e = (Ok (Some s), r', e') ->
  json_loads L s = Some (VDict d) ->
  get L C key ns self e
  = (Ok (default VNone (dict_get "value" d)),
     mkService (Some r') (default_ttl self) (key_prefix self), e').
Proof.
  intros H E Ej. unfold get.
  rewrite SysFacts.bind_run, (cache_require_connected self r e H).
  rewrite SysFacts.bind_run. cbn [get_self].
  rewrite SysFacts.try_except_run, SysFacts.bind_run.
  rewrite (on_client_ok _ self r e (Some s) r' e' H E).
  unfold _deserialize_value. rewrite Ej. reflexivity.
Qed.

(** What [get] makes of the string the client holds under the key: a
    string that is no JSON document is returned as it is; a JSON object
    gives its ["value"] member, [None] without one; any other JSON document
    (a list, a number, a string) gives [None], with an error logged. *)
Theorem redis_get_decodes (self : RedisCacheService R) r key ns e s r' e' :
  redis_client self = Some r ->
  Redis.get C (_make_key self key ns) r e = (Ok (Some s), r', e') ->
  let self' := mkService (Some r') (default_ttl self) (key_prefix self) in
  let out := get L C key ns self e in
  match json_loads L s with
  | None => out = (Ok (VStr s), self', e')
  | Some (VDict d) => out = (Ok (default VNone (dict_get "value" d)), self', e')
  | Some _ =>
      fst out = (Ok VNone, self')
      /\ log (snd out)
         = (log e' ++ [("ERROR", "Error getting cache value for "
                                 +:+ _make_key self key ns
                                 +:+ ": object has no attribute 'get'")])%list
  end.
Proof.
  intros H E self' out. subst out. unfold get.
  rewrite SysFacts.bind_run, (cache_require_connected self r e H).
  rewrite SysFacts.bind_run. cbn [get_self].
  rewrite SysFacts.try_except_run, SysFacts.bind_run.
  rewrite (on_client_ok _ self r e (Some s) r' e' H E).
  unfold _deserialize_value.
  destruct (json_loads L s) as [[]|]; cbn [eval ret raise];
    try reflexivity; split; reflexivity.
Qed.

(** Round trip: a value [set] and read back with [get] comes back as it
    was, provided the client stores the string, gives it back, and the
    document [json.dumps] wrote is read by [json.loads] as the object it was
    written from.  The time to live handed to the client is [ttl], or the
    default of one hour when [ttl] is absent or zero. *)
Theorem redis_set_then_get (self : RedisCacheService R)
    r key ns v ttl e s r1 e1 r2 e2 d :
  redis_client self = Some r ->
  _serialize_value L v = Ok s ->
  setex C (_make_key self key ns) (ttl_or ttl (default_ttl self)) s r e
  = (Ok tt, r1, e1) ->
  Redis.get C (_make_key self key ns) r1 e1 = (Ok (Some s), r2, e2) ->
  json_loads L s = Some (VDict d) ->
  dict_get "value" d = Some v ->
  let stored := set L C key v ttl ns self e in
  stored = (Ok true, mkService (Some r1) (default_ttl self) (key_prefix self), e1)
  /\ get L C key ns (snd (fst stored)) (snd stored)
     = (Ok v, mkService (Some r2) (default_ttl self) (key_prefix self), e2).
Proof.
  intros H Es Eset Eget Ej Ev stored.
  assert (E1 : stored
               = (Ok true, mkService (Some r1) (default_ttl self) (key_prefix self), e1)).
  { subst stored. unfold set.
    rewrite SysFacts.bind_run, (cache_require_connected self r e H).
    rewrite SysFacts.bind_run. cbn [get_self].
    rewrite SysFacts.try_except_run, SysFacts.bind_run, Es. cbn [eval ret].
    rewrite SysFacts.bind_run.
    rewrite (on_client_ok _ self r e tt r1 e1 H Eset). reflexivity. }
  split; [exact E1|]. rewrite E1. cbn [fst snd].
  pose proof (get_of_object
                (mkService (Some r1) (default_ttl self) (key_prefix self))
                r1 key ns e1 s r2 e2 d eq_refl Eget Ej) as Hg.
  rewrite Ev in Hg. exact Hg.
Qed.

(** [get_stats] raises [RuntimeError] while no client is assigned.  With a
    client assigned it never raises: an error of the client is logged and
    reported as the one-entry dictionary [{"error": str(e)}]. *)
Theorem redis_get_stats_errors (self : RedisCacheService R) e :
  (redis_client self = None ->
   get_stats C self e = (Raise (RuntimeError "Redis client not connected"), self, e))
  /\ (forall r, redis_client self = Some r ->
        is_ok (fst (fst (get_stats C self e))) = true
        /\ forall x r' e',
             info C "memory" r e = (Raise x, r', e') ->
             get_stats C self e
             = (Ok [("error", VStr (exn_str x))],
                mkService (Some r') (default_ttl self) (key_prefix self),
                mkEnv (clock e') (reads e') (uuids e') (draws e')
                      (log e' ++ [("ERROR", "Error getting cache stats: "
                                            +:+ exn_str x)]))).
Proof.
  split.
  - intros H. unfold get_stats. rewrite SysFacts.bind_run.
    unfold require_client, bind, get_self. rewrite H. reflexivity.
  - intros r H. unfold get_stats.
    rewrite SysFacts.bind_run, (cache_require_connected self r e H).
    rewrite SysFacts.bind_run. cbn [get_self]. split.
    + rewrite SysFacts.try_except_run.
      match goal with
      | |- context [match ?c self e with _ => _ end] =>
          destruct (c self e) as [[[v|x] s'] e']
      end; reflexivity.
    + intros x r' e' E.
      rewrite SysFacts.try_except_run, SysFacts.bind_run.
      rewrite (on_client_raised _ self r e x r' e' H E). reflexivity.
Qed.

(** A [connect] whose ping fails logs the error and raises it again, and
    leaves the client assigned: the guard [if not self.redis_client] no
    longer holds the operations back, and the next [get] goes to the
    client instead of raising [RuntimeError]. *)
Theorem connect_failure_keeps_client (self : RedisCacheService R)
    fresh e x r' e' key ns :
  ping C fresh e = (Raise x, r', e') ->
  let out := connect C fresh self e in
  fst (fst out) = Raise x
  /\ redis_client (snd (fst out)) = Some r'
  /\ log (snd out)
     = (log e' ++ [("ERROR", "Failed to connect to Redis cache: " +:+ exn_str x)])%list
  /\ is_ok (fst (fst (get L C key ns (snd (fst out)) (snd out)))) = true.
Proof.
  intros E out. subst out. unfold connect.
  rewrite SysFacts.try_except_run, SysFacts.bind_run. cbn [modify_self].
  rewrite SysFacts.bind_run.
  rewrite (on_client_raised _
             (mkService (Some fresh) (default_ttl self) (key_prefix self))
             fresh e x r' e' eq_refl E).
  cbn [fst snd default_ttl key_prefix redis_client log bind logger raise].
  repeat split.
  eapply (cache_connected_never_raises L C _ r' key ns VNone None). reflexivity.
Qed.

End AnyClient.

Lemma redis_get_decodes_witness :
  let r := mkServer {["mcp_cache:default:k" := "not json"]} ∅ ∅ ∅ in
  let self := mkService (Some r) 3600 "mcp_cache:" in
  get lib_stub server_client "k" "default" self (frozen_env 0)
  = (Ok (VStr "not json"), self, frozen_env 0).
Proof.
  intros r self.
  exact (redis_get_decodes lib_stub server_client self r "k" "default"
           (frozen_env 0) "not json" r (frozen_env 0) eq_refl eq_refl).
Defined.

Lemma redis_set_then_get_witness :
  let self := mkService (Some empty_server) 3600 "mcp_cache:" in
  let stored := set lib_envelope server_client "k" (VInt 1) (Some 0) "default"
                    self (frozen_env 0) in
  fst (fst stored) = Ok true
  /\ fst (fst (get lib_envelope server_client "k" "default"
                   (snd (fst stored)) (snd stored))) = Ok (VInt 1)
  /\ ((fun r => ttls r !! "mcp_cache:default:k")
        <$> redis_client (snd (fst stored)))
     = Some (Some 3600).
Proof.
  intros self stored.
  edestruct (redis_set_then_get lib_envelope server_client self empty_server
               "k" "default" (VInt 1) (Some 0) (frozen_env 0))
    as [E1 E2]; try reflexivity.
  fold stored in E1, E2. rewrite E2, E1. repeat split.
Defined.

Lemma redis_get_stats_errors_witness :
  fst (fst (get_stats down_client (mkService (Some tt) 3600 "mcp_cache:")
              (frozen_env 0)))
  = Ok [("error", VStr "Connection refused")].
Proof.
  destruct (redis_get_stats_errors down_client
              (mkService (Some tt) 3600 "mcp_cache:") (frozen_env 0))
    as [_ H].
  destruct (H tt eq_refl) as [_ H'].
  now rewrite (H' unreachable tt (frozen_env 0) eq_refl).
Defined.

Lemma connect_failure_keeps_client_witness :
  let out := connect down_client tt RedisCacheService_init (frozen_env 0) in
  fst (fst out) = Raise (BackendError "Connection refused")
  /\ redis_client (snd (fst out)) = Some tt
  /\ fst (fst (get lib_stub down_client "k" "default" (snd (fst out)) (snd out)))
     = Ok VNone.
Proof.
  intros out.
  destruct (connect_failure_keeps_client lib_stub down_client
              RedisCacheService_init tt (frozen_env 0) unreachable tt
              (frozen_env 0) "k" "default" eq_refl)
    as (H1 & H2 & _ & _).
  split; [exact H1|]. split; [exact H2|]. reflexivity.
Defined.

End RedisCacheFacts.


(* --------------------------------------------------------------------- *)
(** ** What a method leaves of its object *)
(* --------------------------------------------------------------------- *)

Module PreservationFacts.

Section Keeps.
Context {S : Type} (rel : S -> S -> Prop).
Hypothesis rel_refl : forall s, rel s s.
Hypothesis rel_trans : forall s1 s2 s3, rel s1 s2 -> rel s2 s3 -> rel s1 s3.

Lemma keeps_ret {A} (a : A) : keeps rel (ret a).
Proof. intros s e. apply rel_refl. Qed.

Lemma keeps_raise {A} x : keeps rel (raise (A := A) x).
Proof. intros s e. apply rel_refl. Qed.

Lemma keeps_eval {A} (r : result A) : keeps rel (eval r).
Proof. destruct r; [apply keeps_ret | apply keeps_raise]. Qed.

Lemma keeps_get_self : keeps rel get_self.
Proof. intros s e. apply rel_refl. Qed.

Lemma keeps_utcnow : keeps rel utcnow.
Proof. intros s e. apply rel_refl. Qed.

Lemma keeps_uuid4 : keeps rel uuid4.
Proof. intros s e. apply rel_refl. Qed.

Lemma keeps_logger level msg : keeps rel (logger level msg).
Proof. intros s e. apply rel_refl. Qed.

Lemma keeps_modify_self f : (forall s, rel s (f s)) -> keeps rel (modify_self f).
Proof. intros H s e. apply H. Qed.

Lemma keeps_bind {A B} (c : M S A) (k : A -> M S B) :
  keeps rel c -> (forall a, keeps rel (k a)) -> keeps rel (bind c k).
Proof.
  intros Hc Hk s e. rewrite SysFacts.bind_run.
  specialize (Hc s e). destruct (c s e) as [[[a|x] s'] e']; cbn [fst snd] in *.
  - eapply rel_trans; [exact Hc | apply Hk].
  - exact Hc.
Qed.

(** [self <- get_self ;; k self]: the continuation is only ever run on
    the object as it stands. *)
Lemma keeps_bind_get_self {B} (k : S -> M S B) :
  (forall s e, rel s (snd (fst (k s s e)))) -> keeps rel (bind get_self k).
Proof. intros Hk s e. rewrite SysFacts.bind_run. apply Hk. Qed.

End Keeps.

Ltac keeps_step refl trans :=
  first
    [ apply (keeps_ret _ refl)
    | apply (keeps_raise _ refl)
    | apply (keeps_eval _ refl)
    | apply (keeps_utcnow _ refl)
    | apply (keeps_uuid4 _ refl)
    | apply (keeps_logger _ refl)
    | apply (keeps_get_self _ refl)
    | apply (keeps_bind _ trans); [| intros ?] ].

Ltac keeps_match :=
  match goal with
  | |- keeps _ (match ?x with _ => _ end) => destruct x
  | |- keeps _ (if ?x then _ else _) => destruct x
  | |- keeps _ (let '(_, _) := ?x in _) => destruct x
  end.

End PreservationFacts.

(* --------------------------------------------------------------------- *)
(** ** The in-memory session store only grows *)
(* --------------------------------------------------------------------- *)

Module SessionStoreFacts.
Import Types InMemory PreservationFacts.

Lemma same_ids_refl s : same_ids s s.
Proof. intros k. reflexivity. Qed.

Lemma same_ids_trans s1 s2 s3 : same_ids s1 s2 -> same_ids s2 s3 -> same_ids s1 s3.
Proof. intros H1 H2 k. rewrite (H2 k). apply H1. Qed.

Lemma keeps_ids_refl s : keeps_ids s s.
Proof. intros k H. exact H. Qed.

Lemma keeps_ids_trans s1 s2 s3 : keeps_ids s1 s2 -> keeps_ids s2 s3 -> keeps_ids s1 s3.
Proof. intros H1 H2 k H. apply H2, H1, H. Qed.

Lemma same_ids_keeps_ids s s' : same_ids s s' -> keeps_ids s s'.
Proof. intros H k Hk. now apply H. Qed.

Lemma same_ids_set_session_attr sid attr v :
  keeps same_ids (set_session_attr sid attr v).
Proof.
  apply keeps_modify_self. intros s k. cbn [sessions set_sessions].
  destruct (decide (sid = k)) as [->|Hne].
  - rewrite lookup_alter_eq. destruct (sessions s !! k); simpl; split; eauto.
    all: intros [? ?]; discriminate.
  - now rewrite lookup_alter_ne.
Qed.

Lemma same_ids_set_user_sessions m :
  keeps same_ids (modify_self (set_user_sessions m)).
Proof. apply keeps_modify_self. intros s k. reflexivity. Qed.

Ltac same_ids_step :=
  first
    [ apply same_ids_set_session_attr
    | apply same_ids_set_user_sessions
    | keeps_step same_ids_refl same_ids_trans ].

Lemma same_ids_end_session T sid : keeps same_ids (end_session T sid).
Proof.
  unfold end_session. repeat first [same_ids_step | keeps_match].
Qed.

Lemma same_ids_end_all T ids : keeps same_ids (end_all T ids).
Proof.
  induction ids as [|sid ids IH]; cbn [end_all].
  - same_ids_step.
  - same_ids_step; [apply same_ids_end_session | exact IH].
Qed.

Lemma same_ids_cleanup T : keeps same_ids (cleanup_expired_sessions T).
Proof.
  unfold cleanup_expired_sessions.
  repeat first [apply same_ids_end_all | same_ids_step | keeps_match].
Qed.

Lemma keeps_ids_insert sid o :
  keeps keeps_ids
    (modify_self (fun self => set_sessions (<[sid := o]> (sessions self)) self)).
Proof.
  apply keeps_modify_self. intros s k Hk. cbn [sessions set_sessions].
  destruct (decide (sid = k)) as [->|Hne].
  - rewrite lookup_insert_eq. eauto.
  - now rewrite lookup_insert_ne.
Qed.

Lemma keeps_ids_set_user_sessions f :
  keeps keeps_ids (modify_self (fun self => set_user_sessions (f self) self)).
Proof. apply keeps_modify_self. intros s k Hk. exact Hk. Qed.

Ltac keeps_ids_step :=
  first
    [ apply keeps_ids_insert
    | apply keeps_ids_set_user_sessions
    | keeps_step keeps_ids_refl keeps_ids_trans ].

Lemma keeps_ids_create_session T user ws :
  keeps keeps_ids (create_session T user ws).
Proof.
  unfold create_session, existing_active.
  repeat first [keeps_ids_step | keeps_match].
Qed.

Lemma keeps_ids_update_session session : keeps keeps_ids (update_session session).
Proof.
  unfold update_session. repeat first [keeps_ids_step | keeps_match].
Qed.

(** No method of the in-memory manager ever removes a session from
    [sessions], whatever the types module and whether the method returns or
    raises: [end_session] and the sweep of expired sessions leave the set of
    stored identifiers as it is, [create_session] and [update_session] can
    only add to it.  An ended or expired session stays stored. *)
Theorem sessions_are_never_removed T self e :
  (forall session_id, same_ids self (snd (fst (end_session T session_id self e))))
  /\ same_ids self (snd (fst (cleanup_expired_sessions T self e)))
  /\ (forall user ws, keeps_ids self (snd (fst (create_session T user ws self e))))
  /\ (forall session, keeps_ids self (snd (fst (update_session session self e))))
  /\ (forall session_id, snd (fst (get_session session_id self e)) = self)
  /\ (forall user_id, snd (fst (get_user_session user_id self e)) = self).
Proof.
  split; [intros sid; apply same_ids_end_session|].
  split; [apply same_ids_cleanup|].
  split; [intros user ws; apply keeps_ids_create_session|].
  split; [intros session; apply keeps_ids_update_session|].
  split; [reflexivity|].
  intros user_id. unfold get_user_session, bind, get_self.
  destruct (user_sessions self !! user_id) as [sid|]; [|reflexivity].
  destruct (String.eqb sid ""); reflexivity.
Qed.

End SessionStoreFacts.


(* --------------------------------------------------------------------- *)
(** ** [update_session] and the session of types.py *)
(* --------------------------------------------------------------------- *)

Module UpdateSessionFacts.
Import Types Redis TypesFacts.

(** The [Session] that [create_session] of types.py builds, the only
    constructor call of the repository that the class accepts, is no
    argument for [update_session]: both managers read [session.session_id],
    which the class does not declare.  The in-memory manager has read the
    clock by then; nothing is stored and nothing is sent to Redis. *)
Theorem update_session_rejects_types_py_session
    L {R} (C : client R) user ws e0 :
  exists session,
    fst (fst (types_create_session types_py (S := unit) user ws tt e0))
    = Ok session
    /\ (forall self e,
          InMemory.update_session session self e
          = (Raise no_session_id, self, after_reads 1 e))
    /\ (forall (self : RedisSessions.RedisSessionManager R) r e,
          RedisSessions.redis_client self = Some r ->
          RedisSessions.update_session L C session self e
          = (Raise no_session_id, self, e)).
Proof.
  eexists. split; [reflexivity|]. split.
  - intros self e. unfold InMemory.update_session, bind, utcnow, after_reads.
    cbn. repeat f_equal. lia.
  - intros self r e H. unfold RedisSessions.update_session.
    rewrite SysFacts.bind_run.
    unfold RedisSessions.require_client, bind, get_self. rewrite H. reflexivity.
Qed.

End UpdateSessionFacts.

(* --------------------------------------------------------------------- *)
(** ** The Redis readers and the session of types.py *)
(* --------------------------------------------------------------------- *)

Module NoSessionReadFacts.
Import Types Redis RedisSessions TypesFacts RedisSessionFacts.

Section AnyClient.
Variable L : pylib.
Context {R : Type}.
Variable C : client R.

Lemma get_session_never_Some sid (self : RedisSessionManager R) e :
  match fst (fst (get_session types_py L C sid self e)) with
  | Ok (Some _) => False
  | _ => True
  end.
Proof.
  unfold get_session. rewrite SysFacts.bind_run.
  destruct (require_client self e) as [[[[]|x] s1] e1]; [|exact I].
  rewrite SysFacts.bind_run.
  destruct (on_client (hgetall C ("session:" +:+ sid)) s1 e1)
    as [[[data|x] s2] e2]; [|exact I].
  destruct data as [|kv data]; [exact I|].
  rewrite SysFacts.try_except_run, SysFacts.bind_run.
  destruct (parse_session_types_py L (kv :: data) s2 e2) as (x & -> & Hx).
  destruct (is_Key_or_ValueError x); exact I.
Qed.

Lemma all_sessions_loop_nil ids :
  forall (self : RedisSessionManager R) e,
    match fst (fst (all_sessions_loop types_py L C ids [] self e)) with
    | Ok l => l = []
    | Raise _ => True
    end.
Proof.
  induction ids as [|sid ids IH]; intros self e; cbn [all_sessions_loop].
  - reflexivity.
  - rewrite SysFacts.bind_run.
    pose proof (get_session_never_Some sid self e) as Hn.
    destruct (get_session types_py L C sid self e) as [[[[s|]|x] s1] e1];
      cbn [fst] in Hn; [contradiction | apply IH | exact I].
Qed.

(** Against types.py no reader of the Redis manager ever hands out a
    [Session], whatever the server holds: [get_session] and
    [get_user_session] return [None] or raise, and the list
    [get_all_active_sessions] returns is empty. *)
Theorem redis_readers_return_no_session (self : RedisSessionManager R) e :
  (forall sid s, fst (fst (get_session types_py L C sid self e)) <> Ok (Some s))
  /\ (forall user s,
        fst (fst (get_user_session types_py L C user self e)) <> Ok (Some s))
  /\ (forall l, fst (fst (get_all_active_sessions types_py L C self e)) = Ok l ->
        l = []).
Proof.
  split; [|split].
  - intros sid s E. pose proof (get_session_never_Some sid self e) as Hn.
    now rewrite E in Hn.
  - intros user s. unfold get_user_session. rewrite SysFacts.bind_run.
    destruct (require_client self e) as [[[[]|x] s1] e1]; [|discriminate].
    rewrite SysFacts.bind_run.
    destruct (on_client (get C ("user_session:" +:+ user)) s1 e1)
      as [[[[sid|]|x] s2] e2]; try discriminate.
    destruct (String.eqb sid ""); [discriminate|].
    intros E. pose proof (get_session_never_Some sid s2 e2) as Hn.
    now rewrite E in Hn.
  - intros l. unfold get_all_active_sessions. rewrite SysFacts.bind_run.
    destruct (require_client self e) as [[[[]|x] s1] e1]; [|discriminate].
    rewrite SysFacts.bind_run.
    destruct (on_client (smembers C "active_sessions") s1 e1)
      as [[[ids|x] s2] e2]; [|discriminate].
    intros E. pose proof (all_sessions_loop_nil ids s2 e2) as Hn.
    now rewrite E in Hn.
Qed.

End AnyClient.

End NoSessionReadFacts.


(* --------------------------------------------------------------------- *)
(** ** [end_session] and the index of users *)
(* --------------------------------------------------------------------- *)

Module IndexFacts.
Import Types InMemory DictFacts ExpectedTypesFacts.

(** [end_session] removes the index entry of the session's user without
    looking at what it points to.  Against types that match the manager:
    ending a session of a user whose index entry points to another session
    leaves that other session as it is and the user without entry, so that
    [get_user_session] finds nothing and the next [create_session] makes one
    more session for the user. *)
Theorem end_session_drops_newer_index T sid sid' o u ws self e e1 :
  matches_manager T ->
  sessions self !! sid = Some o ->
  getattr o "whatsapp_user" = Ok (VStr u) ->
  user_sessions self !! u = Some sid' ->
  sid' <> sid ->
  let self1 := snd (fst (end_session T sid self e)) in
  user_sessions self1 !! u = None
  /\ sessions self1 !! sid' = sessions self !! sid'
  /\ fst (fst (get_user_session u self1 e1)) = Ok None
  /\ exists a,
       fst (fst (create_session T u ws self1 e1))
       = Ok (new_session (uuids e1 (draws e1)) u ws a
               (clock e1 (reads e1)) (clock e1 (S (reads e1)))).
Proof.
  intros HT Hs Hu Hi Hne self1.
  destruct (end_session_present T HT sid o u self e Hs Hu) as (n & _ & E).
  assert (Hidx : user_sessions self1 !! u = None).
  { subst self1. rewrite E. cbn [fst snd user_sessions]. apply lookup_delete_eq. }
  split; [exact Hidx|]. split; [|split].
  - subst self1. rewrite E. cbn [fst snd sessions]. now apply lookup_insert_ne.
  - unfold get_user_session, bind, get_self. now rewrite Hidx.
  - destruct (create_session_new T HT u ws self1 e1 Hidx) as (a & _ & Ec).
    exists a. cbv zeta in Ec. now rewrite Ec.
Qed.

Lemma end_session_drops_newer_index_witness :
  let old := new_session "s1" "u1" None "ended" 0 0 in
  let newer := new_session "s2" "u1" None "active" 5 5 in
  let self := mkManager {["s1" := old; "s2" := newer]} {["u1" := "s2"]} 86400 in
  let self1 := snd (fst (end_session types_expected "s1" self (Fixtures.env_at 9))) in
  user_sessions self1 !! "u1" = None
  /\ sessions self1 !! "s2" = Some newer.
Proof.
  intros old newer self self1.
  destruct (end_session_drops_newer_index types_expected "s1" "s2" old "u1"
              None self (Fixtures.env_at 9) (Fixtures.env_at 9)
              types_expected_matches)
    as (H1 & H2 & _); try reflexivity; try discriminate.
  split; [exact H1|]. subst self1. rewrite H2. reflexivity.
Defined.

End IndexFacts.

(* --------------------------------------------------------------------- *)
(** ** [cleanup_expired_sessions] on Redis *)
(* --------------------------------------------------------------------- *)

Module RedisCleanupFacts.
Import Types Redis RedisSessions RedisSessionFacts.

Lemma filter_nil_all {A} (f : A -> bool) l :
  (forall x, In x l -> f x = false) -> List.filter f l = [].
Proof.
  induction l as [|a l IH]; intros H; simpl; [reflexivity|].
  rewrite (H a (or_introl eq_refl)). apply IH. intros x Hx. apply H. now right.
Qed.

Section Orphans.
Variable T : module_types.
Variable L : pylib.

Lemma redis_get_session_absent sid r ttl ci e :
  hashes r !! ("session:" +:+ sid) = None ->
  get_session T L server_client sid (mkManager (Some r) ttl ci) e
  = (Ok None, mkManager (Some r) ttl ci, e).
Proof.
  intros H. unfold get_session.
  rewrite SysFacts.bind_run, require_connected.
  rewrite SysFacts.bind_run. unfold on_client; simpl.
  unfold bind, get_self, ret; simpl. now rewrite H.
Qed.

Lemma run_SREM_hashes k m r :
  hashes (run_command (SREM k m) r) = hashes r
  /\ strings (run_command (SREM k m) r) = strings r.
Proof.
  cbn [run_command]. destruct (sets r !! k); split; reflexivity.
Qed.

Lemma run_SREM_members k m r :
  default [] (sets (run_command (SREM k m) r) !! k)
  = List.filter (fun x => negb (String.eqb m x)) (default [] (sets r !! k)).
Proof.
  cbn [run_command]. destruct (sets r !! k) as [old|] eqn:E.
  - cbn [default from_option id sets].
    destruct (List.filter _ old) eqn:Ef.
    + now rewrite lookup_delete_eq.
    + now rewrite lookup_insert_eq.
  - now rewrite E.
Qed.

Lemma without_cons sid ids r :
  without (sid :: ids) r = without ids (run_command (SREM "active_sessions" sid) r).
Proof. reflexivity. Qed.

Lemma without_hashes ids :
  forall r, hashes (without ids r) = hashes r /\ strings (without ids r) = strings r.
Proof.
  induction ids as [|sid ids IH]; intros r; [split; reflexivity|].
  rewrite without_cons.
  destruct (IH (run_command (SREM "active_sessions" sid) r)) as [-> ->].
  apply run_SREM_hashes.
Qed.

Lemma without_members ids :
  forall r,
    default [] (sets (without ids r) !! "active_sessions")
    = List.filter (fun x => negb (existsb (fun m => String.eqb m x) ids))
                  (default [] (sets r !! "active_sessions")).
Proof.
  induction ids as [|sid ids IH]; intros r.
  - cbn [without fold_left existsb negb].
    induction (default [] (sets r !! "active_sessions")) as [|x l IHl];
      [reflexivity|]. cbn [List.filter]. now rewrite <- IHl.
  - rewrite without_cons, IH, run_SREM_members.
    induction (default [] (sets r !! "active_sessions")) as [|x l IHl];
      [reflexivity|]. cbn [List.filter existsb].
    destruct (String.eqb sid x); cbn [negb orb List.filter].
    + exact IHl.
    + destruct (existsb _ ids); cbn [negb]; now rewrite IHl.
Qed.

Lemma cleanup_loop_orphans cutoff ttl ci ids :
  forall r n e,
    (forall sid, In sid ids -> hashes r !! ("session:" +:+ sid) = None) ->
    cleanup_loop T L server_client ids cutoff n (mkManager (Some r) ttl ci) e
    = (Ok (n + Z.of_nat (length ids)),
       mkManager (Some (without ids r)) ttl ci, e).
Proof.
  induction ids as [|sid ids IH]; intros r n e Hh.
  - cbn [cleanup_loop length]. unfold ret, without. cbn [fold_left].
    do 3 f_equal. simpl. lia.
  - cbn [cleanup_loop]. rewrite SysFacts.bind_run.
    rewrite redis_get_session_absent by (apply Hh; now left).
    rewrite SysFacts.bind_run.
    unfold on_client at 1.
    cbn [redis_client srem server_client bind get_self modify_self ret
         session_ttl cleanup_interval].
    rewrite IH.
    + rewrite without_cons. cbn [length]. do 3 f_equal. lia.
    + intros sid' Hin. destruct (run_SREM_hashes "active_sessions" sid r) as [-> _].
      apply Hh. now right.
Qed.

Lemma cleanup_orphans_eq r ttl ci e :
  let members := default [] (sets r !! "active_sessions") in
  (forall sid, In sid members -> hashes r !! ("session:" +:+ sid) = None) ->
  is_ok (minus_seconds (now e) ttl) = true ->
  exists e',
    cleanup_expired_sessions T L server_client (mkManager (Some r) ttl ci) e
    = (Ok (Z.of_nat (length members)),
       mkManager (Some (without members r)) ttl ci, e').
Proof.
  intros members Hh Hok. unfold cleanup_expired_sessions.
  rewrite SysFacts.bind_run, require_connected.
  rewrite SysFacts.bind_run. cbn [get_self].
  rewrite SysFacts.bind_run. cbn [utcnow].
  rewrite SysFacts.bind_run. cbn [session_ttl]. fold (now e).
  destruct (minus_seconds (now e) ttl) as [cutoff|x]; [|discriminate].
  cbn [eval ret].
  rewrite SysFacts.bind_run.
  unfold on_client at 1.
  cbn [redis_client smembers server_client bind get_self ret
       session_ttl cleanup_interval].
  fold members.
  rewrite SysFacts.bind_run, cleanup_loop_orphans by exact Hh.
  rewrite SysFacts.bind_run. rewrite Z.add_0_l.
  destruct (0 <? Z.of_nat (length members)); cbn [logger bind ret];
    eexists; reflexivity.
Qed.

Lemma cleanup_overflow_eq r ttl ci e x :
  minus_seconds (now e) ttl = Raise x ->
  cleanup_expired_sessions T L server_client (mkManager (Some r) ttl ci) e
  = (Raise x, mkManager (Some r) ttl ci, after_reads 1 e).
Proof.
  intros Hx. unfold cleanup_expired_sessions.
  rewrite SysFacts.bind_run, require_connected.
  rewrite SysFacts.bind_run. cbn [get_self].
  rewrite SysFacts.bind_run. cbn [utcnow].
  rewrite SysFacts.bind_run. cbn [session_ttl]. fold (now e). rewrite Hx.
  cbn [eval raise]. unfold raise, after_reads. do 2 f_equal. lia.
Qed.

(** The sweep computes its cutoff first: when the clock reading less
    [session_ttl] is no [datetime], the [OverflowError] leaves it before
    the server is asked anything.  Otherwise, over an active set whose
    members have no record left (their hashes expired on the server),
    every member is removed from the set and counted, whatever the types
    module; the set is empty afterwards and nothing else on the server is
    touched. *)
Theorem cleanup_removes_orphans r ttl ci e :
  let members := default [] (sets r !! "active_sessions") in
  (forall sid, In sid members -> hashes r !! ("session:" +:+ sid) = None) ->
  let out := cleanup_expired_sessions T L server_client (mkManager (Some r) ttl ci) e in
  (forall x, minus_seconds (now e) ttl = Raise x ->
     out = (Raise x, mkManager (Some r) ttl ci, after_reads 1 e))
  /\ (is_ok (minus_seconds (now e) ttl) = true ->
      fst (fst out) = Ok (Z.of_nat (length members))
      /\ exists r',
           snd (fst out) = mkManager (Some r') ttl ci
           /\ default [] (sets r' !! "active_sessions") = []
           /\ hashes r' = hashes r
           /\ strings r' = strings r
           /\ fst (fst (get_active_session_count server_client
                          (snd (fst out)) (snd out)))
              = Ok 0).
Proof.
  intros members Hh out. subst out. split.
  { intros x Hx. now apply cleanup_overflow_eq. }
  intros Hok.
  destruct (cleanup_orphans_eq r ttl ci e Hh Hok) as (e' & E). fold members in E.
  rewrite E. cbn [fst snd]. split; [reflexivity|].
  assert (Hm : default [] (sets (without members r) !! "active_sessions") = []).
  { rewrite without_members. fold members.
    apply filter_nil_all. intros x Hx.
    apply negb_false_iff, existsb_exists. exists x. split; [exact Hx|].
    apply String.eqb_refl. }
  destruct (without_hashes members r) as [Hhs Hst].
  exists (without members r). repeat split; auto.
  unfold get_active_session_count.
  rewrite SysFacts.bind_run, require_connected. unfold on_client.
  cbn [redis_client scard server_client bind get_self ret fst snd].
  now rewrite Hm.
Qed.

End Orphans.

Lemma cleanup_removes_orphans_witness :
  let r := mkServer ∅ ∅ {["active_sessions" := ["s1"; "s2"]]} ∅ in
  fst (fst (cleanup_expired_sessions types_py lib_stub server_client
              (Fixtures.connected r) (Fixtures.env_at 0)))
  = Ok 2.
Proof.
  intros r.
  destruct (cleanup_removes_orphans types_py lib_stub r (24 * 60 * 60) (60 * 60)
              (Fixtures.env_at 0)) as [_ H].
  - intros sid _. apply lookup_empty.
  - destruct (H eq_refl) as [H' _]. exact H'.
Defined.

End RedisCleanupFacts.


(* --------------------------------------------------------------------- *)
(** ** Methods that return *)
(* --------------------------------------------------------------------- *)

Module OutcomeFacts.

Lemma yields_ret {S A} (P : A -> Prop) (a : A) : P a -> yields (S := S) P (ret a).
Proof. intros H s e. exact H. Qed.

Lemma yields_raise {S A} (P : A -> Prop) x : yields (S := S) P (raise x).
Proof. intros s e. exact I. Qed.

Lemma yields_bind {S A B} (P : B -> Prop) (c : M S A) (k : A -> M S B) :
  (forall a, yields P (k a)) -> yields P (bind c k).
Proof.
  intros Hk s e. rewrite SysFacts.bind_run.
  destruct (c s e) as [[[a|x] s'] e']; [apply Hk | exact I].
Qed.

Lemma total_ret {S A} (P : A -> Prop) (a : A) : P a -> total (S := S) P (ret a).
Proof. intros H s e. exists a. split; [reflexivity | exact H]. Qed.

Lemma total_bind {S A B} (P : B -> Prop) (c : M S A) (k : A -> M S B) :
  total (fun _ => True) c -> (forall a, total P (k a)) -> total P (bind c k).
Proof.
  intros Hc Hk s e. rewrite SysFacts.bind_run.
  destruct (Hc s e) as (a & Ea & _).
  destruct (c s e) as [[r s'] e']. cbn [fst] in Ea. subst r. apply Hk.
Qed.

Lemma total_try_except {S A} (P : A -> Prop) (c : M S A) (h : exn -> M S A) :
  yields P c -> (forall x, total P (h x)) -> total P (try_except c h).
Proof.
  intros Hc Hh s e. rewrite SysFacts.try_except_run.
  specialize (Hc s e). destruct (c s e) as [[[a|x] s'] e']; cbn [fst] in *.
  - exists a. split; [reflexivity | exact Hc].
  - apply Hh.
Qed.

Lemma total_utcnow {S} : total (S := S) (fun _ => True) utcnow.
Proof. intros s e. eexists. split; [reflexivity | exact I]. Qed.

Lemma total_logger {S} level msg : total (S := S) (fun _ => True) (logger level msg).
Proof. intros s e. eexists. split; [reflexivity | exact I]. Qed.

Lemma total_get_self {S} : total (S := S) (fun _ => True) get_self.
Proof. intros s e. eexists. split; [reflexivity | exact I]. Qed.

Lemma keeps_try_except {S A} (rel : S -> S -> Prop) (c : M S A) (h : exn -> M S A) :
  (forall s1 s2 s3, rel s1 s2 -> rel s2 s3 -> rel s1 s3) ->
  keeps rel c -> (forall x, keeps rel (h x)) -> keeps rel (try_except c h).
Proof.
  intros Ht Hc Hh s e. rewrite SysFacts.try_except_run.
  specialize (Hc s e). destruct (c s e) as [[[a|x] s'] e']; cbn [fst snd] in *.
  - exact Hc.
  - eapply Ht; [exact Hc | apply Hh].
Qed.

End OutcomeFacts.


(* --------------------------------------------------------------------- *)
(** ** The health checks *)
(* --------------------------------------------------------------------- *)

Module HealthCheckFacts.
Import Types Cache Health PyFloat HealthChecks PreservationFacts OutcomeFacts.

Section AnyComponents.
Context {SM CS : Type} {mgrSM : ISessionManager SM} {svcCS : ICacheService CS}.
Variable L : Redis.pylib.
Variable format_1f : float -> string.

Local Abbreviation HS := (HealthService SM CS).

(** *** The system check *)

Lemma system_status_cases (self : HS) metrics :
  let cpu_high := (cpu_threshold self <? cpu_percent metrics)%float in
  let memory_high := (memory_threshold self <? memory_percent metrics)%float in
  let disk_high := (disk_threshold self <? disk_percent metrics)%float in
  fst (system_status format_1f self metrics)
  = (if disk_high then UNHEALTHY
     else if cpu_high || memory_high then DEGRADED else HEALTHY)
  /\ length (snd (system_status format_1f self metrics))
     = ((if cpu_high then 1 else 0) + (if memory_high then 1 else 0)
        + (if disk_high then 1 else 0))%nat.
Proof.
  unfold system_status.
  destruct (cpu_threshold self <? cpu_percent metrics)%float;
    destruct (memory_threshold self <? memory_percent metrics)%float;
    destruct (disk_threshold self <? disk_percent metrics)%float;
    split; reflexivity.
Qed.

(** [_check_system_health] never raises and reports one component,
    ["system"].  When the probes answer, its status is Unhealthy if the disk
    reading exceeds its threshold, whatever the others are; otherwise
    Degraded if the CPU or the memory reading exceeds its threshold;
    otherwise Healthy.  The message is the fixed one exactly when no
    threshold is exceeded.  When a probe raises, the status is Unhealthy
    and the message carries the error; so it is when the division that
    gives the available megabytes raises, which no count of bytes below
    [2^1043] in magnitude makes it do. *)
Theorem check_system_health_status psutil (self : HS) e :
  exists c,
    fst (fst (_check_system_health format_1f psutil self e)) = Ok [("system", c)]
    /\ name c = "system"
    /\ match psutil with
       | Raise x =>
           status c = UNHEALTHY
           /\ message c = "Failed to get system metrics: " +:+ exn_str x
       | Ok p =>
           match int_truediv (virtual_memory_available p) (1024 * 1024) with
           | Raise x =>
               2 ^ 1043 <= Z.abs (virtual_memory_available p)
               /\ status c = UNHEALTHY
               /\ message c = "Failed to get system metrics: " +:+ exn_str x
           | Ok _ =>
               let cpu_high := (cpu_threshold self <? cpu p)%float in
               let memory_high :=
                 (memory_threshold self <? virtual_memory_percent p)%float in
               let disk_high :=
                 (disk_threshold self <? disk_usage_percent p)%float in
               status c
               = (if disk_high then UNHEALTHY
                  else if cpu_high || memory_high then DEGRADED else HEALTHY)
               /\ (message c = "System resources are healthy"
                   <-> cpu_high || memory_high || disk_high = false)
           end
       end.
Proof.
  unfold _check_system_health. rewrite SysFacts.bind_run. cbn [time_time].
  rewrite SysFacts.try_except_run.
  destruct psutil as [p|x].
  - unfold _get_system_metrics.
    rewrite !SysFacts.bind_run. cbn [eval ret].
    rewrite !SysFacts.bind_run. cbn [time_time].
    rewrite !SysFacts.bind_run. cbn [get_self ret].
    rewrite !SysFacts.bind_run.
    destruct (int_truediv (virtual_memory_available p) (1024 * 1024))
      as [mb|x] eqn:Emb; cbn [eval ret raise];
      [| eexists; split; [reflexivity|]; split; [reflexivity|];
         split; [|split; reflexivity];
         apply PyFloatFacts.int_truediv_megabytes in Emb; exact Emb].
    rewrite !SysFacts.bind_run. cbn [get_self].
    unfold system_status.
    cbn [cpu_percent memory_percent disk_percent cpu_threshold
         memory_threshold disk_threshold].
    destruct (cpu_threshold self <? cpu p)%float;
      destruct (memory_threshold self <? virtual_memory_percent p)%float;
      destruct (disk_threshold self <? disk_usage_percent p)%float;
      cbn [HealthStatus_eqb app bind time_time utcnow ret fst snd];
      eexists; (split; [reflexivity|]); cbn [name status message orb];
      (split; [reflexivity|]); (split; [reflexivity|]);
      try (split; [intros _; reflexivity | reflexivity]);
      split; try discriminate; intros E; exfalso; revert E;
      unfold String.concat; rewrite ?KeyFacts.append_cons; discriminate.
  - unfold _get_system_metrics. rewrite SysFacts.bind_run. cbn [eval raise].
    eexists. split; [reflexivity|]. repeat split.
Qed.

(** *** Every check answers *)

Lemma total_time_time : total (fun _ => True) (time_time (SM := SM) (CS := CS)).
Proof. intros s e. eexists. split; [reflexivity | exact I]. Qed.

Ltac outcome_step :=
  first
    [ apply yields_raise
    | apply yields_ret; eexists; reflexivity
    | apply yields_bind; intros ?
    | apply total_ret; eexists; reflexivity
    | apply total_bind; [first [apply total_utcnow | apply total_logger
                               | apply total_get_self | apply total_time_time]
                        | intros ?]
    | apply total_try_except; [| intros ?] ].

Ltac outcome_match :=
  match goal with
  | |- yields _ (match ?x with _ => _ end) => destruct x
  | |- yields _ (if ?x then _ else _) => destruct x
  | |- yields _ (let '(_, _) := ?x in _) => destruct x
  | |- total _ (match ?x with _ => _ end) => destruct x
  | |- total _ (if ?x then _ else _) => destruct x
  end.

Lemma total_check_system_health psutil :
  total (S := HS) (one_key "system") (_check_system_health format_1f psutil).
Proof.
  unfold _check_system_health. repeat first [outcome_step | outcome_match].
Qed.

Lemma total_check_session_manager_health :
  total (S := HS) (one_key "session_manager") _check_session_manager_health.
Proof.
  unfold _check_session_manager_health.
  repeat first [outcome_step | outcome_match].
Qed.

Lemma total_check_cache_health :
  total (S := HS) (one_key "cache") (_check_cache_health L).
Proof.
  unfold _check_cache_health. repeat first [outcome_step | outcome_match].
Qed.

Lemma total_check_vscode_health vscode_http :
  total (S := HS) (fun _ => True) (_check_vscode_health vscode_http).
Proof.
  unfold _check_vscode_health.
  apply total_bind; [apply total_time_time | intros start].
  destruct vscode_http as [st| |x]; [destruct (st =? 200)| |];
    intros s e; eexists; (split; [reflexivity | exact I]).
Qed.

Lemma total_check_external vscode_http :
  total (S := HS) (fun d => d = [] \/ one_key "vscode" d)
        (_check_external_services_health vscode_http).
Proof.
  unfold _check_external_services_health.
  apply total_bind; [apply total_get_self | intros self].
  destruct (mem "vscode_config" (config self)).
  - apply total_bind; [apply total_check_vscode_health | intros c].
    apply total_ret. right. eexists. reflexivity.
  - apply total_ret. now left.
Qed.

(** *** What a check leaves of the service *)

Lemma same_components_refl (self : HS) : same_components self self.
Proof. repeat split. Qed.

Lemma same_components_trans (s1 s2 s3 : HS) :
  same_components s1 s2 -> same_components s2 s3 -> same_components s1 s3.
Proof.
  intros (A1 & B1 & C1) (A2 & B2 & C2). repeat split; congruence.
Qed.

Lemma same_components_time_time : keeps (S := HS) same_components time_time.
Proof. intros s e. repeat split. Qed.

Ltac components_step :=
  first
    [ apply same_components_time_time
    | keeps_step same_components_refl same_components_trans
    | apply (keeps_try_except _ _ _ same_components_trans); [| intros ?] ].

Lemma same_components_check_system_health psutil :
  keeps (S := HS) same_components (_check_system_health format_1f psutil).
Proof.
  unfold _check_system_health, _get_system_metrics.
  repeat first [components_step | keeps_match].
Qed.

Lemma same_components_check_external vscode_http :
  keeps (S := HS) same_components (_check_external_services_health vscode_http).
Proof.
  unfold _check_external_services_health, _check_vscode_health.
  repeat first [components_step | keeps_match].
Qed.

Lemma gathered_total k (check : M HS (list (string * ComponentHealth))) self e :
  total (one_key k) check ->
  exists c,
    gathered check self e
    = (Ok (CheckDict [(k, c)]), snd (fst (check self e)), snd (check self e)).
Proof.
  intros Ht. destruct (Ht self e) as (d & Ed & c & ->).
  exists c. unfold gathered.
  destruct (check self e) as [[r s'] e']. cbn [fst snd] in *. now subst r.
Qed.

Lemma same_config_refl (self : HS) : same_config self self.
Proof. reflexivity. Qed.

Lemma same_config_trans (s1 s2 s3 : HS) :
  same_config s1 s2 -> same_config s2 s3 -> same_config s1 s3.
Proof. unfold same_config. congruence. Qed.

Lemma same_config_time_time : keeps (S := HS) same_config time_time.
Proof. intros s e. reflexivity. Qed.

Lemma same_config_on_manager {A} (c : M SM A) : keeps (S := HS) same_config (on_manager c).
Proof.
  intros s e. unfold on_manager. destruct (session_manager s) as [sm|];
    [destruct (c sm e) as [[r sm'] e']|]; reflexivity.
Qed.

Lemma same_config_on_cache {A} (c : M CS A) : keeps (S := HS) same_config (on_cache c).
Proof.
  intros s e. unfold on_cache. destruct (cache_service s) as [cs|];
    [destruct (c cs e) as [[r cs'] e']|]; reflexivity.
Qed.

Ltac config_step :=
  first
    [ apply same_config_time_time
    | apply same_config_on_manager
    | apply same_config_on_cache
    | keeps_step same_config_refl same_config_trans
    | apply (keeps_try_except _ _ _ same_config_trans); [| intros ?] ].

Lemma same_config_check_session_manager_health :
  keeps (S := HS) same_config _check_session_manager_health.
Proof.
  unfold _check_session_manager_health.
  repeat first [config_step | keeps_match].
Qed.

Lemma same_config_check_cache_health :
  keeps (S := HS) same_config (_check_cache_health L).
Proof.
  unfold _check_cache_health. repeat first [config_step | keeps_match].
Qed.

(** The run of the four checks: each answers with its one component
    (the last with none when VS Code is not checked), the session manager
    being checked on the service as the system check left it. *)
Lemma run_overall_health_eq psutil vscode_http (self : HS) e :
  exists c1 c2 c3 d4 self1 e1 self' e',
    run_overall_health L format_1f psutil vscode_http self e
    = (Ok (check_overall_health
             [CheckDict [("system", c1)]; CheckDict [("session_manager", c2)];
              CheckDict [("cache", c3)]; CheckDict d4]),
       self', e')
    /\ same_components self self1
    /\ fst (fst (_check_session_manager_health self1 e1))
       = Ok [("session_manager", c2)]
    /\ e1 = snd (_check_system_health format_1f psutil self e)
    /\ (if mem "vscode_config" (config self)
        then exists c4, d4 = [("vscode", c4)]
        else d4 = []).
Proof.
  unfold run_overall_health, gather_health_checks.
  destruct (gathered_total "system" (_check_system_health format_1f psutil)
              self e (total_check_system_health psutil)) as (c1 & E1).
  pose proof (same_components_check_system_health psutil self e) as F1.
  set (s1 := snd (fst (_check_system_health format_1f psutil self e))) in *.
  set (e1 := snd (_check_system_health format_1f psutil self e)) in *.
  destruct (gathered_total "session_manager" _check_session_manager_health
              s1 e1 total_check_session_manager_health) as (c2 & E2).
  pose proof (same_config_check_session_manager_health s1 e1) as F2.
  set (s2 := snd (fst (_check_session_manager_health s1 e1))) in *.
  set (e2 := snd (_check_session_manager_health s1 e1)) in *.
  destruct (gathered_total "cache" (_check_cache_health L)
              s2 e2 total_check_cache_health) as (c3 & E3).
  pose proof (same_config_check_cache_health s2 e2) as F3.
  set (s3 := snd (fst (_check_cache_health L s2 e2))) in *.
  set (e3 := snd (_check_cache_health L s2 e2)) in *.
  assert (Hcfg : config s3 = config self).
  { destruct F1 as (F1 & _). unfold same_config in F2, F3. congruence. }
  assert (E4 : exists d4 s4 e4,
             gathered (_check_external_services_health vscode_http) s3 e3
             = (Ok (CheckDict d4), s4, e4)
             /\ (if mem "vscode_config" (config self)
                 then exists c4, d4 = [("vscode", c4)]
                 else d4 = [])).
  { unfold gathered, _check_external_services_health.
    rewrite SysFacts.bind_run. cbn [get_self]. rewrite Hcfg.
    destruct (mem "vscode_config" (config self)).
    - rewrite SysFacts.bind_run.
      destruct (total_check_vscode_health vscode_http s3 e3) as (c4 & Ec & _).
      destruct (_check_vscode_health vscode_http s3 e3) as [[r s4] e4].
      cbn [fst] in Ec. subst r. cbn [ret]. eauto 10.
    - cbn [ret]. eauto 10. }
  destruct E4 as (d4 & s4 & e4 & E4 & Hd4).
  exists c1, c2, c3, d4, s1, e1, s4, e4.
  split; [|split; [exact F1|split; [|split; [reflexivity|exact Hd4]]]].
  - rewrite SysFacts.bind_run. rewrite SysFacts.bind_run, E1.
    rewrite SysFacts.bind_run, E2. rewrite SysFacts.bind_run, E3.
    rewrite SysFacts.bind_run, E4. reflexivity.
  - destruct (total_check_session_manager_health s1 e1) as (d & Ed & c & ->).
    unfold gathered in E2.
    destruct (_check_session_manager_health s1 e1) as [[r s'] e''].
    cbn [fst snd] in *. subst r. now injection E2 as ->.
Qed.

(** No check lets an exception out, so [gather] hands back four
    dictionaries: the report of [check_overall_health] always lists
    ["system"], ["session_manager"] and ["cache"], in this order.
    ["vscode"] is listed exactly when the configuration has an attribute
    [vscode_config]; [Config] of config.py names the section [vscode], so
    with it VS Code is never checked. *)
Theorem overall_health_lists_every_check psutil vscode_http (self : HS) e :
  exists report c1 c2 c3,
    fst (fst (run_overall_health L format_1f psutil vscode_http self e))
    = Ok report
    /\ (if mem "vscode_config" (config self)
        then exists c4,
               report_components report
               = [("system", c1); ("session_manager", c2); ("cache", c3);
                  ("vscode", c4)]
        else report_components report
             = [("system", c1); ("session_manager", c2); ("cache", c3)])
    /\ (config self = Config.Config_fields ->
        report_components report
        = [("system", c1); ("session_manager", c2); ("cache", c3)]).
Proof.
  destruct (run_overall_health_eq psutil vscode_http self e)
    as (c1 & c2 & c3 & d4 & s1 & e1 & s' & e' & E & _ & _ & _ & Hd4).
  rewrite E. eexists _, c1, c2, c3. split; [reflexivity|].
  assert (H : if mem "vscode_config" (config self)
              then exists c4,
                     report_components
                       (check_overall_health
                          [CheckDict [("system", c1)];
                           CheckDict [("session_manager", c2)];
                           CheckDict [("cache", c3)]; CheckDict d4])
                     = [("system", c1); ("session_manager", c2); ("cache", c3);
                        ("vscode", c4)]
              else report_components
                     (check_overall_health
                        [CheckDict [("system", c1)];
                         CheckDict [("session_manager", c2)];
                         CheckDict [("cache", c3)]; CheckDict d4])
                   = [("system", c1); ("session_manager", c2); ("cache", c3)]).
  { destruct (mem "vscode_config" (config self)).
    - destruct Hd4 as (c4 & ->). exists c4. reflexivity.
    - subst d4. reflexivity. }
  split; [exact H|]. intros Hc. rewrite Hc in H. exact H.
Qed.

(** A session manager whose [create_session] raises is reported
    Unhealthy, with the error in the message. *)
Lemma check_session_manager_raises (self : HS) sm e x sm' e' :
  session_manager self = Some sm ->
  mgr_create_session "health_check_user" None sm e = (Raise x, sm', e') ->
  exists c,
    fst (fst (_check_session_manager_health self e))
    = Ok [("session_manager", c)]
    /\ status c = UNHEALTHY
    /\ message c = "Session manager error: " +:+ exn_str x.
Proof.
  intros Hsm Hc. unfold _check_session_manager_health.
  rewrite SysFacts.bind_run. cbn [get_self]. rewrite Hsm.
  rewrite SysFacts.bind_run. cbn [time_time].
  rewrite SysFacts.try_except_run, SysFacts.bind_run.
  unfold on_manager at 1. cbn [session_manager]. rewrite Hsm, Hc.
  eexists. split; [reflexivity|]. split; reflexivity.
Qed.

End AnyComponents.

(** Against types.py the session manager is never healthy.  With an
    in-memory manager that holds no session for ["health_check_user"] (a
    fresh one, and every one after it, since no session can be created) the
    check of the session manager fails in [create_session], the component
    is reported Unhealthy with the [TypeError] as message, and the overall
    status is ["unhealthy"] whatever the system, the cache and VS Code
    answer. *)
Theorem overall_health_unhealthy_types_py {CS} {svcCS : ICacheService CS}
    L format_1f psutil vscode_http
    (self : HealthService InMemory.InMemorySessionManager CS) sm e :
  session_manager self = Some sm ->
  InMemory.user_sessions sm !! "health_check_user" = None ->
  exists report c,
    fst (fst (run_overall_health (mgrSM := InMemory_ISessionManager types_py)
                L format_1f psutil vscode_http self e))
    = Ok report
    /\ report_status report = "unhealthy"
    /\ dict_get "session_manager" (report_components report) = Some c
    /\ status c = UNHEALTHY
    /\ message c
       = "Session manager error: Session.__init__() got an unexpected keyword argument 'session_id'".
Proof.
  intros Hsm Hidx.
  destruct (run_overall_health_eq (mgrSM := InMemory_ISessionManager types_py)
              L format_1f psutil vscode_http self e)
    as (c1 & c2 & c3 & d4 & s1 & e1 & s' & e' & E & (_ & Hs1 & _) & E2 & _ & Hd4).
  rewrite Hsm in Hs1.
  destruct (check_session_manager_raises
              (mgrSM := InMemory_ISessionManager types_py)
              s1 sm e1 unexpected_session_id sm
              (InMemory.after_failed_create e1) Hs1)
    as (c & Ec & Hst & Hmsg).
  { apply InMemoryFacts.create_session_raises.
    now apply InMemoryFacts.existing_active_no_index. }
  rewrite E2 in Ec. injection Ec as <-.
  rewrite E. exists (check_overall_health
                       [CheckDict [("system", c1)];
                        CheckDict [("session_manager", c2)];
                        CheckDict [("cache", c3)]; CheckDict d4]), c2.
  split; [reflexivity|].
  assert (Hd : d4 = [] \/ exists c4, d4 = [("vscode", c4)]).
  { destruct (mem "vscode_config" (config self)); auto. }
  split; [|split; [|split; [exact Hst | exact Hmsg]]].
  - unfold check_overall_health. cbn [report_status].
    rewrite HealthFacts.overall_of_by_count. unfold worst_by_count, has.
    destruct Hd as [-> | (c4 & ->)]; cbn; rewrite Hst; cbn;
      rewrite orb_true_r; reflexivity.
  - destruct Hd as [-> | (c4 & ->)]; reflexivity.
Qed.

Lemma overall_health_unhealthy_types_py_witness :
  let self :=
    HealthService_init (SM := InMemory.InMemorySessionManager)
      Config.Config_fields (Some InMemory.InMemorySessionManager_init)
      (Some InMemoryCacheService_init) (fun _ => 0%float) in
  exists report,
    fst (fst (run_overall_health (mgrSM := InMemory_ISessionManager types_py)
                Redis.lib_stub (fun _ => "")
                (Ok (mkReadings 10 20 (1024 * 1024) 30)) TimedOut
                self (frozen_env 0)))
    = Ok report
    /\ report_status report = "unhealthy".
Proof.
  intros self.
  destruct (overall_health_unhealthy_types_py Redis.lib_stub (fun _ => "")
              (Ok (mkReadings 10 20 (1024 * 1024) 30)) TimedOut self
              InMemory.InMemorySessionManager_init (frozen_env 0))
    as (report & c & E & Hs & _).
  - reflexivity.
  - apply lookup_empty.
  - exists report. split; assumption.
Defined.

End HealthCheckFacts.


(* --------------------------------------------------------------------- *)
(** ** The health check of the in-memory cache *)
(* --------------------------------------------------------------------- *)

Module CacheHealthFacts.
Import Types Cache Health PyFloat HealthChecks CacheFacts InMemoryCacheFacts HealthCheckFacts.

Lemma count_expired_total entries :
  forall self e,
    exists n e', count_expired entries self e = (Ok n, self, e').
Proof.
  induction entries as [|en entries IH]; intros self e.
  - eexists _, _. reflexivity.
  - cbn [count_expired]. rewrite SysFacts.bind_run. unfold _is_expired.
    destruct (expires_at en) as [x|].
    + rewrite SysFacts.bind_run. cbn [utcnow ret].
      destruct (IH self (mkEnv (clock e) (S (reads e)) (uuids e) (draws e) (log e)))
        as (n & e' & E).
      rewrite SysFacts.bind_run, E. eexists _, _. reflexivity.
    + cbn [ret]. destruct (IH self e) as (n & e' & E).
      rewrite SysFacts.bind_run, E. eexists _, _. reflexivity.
Qed.

Lemma get_stats_total self e :
  exists stats e', get_stats self e = (Ok stats, self, e').
Proof.
  unfold get_stats. rewrite SysFacts.bind_run. cbn [get_self].
  destruct (count_expired_total (map snd (map_to_list (cache self))) self e)
    as (n & e' & E).
  rewrite SysFacts.bind_run, E. eexists _, _. reflexivity.
Qed.

Lemma check_cache_health_eq {SM} L
    (self : HealthService SM InMemoryCacheService) cs e :
  cache_service self = Some cs ->
  is_ok (plus_seconds (clock e (S (reads e))) 60) = true ->
  let in_time :=
    clock e (reads e + 3) <=? clock e (reads e + 1) + seconds 60 in
  exists c self' e',
    _check_cache_health L self e = (Ok [("cache", c)], self', e')
    /\ status c = (if in_time then HEALTHY else UNHEALTHY)
    /\ message c = (if in_time then "Cache service is operational"
                    else "Cache service error: Cache value mismatch")
    /\ cache_service self'
       = Some (set_cache (delete "default:health_check_key" (cache cs)) cs).
Proof.
  intros Hcs Hfit in_time. unfold _check_cache_health.
  rewrite SysFacts.bind_run. cbn [get_self]. rewrite Hcs.
  rewrite SysFacts.bind_run. cbn [time_time].
  rewrite SysFacts.try_except_run.
  rewrite SysFacts.bind_run. cbn [utcnow].
  rewrite SysFacts.bind_run.
  unfold on_cache at 1. cbn [cache_service svc_set InMemory_ICacheService].
  rewrite Hcs, set_ok by exact Hfit.
  rewrite SysFacts.bind_run.
  unfold on_cache at 1. cbn [cache_service svc_get InMemory_ICacheService].
  rewrite get_eq. cbn [cache set_cache]. rewrite lookup_insert_eq.
  cbn [expires_at entry_value]. unfold expired_at, now, after_reads.
  cbn [expires_at reads clock ttl_or Z.eqb].
  replace (S (reads e) + 2)%nat with (reads e + 3)%nat by lia.
  replace (S (reads e)) with (reads e + 1)%nat by lia.
  assert (Ht : (clock e (reads e + 1) + seconds 60 <? clock e (reads e + 3))
               = negb in_time).
  { subst in_time. rewrite Z.leb_antisym. now rewrite negb_involutive. }
  rewrite Ht. destruct in_time; cbn [negb].
  - rewrite SysFacts.bind_run.
    unfold on_cache at 1. cbn [cache_service svc_delete InMemory_ICacheService].
    rewrite delete_eq. cbn [cache set_cache default_ttl].
    rewrite SysFacts.bind_run.
    unfold differs_from_test_value, eq_str.
    rewrite !String.eqb_refl. cbn [andb negb ret].
    rewrite SysFacts.bind_run. cbn [time_time].
    rewrite SysFacts.bind_run, SysFacts.try_except_run, SysFacts.bind_run.
    unfold on_cache at 1. cbn [cache_service svc_get_stats InMemory_ICacheService].
    match goal with
    | |- context [get_stats ?s ?e0] =>
        destruct (get_stats_total s e0) as (stats & e' & ->)
    end.
    cbn [ret bind utcnow fst snd cache_service].
    eexists _, _, _. split; [reflexivity|]. split; [reflexivity|].
    split; [reflexivity|].
    cbn [cache_service]. unfold set_cache. cbn [cache default_ttl].
    now rewrite delete_insert_eq.
  - rewrite SysFacts.bind_run.
    unfold on_cache at 1. cbn [cache_service svc_delete InMemory_ICacheService].
    rewrite delete_eq. cbn [cache set_cache default_ttl].
    rewrite SysFacts.bind_run.
    cbn [differs_from_test_value raise bind logger utcnow ret fst snd cache_service].
    eexists _, _, _. split; [reflexivity|]. split; [reflexivity|].
    split; [reflexivity|].
    cbn [cache_service]. unfold set_cache. cbn [cache default_ttl].
    now rewrite delete_delete_eq, delete_insert_eq.
Qed.

Lemma check_cache_health_overflow {SM} L
    (self : HealthService SM InMemoryCacheService) cs e x :
  cache_service self = Some cs ->
  plus_seconds (clock e (S (reads e))) 60 = Raise x ->
  exists c self' e',
    _check_cache_health L self e = (Ok [("cache", c)], self', e')
    /\ status c = UNHEALTHY
    /\ message c = "Cache service error: " +:+ exn_str x
    /\ cache_service self' = Some cs.
Proof.
  intros Hcs Hx. unfold _check_cache_health.
  rewrite SysFacts.bind_run. cbn [get_self]. rewrite Hcs.
  rewrite SysFacts.bind_run. cbn [time_time].
  rewrite SysFacts.try_except_run.
  rewrite SysFacts.bind_run. cbn [utcnow].
  rewrite SysFacts.bind_run.
  unfold on_cache at 1. cbn [cache_service svc_set InMemory_ICacheService].
  rewrite Hcs, set_eq. unfold now. cbn [reads clock ttl_or Z.eqb default_ttl].
  rewrite Hx.
  cbn [raise bind logger utcnow ret fst snd cache_service].
  eexists _, _, _. split; [reflexivity|]. split; [reflexivity|].
  split; [reflexivity|]. destruct cs; reflexivity.
Qed.

(** The check of an in-memory cache writes ["health_check_key"] in the
    default namespace with 60 s to live, reads it back and deletes it.  The
    component is Healthy when the clock reading of the read is not later
    than the reading [set] took plus 60 s, and Unhealthy with a value
    mismatch otherwise.  Either way the key is gone afterwards, whatever
    was stored under it before, and no other entry is touched.  Only when
    the reading [set] took is within a minute of the last [datetime] does
    [set] raise: the component is then Unhealthy with the error as message
    and the cache is left as it was. *)
Theorem check_cache_health_in_memory {SM} L
    (self : HealthService SM InMemoryCacheService) cs e :
  cache_service self = Some cs ->
  let out := _check_cache_health L self e in
  let set_at := clock e (reads e + 1) in
  let in_time := clock e (reads e + 3) <=? set_at + seconds 60 in
  exists c,
    fst (fst out) = Ok [("cache", c)]
    /\ (datetime_min <= set_at + seconds 60 <= datetime_max ->
        status c = (if in_time then HEALTHY else UNHEALTHY)
        /\ message c = (if in_time then "Cache service is operational"
                        else "Cache service error: Cache value mismatch")
        /\ cache_service (snd (fst out))
           = Some (set_cache (delete "default:health_check_key" (cache cs)) cs))
    /\ (~ datetime_min <= set_at + seconds 60 <= datetime_max ->
        status c = UNHEALTHY
        /\ message c = "Cache service error: date value out of range"
        /\ cache_service (snd (fst out)) = Some cs).
Proof.
  intros Hcs out set_at in_time. subst out.
  assert (Hs : S (reads e) = (reads e + 1)%nat) by lia.
  destruct (plus_seconds (clock e (S (reads e))) 60) as [t|x] eqn:Ep.
  - assert (Hok : is_ok (plus_seconds (clock e (S (reads e))) 60) = true)
      by (now rewrite Ep).
    destruct (check_cache_health_eq L self cs e Hcs Hok)
      as (c & self' & e' & -> & Hst & Hm & Hc).
    exists c. split; [reflexivity|]. split; [intros _; repeat split; assumption|].
    intros Hout. exfalso. apply Hout.
    apply SysFacts.plus_seconds_is_ok_iff in Hok. rewrite Hs in Hok.
    exact (proj2 Hok).
  - destruct (check_cache_health_overflow L self cs e x Hcs Ep)
      as (c & self' & e' & -> & Hst & Hm & Hc).
    exists c. split; [reflexivity|]. split.
    + intros Hin. exfalso.
      rewrite Hs, SysFacts.plus_seconds_in_range in Ep;
        [discriminate | vm_compute; split; discriminate | exact Hin].
    + intros _. split; [exact Hst|]. split; [|exact Hc].
      rewrite Hm. f_equal. revert Ep.
      unfold plus_seconds, timedelta_seconds, datetime_add. cbn [andb].
      change (-999999999 <=? 60 / 86400) with true.
      change (60 / 86400 <=? 999999999) with true. cbn [andb].
      destruct (_ && _); [discriminate|]. intros E. injection E as <-.
      reflexivity.
Qed.

Lemma check_cache_health_in_memory_witness :
  let cs :=
    mkInMemoryCache {["default:health_check_key" := mkEntry (VStr "mine") None 0]}
                    3600 in
  let self :=
    HealthService_init (SM := InMemory.InMemorySessionManager)
      Config.Config_fields None (Some cs) (fun _ => 0%float) in
  let out :=
    _check_cache_health Redis.lib_stub self (frozen_env 0) in
  exists c,
    fst (fst out) = Ok [("cache", c)]
    /\ status c = HEALTHY
    /\ cache_service (snd (fst out)) = Some (mkInMemoryCache ∅ 3600).
Proof.
  intros cs self out.
  destruct (check_cache_health_in_memory Redis.lib_stub self cs
              (frozen_env 0) eq_refl)
    as (c & E & H & _).
  destruct H as (Hs & _ & Hc); [vm_compute; split; discriminate|].
  exists c. split; [exact E|]. split; [exact Hs|].
  fold out in Hc. rewrite Hc. reflexivity.
Defined.

End CacheHealthFacts.


(* --------------------------------------------------------------------- *)
(** ** The registry of MCP functions *)
(* --------------------------------------------------------------------- *)

Module RegistryFacts.
Import Cache Registry DictFacts.

Lemma map_fst_dict_set {V} k (v : V) d :
  map fst (dict_set k v d)
  = match dict_get k d with
    | Some _ => map fst d
    | None => (map fst d ++ [k])%list
    end.
Proof.
  induction d as [|[k' v'] d IH]; simpl; [reflexivity|].
  destruct (String.eqb_spec k k') as [->|Hne]; simpl; [reflexivity|].
  rewrite IH. destruct (dict_get k d); reflexivity.
Qed.

Lemma dict_get_None_notin {V} k (d : list (string * V)) :
  dict_get k d = None -> ~ In k (map fst d).
Proof.
  induction d as [|[k' v'] d IH]; simpl; [tauto|].
  destruct (String.eqb_spec k k') as [->|Hne]; [discriminate|].
  intros H [E|Hin]; [congruence | now apply IH].
Qed.

Lemma NoDup_list_functions f reg :
  List.NoDup (list_functions reg) -> List.NoDup (list_functions (register f reg)).
Proof.
  unfold list_functions, register. intros Hnd. rewrite map_fst_dict_set.
  destruct (dict_get (name f) reg) eqn:E; [exact Hnd|].
  apply NoDup_ListNoDup, NoDup_app. split; [|split].
  - apply NoDup_ListNoDup. exact Hnd.
  - intros x Hx Hx'. apply list_elem_of_In in Hx.
    apply list_elem_of_In in Hx'. destruct Hx' as [<-|[]].
    now apply (dict_get_None_notin _ _ E).
  - apply NoDup_singleton.
Qed.

Lemma NoDup_register_all fs :
  forall reg,
    List.NoDup (list_functions reg) ->
    List.NoDup (list_functions (register_all fs reg)).
Proof.
  induction fs as [|f fs IH]; intros reg Hnd; [exact Hnd|].
  cbn [register_all fold_left]. apply IH. now apply NoDup_list_functions.
Qed.

(** The registry is a dictionary by name: a function registered is found
    under its name and listed once, whatever was registered before, and
    registering under a name already taken replaces the function without
    a word.  Looking up another name is not affected.  After any sequence
    of registrations on a new registry no name is listed twice. *)
Theorem registry_is_keyed_by_name f reg n fs :
  get (name f) (register f reg) = Some f
  /\ (n <> name f -> get n (register f reg) = get n reg)
  /\ list_functions (register f reg)
     = match get (name f) reg with
       | Some _ => list_functions reg
       | None => (list_functions reg ++ [name f])%list
       end
  /\ (get_function_info n reg = None <-> get n reg = None)
  /\ List.NoDup (list_functions (register_all fs MCPFunctionRegistry_init))
  /\ (forall g, name g = name f ->
        get (name f) (register g (register f reg)) = Some g).
Proof.
  unfold get, register, list_functions.
  split; [apply dict_get_set_eq|].
  split; [intros Hne; apply dict_get_set_ne; congruence|].
  split; [apply map_fst_dict_set|].
  split.
  { unfold get_function_info. destruct (dict_get n reg); split; congruence. }
  split; [apply NoDup_register_all; constructor|].
  intros g <-. apply dict_get_set_eq.
Qed.

End RegistryFacts.


(* --------------------------------------------------------------------- *)
(** ** [validate_config] *)
(* --------------------------------------------------------------------- *)

Module ConfigFacts.
Import Config.











(** [len] counts code points: on ASCII that is the number of bytes, and
    a secret key of nine two-byte characters is too short. *)
Lemma str_len_ascii s :
  (forall c, In c (list_ascii_of_string s) -> (nat_of_ascii c < 128)%nat) ->
  str_len s = String.length s.
Proof.
  induction s as [|c s IH]; intros H; [reflexivity|].
  cbn [str_len String.length]. cbv zeta.
  assert (Hc : (nat_of_ascii c < 128)%nat) by (apply H; now left).
  destruct (Nat.leb_spec 128 (nat_of_ascii c)); [lia|]. cbn [andb].
  f_equal. apply IH. intros c' Hc'. apply H. now right.
Qed.

Example secret_key_of_nine_code_points :
  String.length "ééééééééé" = 18%nat
  /\ str_len "ééééééééé" = 9%nat
  /\ In "Secret key must be at least 16 characters long"
        (validate_config
           (mkConfig ServerConfig.default RedisConfig.default
              VSCodeConfig.default WhatsAppConfig.default CopilotConfig.default
              (SecurityConfig.mk "ééééééééé" "HS256" 3600 None ["*"])
              MonitoringConfig.default)).
Proof.
  split; [reflexivity|]. split; [reflexivity|].
  vm_compute. now left.
Qed.


End ConfigFacts.
